(** * BuildBurn: cost attribution and advisory engine

    A shallow embedding of the Go sources of the engine
    (the analyzer with [RunnerRate] and [Analyze], the cost aggregator
    [CalculateCost], and the recommendation detectors), together with the
    properties the specification states about them.

    Conventions of the embedding.
    - [time.Duration] is an [int64] count of nanoseconds: a [Z].
      [time.Time] is an instant counted in nanoseconds: a [Z];
      [Time.Sub] saturates at the bounds of [Duration], as in Go.
    - [float64] is an interface ([Float64]) with two instances:
      [binary64], IEEE 754 double precision on the kernel's primitive
      floats, which computes what the Go program computes; and [exact],
      the rationals, which reads every operation without rounding.
      Structural properties are proved for every instance, arithmetic
      identities for [exact], and what depends on the order of the floats
      from the laws that both instances obey ([Float64Laws]).
    - A Go [map] is a [gmap]. Ranging over a map yields its entries in an
      order the language leaves unspecified: the functions that range over
      a map take the enumeration as an argument, and their runs are the
      results for the enumerations that are permutations of the entries.
    - What the program calls in Go's standard library and cannot be read
      from its own source is an interface ([GoLib]): the Unicode case
      mapping behind [strings.ToLower] and the algorithm of [sort.Slice],
      known by its contract ([GoLibSpec], [GoSortSpec]). The instance [go]
      is the library itself: UTF-8 decoding with the case tables of package
      [unicode], and the pattern-defeating quicksort of package [sort]. *)

From Stdlib Require Import ZArith QArith Qabs Lqa String Ascii List Bool Lia.
From Stdlib Require Import Floats Sorting.Sorted Sorting.Permutation.
From Stdlib Require Uint63.
From stdpp Require Import gmap strings list fin_maps sorting pretty.

#[local] Set Warnings "-clear-no-such-hyp".

(** ** float64 *)

Declare Scope f64_scope.
Delimit Scope f64_scope with f64.

Class Float64 := {
  F64 : Type;
  (** [float64(n)] for an integer [n] *)
  f64_of_int : Z → F64;
  f64_add : F64 → F64 → F64;
  f64_sub : F64 → F64 → F64;
  f64_mul : F64 → F64 → F64;
  f64_div : F64 → F64 → F64;
  (** [x < y], [x <= y], [x == y] *)
  f64_ltb : F64 → F64 → bool;
  f64_leb : F64 → F64 → bool;
  f64_eqb : F64 → F64 → bool;
  (** [fmt] verb [%.Nf] *)
  f64_format : nat → F64 → string;
}.

Infix "+" := f64_add : f64_scope.
Infix "-" := f64_sub : f64_scope.
Infix "*" := f64_mul : f64_scope.
Infix "/" := f64_div : f64_scope.
Infix "<?" := f64_ltb : f64_scope.
Infix "<=?" := f64_leb : f64_scope.
Infix "=?" := f64_eqb : f64_scope.
Notation "x >? y" := (f64_ltb y x) : f64_scope.

(** A decimal constant of the source, such as [0.008]: Go evaluates constant
    expressions exactly and rounds once, to the nearest [float64]. The
    quotient of two integers below 2^53 is that rounding. *)
Definition f64_const {fl : Float64} (q : Q) : F64 :=
  (f64_of_int (Qnum q) / f64_of_int (Zpos (Qden q)))%f64.

(** *** Decimal printing, shared by the two instances *)

(** The nearest integer to [n / d], ties to even, for [0 <= n]. *)
Definition round_half_even (n : Z) (d : positive) : Z :=
  let fl := (n / Zpos d)%Z in
  let r2 := (2 * (n mod Zpos d))%Z in
  match (r2 ?= Zpos d)%Z with
  | Lt => fl
  | Gt => (fl + 1)%Z
  | Eq => if Z.even fl then fl else (fl + 1)%Z
  end.

Fixpoint zeros (n : nat) : string :=
  match n with O => "" | S k => String "0" (zeros k) end.

(** [neg] is the sign to print, [q] the magnitude. *)
Definition format_decimal (prec : nat) (neg : bool) (q : Q) : string :=
  let scale := (10 ^ Z.of_nat prec)%Z in
  let r := round_half_even (Qnum q * scale) (Qden q) in
  let ip := pretty (r / scale)%Z in
  let fp := pretty (r mod scale)%Z in
  let body :=
    match prec with
    | O => ip
    | _ => ip +:+ "." +:+ zeros (prec - String.length fp) +:+ fp
    end in
  if neg then "-" +:+ body else body.

(** *** The exact instance *)

Definition Qltb (x y : Q) : bool :=
  match (x ?= y)%Q with Lt => true | _ => false end.

Definition exact : Float64 := {|
  F64 := Q;
  f64_of_int := inject_Z;
  f64_add := Qplus;
  f64_sub := Qminus;
  f64_mul := Qmult;
  f64_div := Qdiv;
  f64_ltb := Qltb;
  f64_leb := Qle_bool;
  f64_eqb := Qeq_bool;
  f64_format := fun prec q => format_decimal prec (Qltb q 0) (Qabs q);
|}.

(** *** IEEE 754 binary64 *)

Definition float_of_Z (z : Z) : float :=
  SF2Prim (binary_normalize prec emax z 0 false).

Definition Q_of_float_abs (f : float) : Q :=
  match Prim2SF f with
  | S754_finite _ m e =>
      match e with
      | Zneg p => Zpos m # (2 ^ p)
      | _ => inject_Z (Zpos m * 2 ^ e)
      end
  | _ => 0
  end.

Definition float_format (prec : nat) (f : float) : string :=
  match Prim2SF f with
  | S754_nan => "NaN"
  | S754_infinity false => "+Inf"
  | S754_infinity true => "-Inf"
  | S754_zero s => format_decimal prec s 0
  | S754_finite s _ _ => format_decimal prec s (Q_of_float_abs f)
  end.

Definition binary64 : Float64 := {|
  F64 := float;
  f64_of_int := float_of_Z;
  f64_add := PrimFloat.add;
  f64_sub := PrimFloat.sub;
  f64_mul := PrimFloat.mul;
  f64_div := PrimFloat.div;
  f64_ltb := PrimFloat.ltb;
  f64_leb := PrimFloat.leb;
  f64_eqb := PrimFloat.eqb;
  f64_format := float_format;
|}.

(** ** Packages [unicode/utf8] and [unicode]: the runes of a string and their
    lower case *)

Module utf8.
#[local] Open Scope Z_scope.

(** A string as its bytes, and back. *)
Definition bytes (s : string) : list Z :=
  (λ c, Z.of_N (N_of_ascii c)) <$> list_ascii_of_string s.

Definition of_bytes (l : list Z) : string :=
  string_of_list_ascii ((λ b, ascii_of_N (Z.to_N b)) <$> l).

Definition RuneError : Z := 0xFFFD.
Definition MaxRune : Z := 0x10FFFF.
Definition RuneSelf : Z := 0x80.

Definition between (lo hi b : Z) : bool := (lo <=? b) && (b <=? hi).

(** The table [first]: for a leading byte, the width of the encoding and the
    range of the second byte; nothing for a byte that leads no encoding. *)
Definition first (s0 : Z) : option (nat * Z * Z) :=
  if between 0xC2 0xDF s0 then Some (2%nat, 0x80, 0xBF)
  else if s0 =? 0xE0 then Some (3%nat, 0xA0, 0xBF)
  else if between 0xE1 0xEC s0 then Some (3%nat, 0x80, 0xBF)
  else if s0 =? 0xED then Some (3%nat, 0x80, 0x9F)
  else if between 0xEE 0xEF s0 then Some (3%nat, 0x80, 0xBF)
  else if s0 =? 0xF0 then Some (4%nat, 0x90, 0xBF)
  else if between 0xF1 0xF3 s0 then Some (4%nat, 0x80, 0xBF)
  else if s0 =? 0xF4 then Some (4%nat, 0x80, 0x8F)
  else None.

(** [DecodeRuneInString]: the first rune of [s] and its width; a byte that
    starts no valid encoding is [RuneError] with width 1. *)
Definition DecodeRuneInString (s : list Z) : Z * nat :=
  match s with
  | [] => (RuneError, 0%nat)
  | s0 :: _ =>
      if s0 <? RuneSelf then (s0, 1%nat)
      else
        match first s0 with
        | None => (RuneError, 1%nat)
        | Some (sz, lo, hi) =>
            if (length s <? sz)%nat then (RuneError, 1%nat)
            else
              let s1 := default 0 (s !! 1%nat) in
              if negb (between lo hi s1) then (RuneError, 1%nat)
              else if (sz <=? 2)%nat
              then (Z.lor (Z.shiftl (Z.land s0 0x1F) 6) (Z.land s1 0x3F), 2%nat)
              else
                let s2 := default 0 (s !! 2%nat) in
                if negb (between 0x80 0xBF s2) then (RuneError, 1%nat)
                else if (sz <=? 3)%nat
                then (Z.lor (Z.lor (Z.shiftl (Z.land s0 0x0F) 12)
                                   (Z.shiftl (Z.land s1 0x3F) 6))
                            (Z.land s2 0x3F), 3%nat)
                else
                  let s3 := default 0 (s !! 3%nat) in
                  if negb (between 0x80 0xBF s3) then (RuneError, 1%nat)
                  else (Z.lor (Z.lor (Z.lor (Z.shiftl (Z.land s0 0x07) 18)
                                            (Z.shiftl (Z.land s1 0x3F) 12))
                                     (Z.shiftl (Z.land s2 0x3F) 6))
                              (Z.land s3 0x3F), 4%nat)
        end
  end.

(** [for _, c := range s]: the runes of [s] in order. *)
Fixpoint runes (fuel : nat) (s : list Z) : list Z :=
  match fuel, s with
  | S fuel, _ :: _ =>
      let '(r, width) := DecodeRuneInString s in
      r :: runes fuel (drop width s)
  | _, _ => []
  end.

(** [AppendRune]: the encoding of a rune; a surrogate or a value out of
    range is written as [RuneError]. *)
Definition AppendRune (r : Z) : list Z :=
  let three r := [ Z.lor 0xE0 (Z.shiftr r 12);
                   Z.lor 0x80 (Z.land (Z.shiftr r 6) 0x3F);
                   Z.lor 0x80 (Z.land r 0x3F) ] in
  if between 0 0x7F r then [r]
  else if between 0 0x7FF r
  then [ Z.lor 0xC0 (Z.shiftr r 6); Z.lor 0x80 (Z.land r 0x3F) ]
  else if (r <? 0) || (MaxRune <? r) || between 0xD800 0xDFFF r then three RuneError
  else if r <=? 0xFFFF then three r
  else [ Z.lor 0xF0 (Z.shiftr r 18);
         Z.lor 0x80 (Z.land (Z.shiftr r 12) 0x3F);
         Z.lor 0x80 (Z.land (Z.shiftr r 6) 0x3F);
         Z.lor 0x80 (Z.land r 0x3F) ].

End utf8.

Module unicode.
#[local] Open Scope Z_scope.

Definition MaxASCII : Z := 0x7F.

(** The simple lower-case mappings of the Unicode Character Database
    (version 14.0.0), which package [unicode] tabulates as [CaseRanges], for
    the runes above ASCII: the runes [lo], [lo + stride], ..., [hi] map to
    themselves plus [delta]. *)
Definition lowerRanges : list (Z * Z * Z * Z) :=
  [
    (192, 214, 1, 32); (216, 222, 1, 32); (256, 302, 2, 1); (304, 304, 1, -199);
    (306, 310, 2, 1); (313, 327, 2, 1); (330, 374, 2, 1); (376, 376, 1, -121);
    (377, 381, 2, 1); (385, 385, 1, 210); (386, 388, 2, 1); (390, 390, 1, 206);
    (391, 391, 1, 1); (393, 394, 1, 205); (395, 395, 1, 1); (398, 398, 1, 79);
    (399, 399, 1, 202); (400, 400, 1, 203); (401, 401, 1, 1); (403, 403, 1, 205);
    (404, 404, 1, 207); (406, 406, 1, 211); (407, 407, 1, 209); (408, 408, 1, 1);
    (412, 412, 1, 211); (413, 413, 1, 213); (415, 415, 1, 214); (416, 420, 2, 1);
    (422, 422, 1, 218); (423, 423, 1, 1); (425, 425, 1, 218); (428, 428, 1, 1);
    (430, 430, 1, 218); (431, 431, 1, 1); (433, 434, 1, 217); (435, 437, 2, 1);
    (439, 439, 1, 219); (440, 440, 1, 1); (444, 444, 1, 1); (452, 452, 1, 2);
    (453, 453, 1, 1); (455, 455, 1, 2); (456, 456, 1, 1); (458, 458, 1, 2);
    (459, 475, 2, 1); (478, 494, 2, 1); (497, 497, 1, 2); (498, 500, 2, 1);
    (502, 502, 1, -97); (503, 503, 1, -56); (504, 542, 2, 1); (544, 544, 1, -130);
    (546, 562, 2, 1); (570, 570, 1, 10795); (571, 571, 1, 1); (573, 573, 1, -163);
    (574, 574, 1, 10792); (577, 577, 1, 1); (579, 579, 1, -195); (580, 580, 1, 69);
    (581, 581, 1, 71); (582, 590, 2, 1); (880, 882, 2, 1); (886, 886, 1, 1);
    (895, 895, 1, 116); (902, 902, 1, 38); (904, 906, 1, 37); (908, 908, 1, 64);
    (910, 911, 1, 63); (913, 929, 1, 32); (931, 939, 1, 32); (975, 975, 1, 8);
    (984, 1006, 2, 1); (1012, 1012, 1, -60); (1015, 1015, 1, 1); (1017, 1017, 1, -7);
    (1018, 1018, 1, 1); (1021, 1023, 1, -130); (1024, 1039, 1, 80); (1040, 1071, 1, 32);
    (1120, 1152, 2, 1); (1162, 1214, 2, 1); (1216, 1216, 1, 15); (1217, 1229, 2, 1);
    (1232, 1326, 2, 1); (1329, 1366, 1, 48); (4256, 4293, 1, 7264); (4295, 4295, 1, 7264);
    (4301, 4301, 1, 7264); (5024, 5103, 1, 38864); (5104, 5109, 1, 8);
    (7312, 7354, 1, -3008); (7357, 7359, 1, -3008); (7680, 7828, 2, 1);
    (7838, 7838, 1, -7615); (7840, 7934, 2, 1); (7944, 7951, 1, -8); (7960, 7965, 1, -8);
    (7976, 7983, 1, -8); (7992, 7999, 1, -8); (8008, 8013, 1, -8); (8025, 8031, 2, -8);
    (8040, 8047, 1, -8); (8072, 8079, 1, -8); (8088, 8095, 1, -8); (8104, 8111, 1, -8);
    (8120, 8121, 1, -8); (8122, 8123, 1, -74); (8124, 8124, 1, -9); (8136, 8139, 1, -86);
    (8140, 8140, 1, -9); (8152, 8153, 1, -8); (8154, 8155, 1, -100); (8168, 8169, 1, -8);
    (8170, 8171, 1, -112); (8172, 8172, 1, -7); (8184, 8185, 1, -128);
    (8186, 8187, 1, -126); (8188, 8188, 1, -9); (8486, 8486, 1, -7517);
    (8490, 8490, 1, -8383); (8491, 8491, 1, -8262); (8498, 8498, 1, 28);
    (8544, 8559, 1, 16); (8579, 8579, 1, 1); (9398, 9423, 1, 26); (11264, 11311, 1, 48);
    (11360, 11360, 1, 1); (11362, 11362, 1, -10743); (11363, 11363, 1, -3814);
    (11364, 11364, 1, -10727); (11367, 11371, 2, 1); (11373, 11373, 1, -10780);
    (11374, 11374, 1, -10749); (11375, 11375, 1, -10783); (11376, 11376, 1, -10782);
    (11378, 11378, 1, 1); (11381, 11381, 1, 1); (11390, 11391, 1, -10815);
    (11392, 11490, 2, 1); (11499, 11501, 2, 1); (11506, 11506, 1, 1);
    (42560, 42604, 2, 1); (42624, 42650, 2, 1); (42786, 42798, 2, 1);
    (42802, 42862, 2, 1); (42873, 42875, 2, 1); (42877, 42877, 1, -35332);
    (42878, 42886, 2, 1); (42891, 42891, 1, 1); (42893, 42893, 1, -42280);
    (42896, 42898, 2, 1); (42902, 42920, 2, 1); (42922, 42922, 1, -42308);
    (42923, 42923, 1, -42319); (42924, 42924, 1, -42315); (42925, 42925, 1, -42305);
    (42926, 42926, 1, -42308); (42928, 42928, 1, -42258); (42929, 42929, 1, -42282);
    (42930, 42930, 1, -42261); (42931, 42931, 1, 928); (42932, 42946, 2, 1);
    (42948, 42948, 1, -48); (42949, 42949, 1, -42307); (42950, 42950, 1, -35384);
    (42951, 42953, 2, 1); (42960, 42960, 1, 1); (42966, 42968, 2, 1);
    (42997, 42997, 1, 1); (65313, 65338, 1, 32); (66560, 66599, 1, 40);
    (66736, 66771, 1, 40); (66928, 66938, 1, 39); (66940, 66954, 1, 39);
    (66956, 66962, 1, 39); (66964, 66965, 1, 39); (68736, 68786, 1, 64);
    (71840, 71871, 1, 32); (93760, 93791, 1, 32); (125184, 125217, 1, 34) ].

Definition in_range (r : Z) (e : Z * Z * Z * Z) : bool :=
  let '(lo, hi, stride, _) := e in
  (lo <=? r) && (r <=? hi) && ((r - lo) mod stride =? 0).

Definition ToLower (r : Z) : Z :=
  if r <=? MaxASCII then
    if (65 <=? r) && (r <=? 90) then r + 32 else r
  else
    match List.find (in_range r) lowerRanges with
    | Some (_, _, _, delta) => r + delta
    | None => r
    end.

End unicode.

(** ** Go's standard library, as far as the engine calls it *)

Class GoLib := {
  (** [strings.Map(unicode.ToLower, s)], which [strings.ToLower] applies to a
      string with a byte outside ASCII *)
  unicode_ToLower : string → string;
  (** [sort.Slice(x, less)]: the sorted contents of [x] *)
  sort_Slice : ∀ A : Type, (A → A → bool) → list A → list A;
}.
Arguments sort_Slice {_ _} _ _.

Module strings.

Fixpoint isASCII (s : string) : bool :=
  match s with
  | EmptyString => true
  | String c t => (N_of_ascii c <? 128)%N && isASCII t
  end.

Definition lowerByte (c : ascii) : ascii :=
  let n := N_of_ascii c in
  if (65 <=? n)%N && (n <=? 90)%N then ascii_of_N (n + 32) else c.

Fixpoint mapBytes (f : ascii → ascii) (s : string) : string :=
  match s with
  | EmptyString => EmptyString
  | String c t => String (f c) (mapBytes f t)
  end.

Definition ToLower {lib : GoLib} (s : string) : string :=
  if isASCII s then mapBytes lowerByte s else unicode_ToLower s.

Fixpoint HasPrefix (s prefix : string) : bool :=
  match prefix, s with
  | EmptyString, _ => true
  | String p ps, String c cs => Ascii.eqb c p && HasPrefix cs ps
  | String _ _, EmptyString => false
  end.

(** [Index(s, substr) >= 0] *)
Fixpoint Contains (s substr : string) : bool :=
  HasPrefix s substr ||
  match s with
  | EmptyString => false
  | String _ t => Contains t substr
  end.

(** [Map(mapping, s)]: the runes of [s], each replaced by its image and
    written again; a byte that starts no valid encoding is read as
    [utf8.RuneError], and a rune with a negative image is dropped. *)
Definition Map (mapping : Z → Z) (s : string) : string :=
  let b := utf8.bytes s in
  utf8.of_bytes
    (utf8.runes (length b) b ≫= λ c,
       let r := mapping c in
       if (0 <=? r)%Z then utf8.AppendRune r else []).

End strings.

Module time.

(** nanoseconds, [int64] *)
Definition Duration := Z.
Definition minDuration : Duration := (- 2 ^ 63)%Z.
Definition maxDuration : Duration := (2 ^ 63 - 1)%Z.
Definition Second : Duration := 1000000000%Z.
Definition Minute : Duration := (60 * Second)%Z.

Definition Seconds {fl : Float64} (d : Duration) : F64 :=
  let sec := (d ÷ Second)%Z in
  let nsec := Z.rem d Second in
  (f64_of_int sec + f64_of_int nsec / f64_of_int 1000000000)%f64.

Definition Minutes {fl : Float64} (d : Duration) : F64 :=
  let min := (d ÷ Minute)%Z in
  let nsec := Z.rem d Minute in
  (f64_of_int min + f64_of_int nsec / f64_of_int (60 * 1000000000))%f64.

(** an instant, in nanoseconds *)
Definition Time := Z.

(** [t.Sub(u)]: the difference, or the nearest bound of [Duration] when it
    does not fit *)
Definition Sub (t u : Time) : Duration :=
  let d := (t - u)%Z in
  if (d <? minDuration)%Z then minDuration
  else if (maxDuration <? d)%Z then maxDuration
  else d.

End time.

(** The zero value of [float64], and untyped integer constants used at type
    [float64]. *)
Definition f64_zero {fl : Float64} : F64 := f64_of_int 0.

(** [m[k] += v] on a [map[string]float64]: a missing key reads as zero. *)
Definition map_add {fl : Float64} (m : gmap string F64) (k : string) (v : F64)
  : gmap string F64 :=
  <[k := (default f64_zero (m !! k) + v)%f64]> m.

(** The order in which one [range] statement visits the entries of a map.
    Go leaves it unspecified, and it may change from one loop to the next;
    [is_range] says that every entry is visited once. *)
Definition MapRange (V : Type) := gmap string V → list (string * V).

Definition is_range {V} (rng : MapRange V) (m : gmap string V) : Prop :=
  rng m ≡ₚ map_to_list m.

(** ** The job records fetched from the API *)

Module Step.
Record t := {
  Name : string;
  Conclusion : string;
  StartedAt : time.Time;
  CompletedAt : time.Time;
}.
End Step.

Module Job.
Record t := {
  Name : string;
  Workflow : string;
  Conclusion : string;
  Labels : list string;
  StartedAt : time.Time;
  CompletedAt : time.Time;
  Steps : list Step.t;
}.
End Job.

(** ** The analyzer: [RunnerRate] and the narrative report [Analyze] *)

Module Analyzer.

Module StepCost.
Record t (F : Type) := { Name : string; Min : F }.
Arguments Name {F} _.
Arguments Min {F} _.
End StepCost.

Module WasteItem.
(** [Type_] is the field [Type] of the source. *)
Record t (F : Type) := { Type_ : string; Detail : string; Cost : F }.
Arguments Type_ {F} _.
Arguments Detail {F} _.
Arguments Cost {F} _.
End WasteItem.

Module Report.
Record t (F : Type) := {
  TotalMinutes : F;
  TotalCost : F;
  MonthlyCost : F;
  ByWorkflow : gmap string F;
  TopSteps : list (StepCost.t F);
  Waste : list (WasteItem.t F);
  Suggestions : list string;
}.
Arguments TotalMinutes {F} _.
Arguments TotalCost {F} _.
Arguments MonthlyCost {F} _.
Arguments ByWorkflow {F} _.
Arguments TopSteps {F} _.
Arguments Waste {F} _.
Arguments Suggestions {F} _.
End Report.

Section Analyzer.
Context {fl : Float64} {lib : GoLib}.

Fixpoint RunnerRate (labels : list string) : F64 :=
  match labels with
  | [] => f64_const 0.008
  | l :: rest =>
      let low := strings.ToLower l in
      if strings.Contains low "macos" then f64_const 0.08
      else if strings.Contains low "windows" then f64_const 0.016
      else RunnerRate rest
  end.

(** The variables the loop over the jobs updates. *)
Record vars := {
  r : Report.t F64;
  stepAgg : gmap string F64;
  hasMac : bool;
}.

Definition with_Waste (rep : Report.t F64) (w : list (WasteItem.t F64)) : Report.t F64 :=
  {| Report.TotalMinutes := Report.TotalMinutes rep;
     Report.TotalCost := Report.TotalCost rep;
     Report.MonthlyCost := Report.MonthlyCost rep;
     Report.ByWorkflow := Report.ByWorkflow rep;
     Report.TopSteps := Report.TopSteps rep;
     Report.Waste := w;
     Report.Suggestions := Report.Suggestions rep |}.

(** One pass of the loop over the steps of job [j]. *)
Definition step_body (rate : F64) (v : vars) (s : Step.t) : vars :=
  let sd := time.Minutes (time.Sub (Step.CompletedAt s) (Step.StartedAt s)) in
  if (sd <=? f64_zero)%f64 then v
  else
    let agg := map_add (stepAgg v) (Step.Name s) sd in
    let sn := strings.ToLower (Step.Name s) in
    let w1 :=
      if strings.Contains sn "cache" && String.eqb (Step.Conclusion s) "failure"
      then Report.Waste (r v) ++
           [ {| WasteItem.Type_ := "cache-miss";
                WasteItem.Detail := Step.Name s;
                WasteItem.Cost := (sd * rate)%f64 |} ]
      else Report.Waste (r v) in
    let hasInstall :=
      strings.Contains sn "install" || strings.Contains sn "npm"
      || strings.Contains sn "pip" in
    let w2 :=
      if (sd >? f64_of_int 3)%f64 && hasInstall
      then w1 ++
           [ {| WasteItem.Type_ := "slow-deps";
                WasteItem.Detail :=
                  Step.Name s +:+ " (" +:+ f64_format 1 sd +:+ "m)";
                WasteItem.Cost := (sd * rate * f64_const 0.5)%f64 |} ]
      else w1 in
    {| r := with_Waste (r v) w2; stepAgg := agg; hasMac := hasMac v |}.

(** One pass of the loop over the jobs. *)
Definition job_body (v : vars) (j : Job.t) : vars :=
  let rate := RunnerRate (Job.Labels j) in
  let dur := time.Minutes (time.Sub (Job.CompletedAt j) (Job.StartedAt j)) in
  if (dur <=? f64_zero)%f64 then v
  else
    let cost := (dur * rate)%f64 in
    let waste :=
      if String.eqb (Job.Conclusion j) "failure"
      then Report.Waste (r v) ++
           [ {| WasteItem.Type_ := "retry";
                WasteItem.Detail := "Failed: " +:+ Job.Name j;
                WasteItem.Cost := cost |} ]
      else Report.Waste (r v) in
    let rep :=
      {| Report.TotalMinutes := (Report.TotalMinutes (r v) + dur)%f64;
         Report.TotalCost := (Report.TotalCost (r v) + cost)%f64;
         Report.MonthlyCost := Report.MonthlyCost (r v);
         Report.ByWorkflow := map_add (Report.ByWorkflow (r v)) (Job.Workflow j) cost;
         Report.TopSteps := Report.TopSteps (r v);
         Report.Waste := waste;
         Report.Suggestions := Report.Suggestions (r v) |} in
    let mac := if (rate =? f64_const 0.08)%f64 then true else hasMac v in
    fold_left (step_body rate)
              (Job.Steps j)
              {| r := rep; stepAgg := stepAgg v; hasMac := mac |}.

Definition init : vars :=
  {| r := {| Report.TotalMinutes := f64_zero;
             Report.TotalCost := f64_zero;
             Report.MonthlyCost := f64_zero;
             Report.ByWorkflow := ∅;
             Report.TopSteps := [];
             Report.Waste := [];
             Report.Suggestions := [] |};
     stepAgg := ∅;
     hasMac := false |}.

Definition scan (jobs : list Job.t) : vars := fold_left job_body jobs init.

(** [byMin i j] is the [less] handed to [sort.Slice]. *)
Definition byMin (a b : StepCost.t F64) : bool :=
  (StepCost.Min a >? StepCost.Min b)%f64.

Definition tip (s : StepCost.t F64) : string :=
  "'" +:+ StepCost.Name s +:+ "' used " +:+ f64_format 0 (StepCost.Min s)
  +:+ "m â€” cache or parallelize".

(** [rng] is the order in which the loop over [stepAgg] runs. *)
Definition Analyze (rng : MapRange F64) (jobs : list Job.t) (days : Z)
  : Report.t F64 :=
  let v := scan jobs in
  let top :=
    fold_left (fun acc nm => acc ++ [ {| StepCost.Name := nm.1; StepCost.Min := nm.2 |} ])
              (rng (stepAgg v)) (Report.TopSteps (r v)) in
  let top := sort_Slice byMin top in
  let top := if (10 <? length top)%nat then firstn 10 top else top in
  let waste := Report.Waste (r v) in
  let wasteSum :=
    fold_left (fun acc w => (acc + WasteItem.Cost w)%f64) waste f64_zero in
  let sug := Report.Suggestions (r v) in
  let sug :=
    if (wasteSum >? f64_zero)%f64
    then sug ++ [ "Fix " +:+ pretty (length waste) +:+ " issues to save ~$"
                  +:+ f64_format 2 wasteSum +:+ "/week" ]
    else sug in
  let sug :=
    if hasMac v
    then sug ++ [ "macOS runners cost 10x Linux â€” switch where possible" ]
    else sug in
  let sug :=
    fold_left (fun acc s =>
                 if (StepCost.Min s >? f64_of_int 30)%f64
                 then acc ++ [ tip s ] else acc)
              top sug in
  let monthly :=
    if (0 <? days)%Z
    then (Report.TotalCost (r v) / f64_of_int days * f64_of_int 30)%f64
    else Report.MonthlyCost (r v) in
  {| Report.TotalMinutes := Report.TotalMinutes (r v);
     Report.TotalCost := Report.TotalCost (r v);
     Report.MonthlyCost := monthly;
     Report.ByWorkflow := Report.ByWorkflow (r v);
     Report.TopSteps := top;
     Report.Waste := waste;
     Report.Suggestions := sug |}.

End Analyzer.

End Analyzer.

(** ** The cost aggregator: [CalculateCost] *)

Module Cost.

Module StepAnalysis.
Record t := { Name : string; Duration : time.Duration }.
End StepAnalysis.

Module JobAnalysis.
Record t := {
  Name : string;
  Duration : time.Duration;
  Labels : list string;
  Steps : list StepAnalysis.t;
}.
End JobAnalysis.

Module WorkflowAnalysis.
Record t := { Name : string; Jobs : list JobAnalysis.t }.
End WorkflowAnalysis.

Module StepCostEntry.
Record t (F : Type) := {
  Workflow : string;
  Job : string;
  Step : string;
  Cost : F;
  Minutes : F;
}.
Arguments Workflow {F} _.
Arguments Job {F} _.
Arguments Step {F} _.
Arguments Cost {F} _.
Arguments Minutes {F} _.
End StepCostEntry.

Module CostReport.
Record t (F : Type) := {
  PerStep : list (StepCostEntry.t F);
  PerJob : gmap string F;
  PerWorkflow : gmap string F;
  TotalCost : F;
  ProjectedCost30 : F;
  TopSteps : list (StepCostEntry.t F);
}.
Arguments PerStep {F} _.
Arguments PerJob {F} _.
Arguments PerWorkflow {F} _.
Arguments TotalCost {F} _.
Arguments ProjectedCost30 {F} _.
Arguments TopSteps {F} _.
End CostReport.

Section Cost.
Context {fl : Float64} {lib : GoLib}.

Definition RateLinux : F64 := f64_const 0.008.
Definition RateWindows : F64 := f64_const 0.016.
Definition RateMacOS : F64 := f64_const 0.08.

Definition rateForOS (osLabel : string) : F64 :=
  let low := strings.ToLower osLabel in
  if strings.Contains low "macos" then RateMacOS
  else if strings.Contains low "windows" then RateWindows
  else RateLinux.

Definition resolveRate (labels : list string) (defaultOS : string) : F64 :=
  if (0 <? length labels)%nat then Analyzer.RunnerRate labels
  else rateForOS defaultOS.

(** One pass of the loop over the steps of a job: [allSteps] grows. *)
Definition step_body (wf : WorkflowAnalysis.t) (job : JobAnalysis.t) (rate : F64)
    (allSteps : list (StepCostEntry.t F64)) (step : StepAnalysis.t)
  : list (StepCostEntry.t F64) :=
  let stepMinutes := time.Minutes (StepAnalysis.Duration step) in
  if (stepMinutes <=? f64_zero)%f64 then allSteps
  else
    let stepCost := (stepMinutes * rate)%f64 in
    allSteps ++
      [ {| StepCostEntry.Workflow := WorkflowAnalysis.Name wf;
           StepCostEntry.Job := JobAnalysis.Name job;
           StepCostEntry.Step := StepAnalysis.Name step;
           StepCostEntry.Cost := stepCost;
           StepCostEntry.Minutes := stepMinutes |} ].

(** The variables the loop over the jobs of one workflow updates. *)
Record jvars := {
  perJob : gmap string F64;
  wfCost : F64;
  jSteps : list (StepCostEntry.t F64);
}.

Definition job_body (defaultOS : string) (wf : WorkflowAnalysis.t)
    (v : jvars) (job : JobAnalysis.t) : jvars :=
  let rate := resolveRate (JobAnalysis.Labels job) defaultOS in
  let jobMinutes := time.Minutes (JobAnalysis.Duration job) in
  if (jobMinutes <=? f64_zero)%f64 then v
  else
    let jobCost := (jobMinutes * rate)%f64 in
    {| perJob := map_add (perJob v) (JobAnalysis.Name job) jobCost;
       wfCost := (wfCost v + jobCost)%f64;
       jSteps := fold_left (step_body wf job rate) (JobAnalysis.Steps job) (jSteps v) |}.

(** The variables the loop over the workflows updates. *)
Record wvars := {
  report : CostReport.t F64;
  allSteps : list (StepCostEntry.t F64);
}.

Definition workflow_body (defaultOS : string) (v : wvars)
    (wf : WorkflowAnalysis.t) : wvars :=
  let jv :=
    fold_left (job_body defaultOS wf) (WorkflowAnalysis.Jobs wf)
              {| perJob := CostReport.PerJob (report v);
                 wfCost := f64_zero;
                 jSteps := allSteps v |} in
  {| report :=
       {| CostReport.PerStep := CostReport.PerStep (report v);
          CostReport.PerJob := perJob jv;
          CostReport.PerWorkflow :=
            map_add (CostReport.PerWorkflow (report v))
                    (WorkflowAnalysis.Name wf) (wfCost jv);
          CostReport.TotalCost :=
            (CostReport.TotalCost (report v) + wfCost jv)%f64;
          CostReport.ProjectedCost30 := CostReport.ProjectedCost30 (report v);
          CostReport.TopSteps := CostReport.TopSteps (report v) |};
     allSteps := jSteps jv |}.

Definition init : wvars :=
  {| report := {| CostReport.PerStep := [];
                  CostReport.PerJob := ∅;
                  CostReport.PerWorkflow := ∅;
                  CostReport.TotalCost := f64_zero;
                  CostReport.ProjectedCost30 := f64_zero;
                  CostReport.TopSteps := [] |};
     allSteps := [] |}.

Definition scan (analyses : list WorkflowAnalysis.t) (defaultOS : string) : wvars :=
  fold_left (workflow_body defaultOS) analyses init.

(** [byCost i j] is the [less] handed to [sort.Slice]. *)
Definition byCost (a b : StepCostEntry.t F64) : bool :=
  (StepCostEntry.Cost a >? StepCostEntry.Cost b)%f64.

Definition CalculateCost (analyses : list WorkflowAnalysis.t)
    (defaultOS : string) (observationDays : Z) : CostReport.t F64 :=
  let observationDays := if (observationDays <=? 0)%Z then 1%Z else observationDays in
  let v := scan analyses defaultOS in
  let sorted := sort_Slice byCost (allSteps v) in
  let top := 5%nat in
  let top := if (length sorted <? top)%nat then length sorted else top in
  let dailyCost := (CostReport.TotalCost (report v) / f64_of_int observationDays)%f64 in
  {| CostReport.PerStep := allSteps v;
     CostReport.PerJob := CostReport.PerJob (report v);
     CostReport.PerWorkflow := CostReport.PerWorkflow (report v);
     CostReport.TotalCost := CostReport.TotalCost (report v);
     CostReport.ProjectedCost30 := (dailyCost * f64_of_int 30)%f64;
     CostReport.TopSteps := firstn top sorted |}.

End Cost.

End Cost.

(** ** The recommendation detectors *)

Module Recommendations.

Module CostReport.
Record t := { Jobs : list Job.t; Days : Z }.
End CostReport.

Module Recommendation.
Record t (F : Type) := {
  RuleID : string;
  Severity : string;
  EstimatedMonthlySavings : F;
  Fix : string;
}.
Arguments RuleID {F} _.
Arguments Severity {F} _.
Arguments EstimatedMonthlySavings {F} _.
Arguments Fix {F} _.
End Recommendation.

Section Recommendations.
Context {fl : Float64} {lib : GoLib}.

Definition monthlyScale (days : Z) : F64 :=
  if (days <=? 0)%Z then f64_of_int 1
  else (f64_of_int 30 / f64_of_int days)%f64.

Definition keywords : list string :=
  [ "install"; "npm ci"; "pip install"; "go mod download" ].

Definition cacheMiss_step (cr : CostReport.t) (rate : F64)
    (recs : list (Recommendation.t F64)) (s : Step.t) : list (Recommendation.t F64) :=
  let durSec := time.Seconds (time.Sub (Step.CompletedAt s) (Step.StartedAt s)) in
  if (durSec <=? f64_of_int 60)%f64 then recs
  else
    let sn := strings.ToLower (Step.Name s) in
    let matched := existsb (strings.Contains sn) keywords in
    if negb matched then recs
    else
      let savedMin := (durSec * f64_const 0.7 / f64_of_int 60)%f64 in
      let scale := monthlyScale (CostReport.Days cr) in
      let monthlySavings := (savedMin * rate * scale)%f64 in
      recs ++
        [ {| Recommendation.RuleID := "cache-miss";
             Recommendation.Severity := "high";
             Recommendation.EstimatedMonthlySavings := monthlySavings;
             Recommendation.Fix :=
               "Add actions/cache for step '" +:+ Step.Name s +:+ "' (took "
               +:+ f64_format 0 durSec
               +:+ "s). Caching dependencies can reduce this step by ~70%." |} ].

Definition DetectCacheMiss (cr : CostReport.t) : list (Recommendation.t F64) :=
  fold_left
    (fun recs j =>
       let rate := Analyzer.RunnerRate (Job.Labels j) in
       fold_left (cacheMiss_step cr rate) (Job.Steps j) recs)
    (CostReport.Jobs cr) [].

Definition longCheckout_step (cr : CostReport.t) (rate : F64)
    (recs : list (Recommendation.t F64)) (s : Step.t) : list (Recommendation.t F64) :=
  let durSec := time.Seconds (time.Sub (Step.CompletedAt s) (Step.StartedAt s)) in
  if (durSec <=? f64_of_int 30)%f64 then recs
  else
    let sn := strings.ToLower (Step.Name s) in
    if negb (strings.Contains sn "checkout") then recs
    else
      let savedMin := (durSec * f64_const 0.5 / f64_of_int 60)%f64 in
      let scale := monthlyScale (CostReport.Days cr) in
      let monthlySavings := (savedMin * rate * scale)%f64 in
      recs ++
        [ {| Recommendation.RuleID := "long-checkout";
             Recommendation.Severity := "low";
             Recommendation.EstimatedMonthlySavings := monthlySavings;
             Recommendation.Fix :=
               "Use shallow clone (fetch-depth: 1) for step '" +:+ Step.Name s
               +:+ "' (took " +:+ f64_format 0 durSec
               +:+ "s). This can cut checkout time by ~50%." |} ].

Definition DetectLongCheckout (cr : CostReport.t) : list (Recommendation.t F64) :=
  fold_left
    (fun recs j =>
       let rate := Analyzer.RunnerRate (Job.Labels j) in
       fold_left (longCheckout_step cr rate) (Job.Steps j) recs)
    (CostReport.Jobs cr) [].

(** The map from a step name to the set of the names of the jobs that
    contain it. *)
Definition stepJobs_step (j : Job.t) (stepJobs : gmap string (gmap string bool))
    (s : Step.t) : gmap string (gmap string bool) :=
  let inner := default ∅ (stepJobs !! Step.Name s) in
  <[Step.Name s := <[Job.Name j := true]> inner]> stepJobs.

Definition stepJobs (cr : CostReport.t) : gmap string (gmap string bool) :=
  fold_left (fun m j => fold_left (stepJobs_step j) (Job.Steps j) m)
            (CostReport.Jobs cr) ∅.

Definition duplicate_entry (recs : list (Recommendation.t F64))
    (e : string * gmap string bool) : list (Recommendation.t F64) :=
  let (stepName, jobs) := e in
  if (size jobs <? 2)%nat then recs
  else
    recs ++
      [ {| Recommendation.RuleID := "duplicate-steps";
           Recommendation.Severity := "medium";
           Recommendation.EstimatedMonthlySavings :=
             (f64_of_int (Z.of_nat (size jobs) - 1) * f64_of_int 5)%f64;
           Recommendation.Fix :=
             "Step '" +:+ stepName +:+ "' appears in " +:+ pretty (size jobs)
             +:+ " jobs. Consider using a matrix strategy or reusable workflow to reduce duplication." |} ].

(** [rng] is the order in which the loop over [stepJobs] runs. *)
Definition DetectDuplicateSteps (rng : MapRange (gmap string bool))
    (cr : CostReport.t) : list (Recommendation.t F64) :=
  fold_left duplicate_entry (rng (stepJobs cr)) [].

Definition isMac (labels : list string) : bool :=
  existsb (fun l => strings.Contains (strings.ToLower l) "macos") labels.

Definition expensiveOS_job (cr : CostReport.t)
    (recs : list (Recommendation.t F64)) (j : Job.t) : list (Recommendation.t F64) :=
  if negb (isMac (Job.Labels j)) then recs
  else
    let durMin := time.Minutes (time.Sub (Job.CompletedAt j) (Job.StartedAt j)) in
    if (durMin <=? f64_of_int 5)%f64 then recs
    else
      let scale := monthlyScale (CostReport.Days cr) in
      let monthlySavings := (durMin * f64_const (0.08 - 0.008) * scale)%f64 in
      recs ++
        [ {| Recommendation.RuleID := "expensive-os";
             Recommendation.Severity := "high";
             Recommendation.EstimatedMonthlySavings := monthlySavings;
             Recommendation.Fix :=
               "Job '" +:+ Job.Name j +:+ "' runs on macOS for "
               +:+ f64_format 1 durMin +:+ " min ($"
               +:+ f64_format 2 (durMin * f64_const 0.08)%f64
               +:+ "/run). macOS runners cost 10x Linux. Move non-GUI tests to ubuntu-latest to save ~90%." |} ].

Definition DetectExpensiveOS (cr : CostReport.t) : list (Recommendation.t F64) :=
  fold_left (expensiveOS_job cr) (CostReport.Jobs cr) [].

Definition GenerateRecommendations (rng : MapRange (gmap string bool))
    (cr : CostReport.t) : list (Recommendation.t F64) :=
  let recs := [] in
  let recs := recs ++ DetectCacheMiss cr in
  let recs := recs ++ DetectLongCheckout cr in
  let recs := recs ++ DetectDuplicateSteps rng cr in
  let recs := recs ++ DetectExpensiveOS cr in
  recs.

End Recommendations.

End Recommendations.

(** ** [sort.Slice] as Go's standard library implements it

    The pattern-defeating quicksort of package [sort] (Go 1.19 and later),
    on a list read and written by index. The loops of the library run here
    on a counter that bounds their passes. The engine's properties are
    proved from the contract of [sort.Slice] alone; this module is the
    algorithm itself, to run the engine on concrete inputs. *)

Module GoSort.

Section Sort.
Context {A : Type} (less_elt : A → A → bool).

(** [data.Less(i, j)] and [data.Swap(i, j)] *)
Definition Less (data : list A) (i j : nat) : bool :=
  match data !! i, data !! j with
  | Some x, Some y => less_elt x y
  | _, _ => false
  end.

Definition Swap (data : list A) (i j : nat) : list A :=
  match data !! i, data !! j with
  | Some x, Some y => <[j := x]> (<[i := y]> data)
  | _, _ => data
  end.

(** [for j := i; j > a && data.Less(j, j-1); j-- { data.Swap(j, j-1) }] *)
Fixpoint sink (data : list A) (a j : nat) : list A :=
  match j with
  | O => data
  | S j' =>
      if (a <? j)%nat && Less data j j' then sink (Swap data j j') a j'
      else data
  end.

Definition insertionSort (data : list A) (a b : nat) : list A :=
  fold_left (fun d i => sink d a i) (seq (a + 1) (b - (a + 1))) data.

Fixpoint siftDown (fuel : nat) (data : list A) (lo hi first : nat) : list A :=
  match fuel with
  | O => data
  | S fuel =>
      let root := lo in
      let child := (2 * root + 1)%nat in
      if (hi <=? child)%nat then data
      else
        let child :=
          if (child + 1 <? hi)%nat && Less data (first + child) (first + child + 1)
          then (child + 1)%nat else child in
        if negb (Less data (first + root) (first + child)) then data
        else siftDown fuel (Swap data (first + root) (first + child)) child hi first
  end.

Definition heapSort (data : list A) (a b : nat) : list A :=
  let first := a in
  let lo := 0%nat in
  let hi := (b - a)%nat in
  let data :=
    fold_left (fun d i => siftDown hi d i hi first)
              (rev (seq 0 (S ((hi - 1) / 2)))) data in
  fold_left (fun d i => siftDown hi (Swap d first (first + i)) lo i first)
            (rev (seq 0 hi)) data.

Inductive sortedHint := unknownHint | increasingHint | decreasingHint.

Definition order2 (data : list A) (a b swaps : nat) : nat * nat * nat :=
  if Less data b a then (b, a, S swaps) else (a, b, swaps).

Definition median (data : list A) (a b c swaps : nat) : nat * nat :=
  let '(a, b, swaps) := order2 data a b swaps in
  let '(b, c, swaps) := order2 data b c swaps in
  let '(a, b, swaps) := order2 data a b swaps in
  (b, swaps).

Definition medianAdjacent (data : list A) (a swaps : nat) : nat * nat :=
  median data (a - 1) a (a + 1) swaps.

Definition choosePivot (data : list A) (a b : nat) : nat * sortedHint :=
  let shortestNinther := 50%nat in
  let maxSwaps := (4 * 3)%nat in
  let l := (b - a)%nat in
  let swaps := 0%nat in
  let i := (a + l / 4 * 1)%nat in
  let j := (a + l / 4 * 2)%nat in
  let k := (a + l / 4 * 3)%nat in
  let '(j, swaps) :=
    if (8 <=? l)%nat then
      let '(i, j, k, swaps) :=
        if (shortestNinther <=? l)%nat then
          let '(i, swaps) := medianAdjacent data i swaps in
          let '(j, swaps) := medianAdjacent data j swaps in
          let '(k, swaps) := medianAdjacent data k swaps in
          (i, j, k, swaps)
        else (i, j, k, swaps) in
      median data i j k swaps
    else (j, swaps) in
  if (swaps =? 0)%nat then (j, increasingHint)
  else if (swaps =? maxSwaps)%nat then (j, decreasingHint)
  else (j, unknownHint).

Fixpoint reverseRange (fuel : nat) (data : list A) (i j : nat) : list A :=
  match fuel with
  | O => data
  | S fuel =>
      if (i <? j)%nat then reverseRange fuel (Swap data i j) (i + 1) (j - 1)
      else data
  end.

(** [for i <= j && data.Less(i, a) { i++ }] and
    [for i <= j && !data.Less(j, a) { j-- }] *)
Fixpoint up_while (fuel : nat) (p : nat → bool) (i j : nat) : nat :=
  match fuel with
  | O => i
  | S fuel => if (i <=? j)%nat && p i then up_while fuel p (i + 1) j else i
  end.

Fixpoint down_while (fuel : nat) (p : nat → bool) (i j : nat) : nat :=
  match fuel with
  | O => j
  | S fuel => if (i <=? j)%nat && p j then down_while fuel p i (j - 1) else j
  end.

Fixpoint partition_loop (fuel : nat) (data : list A) (a i j : nat)
  : list A * nat :=
  match fuel with
  | O => (data, j)
  | S fuel =>
      let i := up_while (S j) (fun i => Less data i a) i j in
      let j := down_while (S j) (fun j => negb (Less data j a)) i j in
      if (j <? i)%nat then (data, j)
      else partition_loop fuel (Swap data i j) a (i + 1) (j - 1)
  end.

Definition partition (data : list A) (a b pivot : nat) : list A * nat * bool :=
  let data := Swap data a pivot in
  let i := (a + 1)%nat in
  let j := (b - 1)%nat in
  let i := up_while (S j) (fun i => Less data i a) i j in
  let j := down_while (S j) (fun j => negb (Less data j a)) i j in
  if (j <? i)%nat then (Swap data j a, j, true)
  else
    let data := Swap data i j in
    let '(data, j) := partition_loop (b - a) data a (i + 1) (j - 1) in
    (Swap data j a, j, false).

Fixpoint partitionEqual_loop (fuel : nat) (data : list A) (a i j : nat)
  : list A * nat :=
  match fuel with
  | O => (data, i)
  | S fuel =>
      let i := up_while (S j) (fun i => negb (Less data a i)) i j in
      let j := down_while (S j) (fun j => Less data a j) i j in
      if (j <? i)%nat then (data, i)
      else partitionEqual_loop fuel (Swap data i j) a (i + 1) (j - 1)
  end.

Definition partitionEqual (data : list A) (a b pivot : nat) : list A * nat :=
  let data := Swap data a pivot in
  partitionEqual_loop (S (b - a)) data a (a + 1) (b - 1).

(** [for i < b && !data.Less(i, i-1) { i++ }] *)
Fixpoint run_end (fuel : nat) (data : list A) (i b : nat) : nat :=
  match fuel with
  | O => i
  | S fuel =>
      if (i <? b)%nat && negb (Less data i (i - 1)) then run_end fuel data (i + 1) b
      else i
  end.

(** [for j := i - 1; j >= 1; j-- { if !data.Less(j, j-1) { break }; data.Swap(j, j-1) }] *)
Fixpoint shiftLeft (data : list A) (j : nat) : list A :=
  match j with
  | O => data
  | S j' => if negb (Less data j j') then data else shiftLeft (Swap data j j') j'
  end.

(** [for j := i + 1; j < b; j++ { if !data.Less(j, j-1) { break }; data.Swap(j, j-1) }] *)
Fixpoint shiftRight (fuel : nat) (data : list A) (j b : nat) : list A :=
  match fuel with
  | O => data
  | S fuel =>
      if (j <? b)%nat then
        if negb (Less data j (j - 1)) then data
        else shiftRight fuel (Swap data j (j - 1)) (j + 1) b
      else data
  end.

Fixpoint partialInsertionSort_loop (steps : nat) (data : list A) (a b i : nat)
  : list A * bool :=
  match steps with
  | O => (data, false)
  | S steps =>
      let shortestShifting := 50%nat in
      let i := run_end b data i b in
      if (i =? b)%nat then (data, true)
      else if (b - a <? shortestShifting)%nat then (data, false)
      else
        let data := Swap data i (i - 1) in
        let data := if (2 <=? i - a)%nat then shiftLeft data (i - 1) else data in
        let data := if (2 <=? b - i)%nat then shiftRight b data (i + 1) b else data in
        partialInsertionSort_loop steps data a b i
  end.

Definition partialInsertionSort (data : list A) (a b : nat) : list A * bool :=
  let maxSteps := 5%nat in
  partialInsertionSort_loop maxSteps data a b (a + 1).

(** [bits.Len(uint(n))] *)
Definition bits_Len (n : nat) : nat :=
  match n with
  | O => O
  | _ => S (Nat.log2 n)
  end.

(** [xorshift.Next], on [uint64] *)
Definition xorshift_Next (r : Z) : Z :=
  let m := (2 ^ 64)%Z in
  let r := Z.lxor r (Z.shiftl r 13 mod m) in
  let r := Z.lxor r (Z.shiftr r 7) in
  let r := Z.lxor r (Z.shiftl r 17 mod m) in
  r.

Definition breakPatterns (data : list A) (a b : nat) : list A :=
  let length := (b - a)%nat in
  if (8 <=? length)%nat then
    let modulus := (2 ^ Z.of_nat (bits_Len length))%Z in
    let idx := (a + (length / 4) * 2 - 1)%nat in
    let pass (st : list A * Z) (i : nat) : list A * Z :=
      let '(data, random) := st in
      let random := xorshift_Next random in
      let other := Z.to_nat (Z.land random (modulus - 1)) in
      let other := if (length <=? other)%nat then (other - length)%nat else other in
      (Swap data (idx + i) (a + other), random) in
    (fold_left pass (seq 0 3) (data, Z.of_nat length)).1
  else data.

Fixpoint pdqsort (fuel : nat) (data : list A) (a b limit : nat)
    (wasBalanced wasPartitioned : bool) : list A :=
  match fuel with
  | O => data
  | S fuel =>
      let maxInsertion := 12%nat in
      let length := (b - a)%nat in
      if (length <=? maxInsertion)%nat then insertionSort data a b
      else if (limit =? 0)%nat then heapSort data a b
      else
        let '(data, limit) :=
          if negb wasBalanced then (breakPatterns data a b, (limit - 1)%nat)
          else (data, limit) in
        let '(pivot, hint) := choosePivot data a b in
        let '(data, pivot, hint) :=
          match hint with
          | decreasingHint =>
              (reverseRange length data a (b - 1),
               ((b - 1) - (pivot - a))%nat, increasingHint)
          | _ => (data, pivot, hint)
          end in
        let '(data, done) :=
          match hint with
          | increasingHint =>
              if wasBalanced && wasPartitioned then partialInsertionSort data a b
              else (data, false)
          | _ => (data, false)
          end in
        if done then data
        else if (0 <? a)%nat && negb (Less data (a - 1) pivot) then
          let '(data, mid) := partitionEqual data a b pivot in
          pdqsort fuel data mid b limit wasBalanced wasPartitioned
        else
          let '(data, mid, alreadyPartitioned) := partition data a b pivot in
          let wasPartitioned := alreadyPartitioned in
          let leftLen := (mid - a)%nat in
          let rightLen := (b - mid)%nat in
          let balanceThreshold := (length / 8)%nat in
          if (leftLen <? rightLen)%nat then
            let wasBalanced := (balanceThreshold <=? leftLen)%nat in
            let data := pdqsort fuel data a mid limit true true in
            pdqsort fuel data (mid + 1) b limit wasBalanced wasPartitioned
          else
            let wasBalanced := (balanceThreshold <=? rightLen)%nat in
            let data := pdqsort fuel data (mid + 1) b limit true true in
            pdqsort fuel data a mid limit wasBalanced wasPartitioned
  end.

Definition Slice (x : list A) : list A :=
  let length := length x in
  let limit := bits_Len length in
  pdqsort (S length) x 0 length limit true true.

(** What [Slice] runs on a slice of at most 12 elements. *)
Definition SliceShort (x : list A) : list A := insertionSort x 0 (length x).

End Sort.

End GoSort.

(** The library as the program runs with it. *)
Definition go : GoLib :=
  {| unicode_ToLower := strings.Map unicode.ToLower; sort_Slice := @GoSort.Slice |}.

(** The same with the insertion sort that [sort.Slice] runs on a slice of at
    most 12 elements. *)
Definition go_short : GoLib :=
  {| unicode_ToLower := strings.Map unicode.ToLower; sort_Slice := @GoSort.SliceShort |}.

(** ** Vocabulary of the specification *)

(** What [sort.Slice] promises: the result holds the elements of its
    argument, and it is ordered by [less] when [less] is a strict weak
    ordering. Equal elements may come out in any order. *)
Definition strict_weak {A} (less : A → A → bool) : Prop :=
  (∀ x, less x x = false)
  ∧ (∀ x y z, less x y = true → less y z = true → less x z = true)
  ∧ (∀ x y z, less x y = false → less y z = false → less x z = false).

Definition ordered_by {A} (less : A → A → bool) (l : list A) : Prop :=
  StronglySorted (λ x y, less y x = false) l.

Class GoLibSpec (lib : GoLib) : Prop := {
  sort_Slice_perm : ∀ A (less : A → A → bool) (l : list A),
    sort_Slice less l ≡ₚ l;
  sort_Slice_ordered : ∀ A (less : A → A → bool) (l : list A),
    strict_weak less → ordered_by less (sort_Slice less l);
}.

(** The same contract read on the slice: [sort.Slice] calls [less] on
    elements of the slice only, so it is of these that [less] has to be a
    strict weak ordering. This is the reading that suits [float64], whose
    [<] orders the numbers but not the NaNs. *)
Definition strict_weak_on {A} (less : A → A → bool) (l : list A) : Prop :=
  (∀ x, x ∈ l → less x x = false)
  ∧ (∀ x y z, x ∈ l → y ∈ l → z ∈ l →
       less x y = true → less y z = true → less x z = true)
  ∧ (∀ x y z, x ∈ l → y ∈ l → z ∈ l →
       less x y = false → less y z = false → less x z = false).

Class GoSortSpec (lib : GoLib) : Prop := {
  sort_Slice_elements : ∀ A (less : A → A → bool) (l : list A),
    sort_Slice less l ≡ₚ l;
  sort_Slice_ordered_on : ∀ A (less : A → A → bool) (l : list A),
    strict_weak_on less l → ordered_by less (sort_Slice less l);
}.

(** [x == x]: [x] is a number, not a NaN. *)
Definition is_number {fl : Float64} (x : F64) : bool := (x =? x)%f64.

(** The three rates, per minute. *)
Definition rates : list Q := [0.008; 0.016; 0.08]%Q.

(** What the properties of the sorted lists use of [float64]. [<] is a
    strict weak ordering of the numbers (a NaN compares with nothing); a sum
    of numbers that are not negative is such a number, and so is the product
    of one with a rate; and the minutes of a duration are a number with the
    sign of the duration. These laws hold of the exact instance and of
    IEEE 754 binary64 ([exact_laws] and [binary64_laws]). *)
Class Float64Laws (fl : Float64) : Prop := {
  f64_lt_irrefl : ∀ x : F64, (x <? x)%f64 = false;
  f64_lt_trans : ∀ x y z : F64,
    (x <? y)%f64 = true → (y <? z)%f64 = true → (x <? z)%f64 = true;
  f64_lt_weak : ∀ x y z : F64, is_number y = true →
    (x <? y)%f64 = false → (y <? z)%f64 = false → (x <? z)%f64 = false;
  f64_zero_nonneg : (f64_zero <=? f64_zero)%f64 = true;
  f64_nonneg_number : ∀ x : F64, (f64_zero <=? x)%f64 = true → is_number x = true;
  f64_nonneg_add : ∀ x y : F64,
    (f64_zero <=? x)%f64 = true → (f64_zero <=? y)%f64 = true →
    (f64_zero <=? x + y)%f64 = true;
  f64_nonneg_rate : ∀ (x : F64) (q : Q), q ∈ rates →
    (f64_zero <=? x)%f64 = true → (f64_zero <=? x * f64_const q)%f64 = true;
  f64_Minutes_nonneg : ∀ d : time.Duration,
    (0 ≤ d)%Z → (f64_zero <=? time.Minutes d)%f64 = true;
  f64_Minutes_nonpos : ∀ d : time.Duration,
    (d ≤ 0)%Z → (time.Minutes d <=? f64_zero)%f64 = true;
}.

(** The stable sort the specification describes: elements that [less] does
    not separate keep the order they had. *)
Fixpoint insert_stable {A} (less : A → A → bool) (x : A) (l : list A) : list A :=
  match l with
  | [] => [x]
  | y :: t => if less y x then y :: insert_stable less x t else x :: y :: t
  end.

Definition stable_sort {A} (less : A → A → bool) (l : list A) : list A :=
  foldr (insert_stable less) [] l.

(** No two entries of [l] tie: [less] separates every pair. *)
Definition no_ties {A} (less : A → A → bool) (l : list A) : Prop :=
  ForallOrdPairs (λ x y, less x y = true ∨ less y x = true) l.

(** The same, as a test that evaluates. *)
Fixpoint no_tiesb {A} (less : A → A → bool) (l : list A) : bool :=
  match l with
  | [] => true
  | x :: t => forallb (λ y, less x y || less y x) t && no_tiesb less t
  end.

(** [less] with its arguments exchanged: the order of a list read from its
    end. *)
Definition after {A} (less : A → A → bool) (x y : A) : bool := less y x.

(** The sum of a list of [float64], accumulated from zero, left to right. *)
Definition f64_sum {fl : Float64} (l : list F64) : F64 :=
  fold_left f64_add l f64_zero.

(** The sum of the values of a map, in the order [map_to_list] lists them. *)
Definition map_total {fl : Float64} (m : gmap string F64) : F64 :=
  f64_sum (map_to_list m).*2.

Section Vocabulary.
Context {fl : Float64} {lib : GoLib}.

(** The platform keywords a label can carry, after lowercasing. *)
Definition mentions (kw label : string) : bool :=
  strings.Contains (strings.ToLower label) kw.

Definition platform_label (label : string) : bool :=
  mentions "macos" label || mentions "windows" label.

(** The rate of a label that carries a platform keyword. *)
Definition tier_of (label : string) : F64 :=
  if mentions "macos" label then f64_const 0.08 else f64_const 0.016.

(** A job (a step) of the aggregator's input is counted when it passes the
    guard [minutes <= 0] of [CalculateCost]. *)
Definition counted (d : time.Duration) : bool :=
  negb (time.Minutes d <=? f64_zero)%f64.

Definition counted_jobs (analyses : list Cost.WorkflowAnalysis.t)
  : list Cost.JobAnalysis.t :=
  filter (λ job, counted (Cost.JobAnalysis.Duration job) = true)
         (analyses ≫= Cost.WorkflowAnalysis.Jobs).

(** The durations the analyzer and the detectors measure. *)
Definition job_minutes (j : Job.t) : F64 :=
  time.Minutes (time.Sub (Job.CompletedAt j) (Job.StartedAt j)).

Definition step_seconds (s : Step.t) : F64 :=
  time.Seconds (time.Sub (Step.CompletedAt s) (Step.StartedAt s)).

(** The waste finding for a failed job: its whole cost. *)
Definition retry_item (j : Job.t) : Analyzer.WasteItem.t F64 :=
  {| Analyzer.WasteItem.Type_ := "retry";
     Analyzer.WasteItem.Detail := "Failed: " +:+ Job.Name j;
     Analyzer.WasteItem.Cost :=
       (job_minutes j * Analyzer.RunnerRate (Job.Labels j))%f64 |}.

Definition is_retry (w : Analyzer.WasteItem.t F64) : bool :=
  String.eqb (Analyzer.WasteItem.Type_ w) "retry".

(** A job whose outcome is failure and that passes the guard [dur <= 0] of
    [Analyze]. *)
Definition failed_run (j : Job.t) : bool :=
  negb (job_minutes j <=? f64_zero)%f64 && String.eqb (Job.Conclusion j) "failure".

(** What the loop over the steps leaves alone. *)
Definition untouched (v v' : Analyzer.vars) : Prop :=
  Analyzer.Report.TotalMinutes (Analyzer.r v') = Analyzer.Report.TotalMinutes (Analyzer.r v)
  ∧ Analyzer.Report.TotalCost (Analyzer.r v') = Analyzer.Report.TotalCost (Analyzer.r v)
  ∧ Analyzer.Report.MonthlyCost (Analyzer.r v') = Analyzer.Report.MonthlyCost (Analyzer.r v)
  ∧ Analyzer.Report.ByWorkflow (Analyzer.r v') = Analyzer.Report.ByWorkflow (Analyzer.r v)
  ∧ Analyzer.Report.TopSteps (Analyzer.r v') = Analyzer.Report.TopSteps (Analyzer.r v)
  ∧ Analyzer.Report.Suggestions (Analyzer.r v') = Analyzer.Report.Suggestions (Analyzer.r v)
  ∧ Analyzer.hasMac v' = Analyzer.hasMac v
  ∧ List.filter is_retry (Analyzer.Report.Waste (Analyzer.r v'))
    = List.filter is_retry (Analyzer.Report.Waste (Analyzer.r v)).

(** The entries of [stepAgg] as the entries of the top-step list. *)
Definition step_cost (nm : string * F64) : Analyzer.StepCost.t F64 :=
  {| Analyzer.StepCost.Name := nm.1; Analyzer.StepCost.Min := nm.2 |}.

(** A step whose lowercased name contains a dependency-install keyword. *)
Definition install_step (s : Step.t) : bool :=
  existsb (strings.Contains (strings.ToLower (Step.Name s))) Recommendations.keywords.

(** The trigger of the cache-miss rule: an install step of more than 60
    seconds. *)
Definition cache_miss_trigger (s : Step.t) : bool :=
  negb (step_seconds s <=? f64_of_int 60)%f64 && install_step s.

(** The recommendation of the cache-miss rule for step [s] of job [j]. *)
Definition cache_miss_rec (cr : Recommendations.CostReport.t) (j : Job.t) (s : Step.t)
  : Recommendations.Recommendation.t F64 :=
  {| Recommendations.Recommendation.RuleID := "cache-miss";
     Recommendations.Recommendation.Severity := "high";
     Recommendations.Recommendation.EstimatedMonthlySavings :=
       (step_seconds s * f64_const 0.7 / f64_of_int 60
        * Analyzer.RunnerRate (Job.Labels j)
        * Recommendations.monthlyScale (Recommendations.CostReport.Days cr))%f64;
     Recommendations.Recommendation.Fix :=
       "Add actions/cache for step '" +:+ Step.Name s +:+ "' (took "
       +:+ f64_format 0 (step_seconds s)
       +:+ "s). Caching dependencies can reduce this step by ~70%." |}.

(** The trigger of the expensive-os rule: a label mentions macOS and the job
    ran for more than 5 minutes. *)
Definition expensive_os_trigger (j : Job.t) : bool :=
  Recommendations.isMac (Job.Labels j) && negb (job_minutes j <=? f64_of_int 5)%f64.

(** The recommendation of the expensive-os rule for job [j]. *)
Definition expensive_os_rec (cr : Recommendations.CostReport.t) (j : Job.t)
  : Recommendations.Recommendation.t F64 :=
  {| Recommendations.Recommendation.RuleID := "expensive-os";
     Recommendations.Recommendation.Severity := "high";
     Recommendations.Recommendation.EstimatedMonthlySavings :=
       (job_minutes j * f64_const (0.08 - 0.008)
        * Recommendations.monthlyScale (Recommendations.CostReport.Days cr))%f64;
     Recommendations.Recommendation.Fix :=
       "Job '" +:+ Job.Name j +:+ "' runs on macOS for "
       +:+ f64_format 1 (job_minutes j) +:+ " min ($"
       +:+ f64_format 2 (job_minutes j * f64_const 0.08)%f64
       +:+ "/run). macOS runners cost 10x Linux. Move non-GUI tests to ubuntu-latest to save ~90%." |}.

(** The recommendations of the duplicate-steps rule for one entry of the
    map from step names to job names. *)
Definition duplicate_recs (e : string * gmap string bool)
  : list (Recommendations.Recommendation.t F64) :=
  Recommendations.duplicate_entry [] e.

End Vocabulary.

(** ** Vocabulary of the further properties *)

Section GuardVocabulary.
Context {fl : Float64} {lib : GoLib}.

(** A job passes the guard [dur <= 0] of [Analyze]. *)
Definition job_ran (j : Job.t) : bool := negb (job_minutes j <=? f64_zero)%f64.

(** The minutes of a step, and the guard [sd <= 0] of [Analyze]. *)
Definition step_minutes (s : Step.t) : F64 :=
  time.Minutes (time.Sub (Step.CompletedAt s) (Step.StartedAt s)).

Definition step_ran (s : Step.t) : bool := negb (step_minutes s <=? f64_zero)%f64.

(** The input of [Analyze] without the jobs and the steps that its guards
    skip. *)
Definition ran_steps (j : Job.t) : Job.t :=
  {| Job.Name := Job.Name j; Job.Workflow := Job.Workflow j;
     Job.Conclusion := Job.Conclusion j; Job.Labels := Job.Labels j;
     Job.StartedAt := Job.StartedAt j; Job.CompletedAt := Job.CompletedAt j;
     Job.Steps := List.filter step_ran (Job.Steps j) |}.

Definition ran_jobs (jobs : list Job.t) : list Job.t :=
  ran_steps <$> List.filter job_ran jobs.

(** The steps that [Analyze] aggregates: those that pass its guard, in the
    jobs that pass its guard. *)
Definition ran_steps_of (jobs : list Job.t) : list Step.t :=
  List.filter step_ran (List.filter job_ran jobs ≫= Job.Steps).

(** The cost of a job: its minutes times its rate. *)
Definition job_cost (j : Job.t) : F64 :=
  (job_minutes j * Analyzer.RunnerRate (Job.Labels j))%f64.

End GuardVocabulary.

Section FindingVocabulary.
Context {fl : Float64} {lib : GoLib}.

(** The triggers of the two step findings of [Analyze]: a step whose name
    mentions a cache and that failed, and a step of more than 3 minutes
    whose name mentions an installer. *)
Definition cache_failure (s : Step.t) : bool :=
  strings.Contains (strings.ToLower (Step.Name s)) "cache"
  && String.eqb (Step.Conclusion s) "failure".

Definition slow_install (s : Step.t) : bool :=
  (step_minutes s >? f64_of_int 3)%f64
  && (strings.Contains (strings.ToLower (Step.Name s)) "install"
      || strings.Contains (strings.ToLower (Step.Name s)) "npm"
      || strings.Contains (strings.ToLower (Step.Name s)) "pip").

Definition cache_miss_item (rate : F64) (s : Step.t) : Analyzer.WasteItem.t F64 :=
  {| Analyzer.WasteItem.Type_ := "cache-miss";
     Analyzer.WasteItem.Detail := Step.Name s;
     Analyzer.WasteItem.Cost := (step_minutes s * rate)%f64 |}.

Definition slow_deps_item (rate : F64) (s : Step.t) : Analyzer.WasteItem.t F64 :=
  {| Analyzer.WasteItem.Type_ := "slow-deps";
     Analyzer.WasteItem.Detail :=
       Step.Name s +:+ " (" +:+ f64_format 1 (step_minutes s) +:+ "m)";
     Analyzer.WasteItem.Cost := (step_minutes s * rate * f64_const 0.5)%f64 |}.

(** The findings of one step at the rate of its job, and of one job with its
    steps. *)
Definition step_waste (rate : F64) (s : Step.t) : list (Analyzer.WasteItem.t F64) :=
  if step_ran s
  then (if cache_failure s then [cache_miss_item rate s] else [])
       ++ (if slow_install s then [slow_deps_item rate s] else [])
  else [].

Definition job_waste (j : Job.t) : list (Analyzer.WasteItem.t F64) :=
  if job_ran j
  then (if String.eqb (Job.Conclusion j) "failure" then [retry_item j] else [])
       ++ (Job.Steps j ≫= step_waste (Analyzer.RunnerRate (Job.Labels j)))
  else [].

(** The suggestions of [Analyze] that do not name a step. *)
Definition waste_summary (waste : list (Analyzer.WasteItem.t F64)) : string :=
  "Fix " +:+ pretty (length waste) +:+ " issues to save ~$"
  +:+ f64_format 2 (f64_sum (Analyzer.WasteItem.Cost <$> waste)) +:+ "/week".

Definition macos_hint : string :=
  "macOS runners cost 10x Linux â€” switch where possible".

(** A job that passes the guard of [Analyze] at the rate [0.08]. *)
Definition macos_rate (j : Job.t) : bool :=
  job_ran j && (Analyzer.RunnerRate (Job.Labels j) =? f64_const 0.08)%f64.

(** A top step of more than 30 minutes. *)
Definition long_step (s : Analyzer.StepCost.t F64) : bool :=
  (Analyzer.StepCost.Min s >? f64_of_int 30)%f64.

(** The labels as [RunnerRate] reads them: the first label that names a
    platform names macOS. *)
Definition on_macos (labels : list string) : bool :=
  match List.find platform_label labels with
  | Some l => mentions "macos" l
  | None => false
  end.

End FindingVocabulary.

Section EntryVocabulary.
Context {fl : Float64} {lib : GoLib}.

(** The jobs and steps of the aggregator's input that pass its guards. *)
Definition counted_job (job : Cost.JobAnalysis.t) : bool :=
  counted (Cost.JobAnalysis.Duration job).

Definition counted_step (step : Cost.StepAnalysis.t) : bool :=
  counted (Cost.StepAnalysis.Duration step).

(** The cost of a job of the aggregator's input, and of a workflow: the sum
    of the costs of its counted jobs, accumulated from zero. *)
Definition analysis_cost (os : string) (job : Cost.JobAnalysis.t) : F64 :=
  (time.Minutes (Cost.JobAnalysis.Duration job)
   * Cost.resolveRate (Cost.JobAnalysis.Labels job) os)%f64.

Definition workflow_cost (os : string) (wf : Cost.WorkflowAnalysis.t) : F64 :=
  f64_sum (analysis_cost os <$> List.filter counted_job (Cost.WorkflowAnalysis.Jobs wf)).

(** The entry of the step list for one step, and the entries of a job and of
    a workflow. *)
Definition step_entry (os : string) (wf : Cost.WorkflowAnalysis.t)
    (job : Cost.JobAnalysis.t) (step : Cost.StepAnalysis.t) : Cost.StepCostEntry.t F64 :=
  {| Cost.StepCostEntry.Workflow := Cost.WorkflowAnalysis.Name wf;
     Cost.StepCostEntry.Job := Cost.JobAnalysis.Name job;
     Cost.StepCostEntry.Step := Cost.StepAnalysis.Name step;
     Cost.StepCostEntry.Cost :=
       (time.Minutes (Cost.StepAnalysis.Duration step)
        * Cost.resolveRate (Cost.JobAnalysis.Labels job) os)%f64;
     Cost.StepCostEntry.Minutes := time.Minutes (Cost.StepAnalysis.Duration step) |}.

Definition job_entries (os : string) (wf : Cost.WorkflowAnalysis.t)
    (job : Cost.JobAnalysis.t) : list (Cost.StepCostEntry.t F64) :=
  if counted_job job
  then step_entry os wf job <$> List.filter counted_step (Cost.JobAnalysis.Steps job)
  else [].

Definition workflow_entries (os : string) (wf : Cost.WorkflowAnalysis.t)
  : list (Cost.StepCostEntry.t F64) :=
  Cost.WorkflowAnalysis.Jobs wf ≫= job_entries os wf.

(** The aggregator's input without the jobs and the steps that its guards
    skip. *)
Definition counted_steps (job : Cost.JobAnalysis.t) : Cost.JobAnalysis.t :=
  {| Cost.JobAnalysis.Name := Cost.JobAnalysis.Name job;
     Cost.JobAnalysis.Duration := Cost.JobAnalysis.Duration job;
     Cost.JobAnalysis.Labels := Cost.JobAnalysis.Labels job;
     Cost.JobAnalysis.Steps := List.filter counted_step (Cost.JobAnalysis.Steps job) |}.

Definition counted_part (wf : Cost.WorkflowAnalysis.t) : Cost.WorkflowAnalysis.t :=
  {| Cost.WorkflowAnalysis.Name := Cost.WorkflowAnalysis.Name wf;
     Cost.WorkflowAnalysis.Jobs :=
       counted_steps <$> List.filter counted_job (Cost.WorkflowAnalysis.Jobs wf) |}.

(** The aggregator's input with the default OS written out as the only label
    of every job that has none. *)
Definition with_default (os : string) (job : Cost.JobAnalysis.t) : Cost.JobAnalysis.t :=
  {| Cost.JobAnalysis.Name := Cost.JobAnalysis.Name job;
     Cost.JobAnalysis.Duration := Cost.JobAnalysis.Duration job;
     Cost.JobAnalysis.Labels :=
       match Cost.JobAnalysis.Labels job with [] => [os] | labels => labels end;
     Cost.JobAnalysis.Steps := Cost.JobAnalysis.Steps job |}.

Definition labelled (os : string) (wf : Cost.WorkflowAnalysis.t) : Cost.WorkflowAnalysis.t :=
  {| Cost.WorkflowAnalysis.Name := Cost.WorkflowAnalysis.Name wf;
     Cost.WorkflowAnalysis.Jobs := with_default os <$> Cost.WorkflowAnalysis.Jobs wf |}.

(** A fetched job as an input of the aggregator: its duration is the time
    between its two instants, and so for its steps. *)
Definition as_step (s : Step.t) : Cost.StepAnalysis.t :=
  {| Cost.StepAnalysis.Name := Step.Name s;
     Cost.StepAnalysis.Duration := time.Sub (Step.CompletedAt s) (Step.StartedAt s) |}.

Definition as_job (j : Job.t) : Cost.JobAnalysis.t :=
  {| Cost.JobAnalysis.Name := Job.Name j;
     Cost.JobAnalysis.Duration := time.Sub (Job.CompletedAt j) (Job.StartedAt j);
     Cost.JobAnalysis.Labels := Job.Labels j;
     Cost.JobAnalysis.Steps := as_step <$> Job.Steps j |}.

(** A fetched job as a workflow of one job, under the name of the job's
    workflow. *)
Definition as_workflow (j : Job.t) : Cost.WorkflowAnalysis.t :=
  {| Cost.WorkflowAnalysis.Name := Job.Workflow j;
     Cost.WorkflowAnalysis.Jobs := [as_job j] |}.

End EntryVocabulary.

Section RuleVocabulary.
Context {fl : Float64} {lib : GoLib}.

(** The trigger of the long-checkout rule: a step whose lowercased name
    contains "checkout", of more than 30 seconds. *)
Definition long_checkout_trigger (s : Step.t) : bool :=
  negb (step_seconds s <=? f64_of_int 30)%f64 && mentions "checkout" (Step.Name s).

(** The recommendation of the long-checkout rule for step [s] of job [j]. *)
Definition long_checkout_rec (cr : Recommendations.CostReport.t) (j : Job.t) (s : Step.t)
  : Recommendations.Recommendation.t F64 :=
  {| Recommendations.Recommendation.RuleID := "long-checkout";
     Recommendations.Recommendation.Severity := "low";
     Recommendations.Recommendation.EstimatedMonthlySavings :=
       (step_seconds s * f64_const 0.5 / f64_of_int 60
        * Analyzer.RunnerRate (Job.Labels j)
        * Recommendations.monthlyScale (Recommendations.CostReport.Days cr))%f64;
     Recommendations.Recommendation.Fix :=
       "Use shallow clone (fetch-depth: 1) for step '" +:+ Step.Name s
       +:+ "' (took " +:+ f64_format 0 (step_seconds s)
       +:+ "s). This can cut checkout time by ~50%." |}.

(** The pairs of a step name and the name of a job that has a step of that
    name, in the order of the input. *)
Definition occurrences (cr : Recommendations.CostReport.t) : list (string * string) :=
  Recommendations.CostReport.Jobs cr ≫= λ j,
    (λ s, (Step.Name s, Job.Name j)) <$> Job.Steps j.

(** What one pass of the inner loop of [DetectDuplicateSteps] does to the map
    [stepJobs], for one occurrence. *)
Definition record_occurrence (m : gmap string (gmap string bool)) (o : string * string)
  : gmap string (gmap string bool) :=
  <[o.1 := <[o.2 := true]> (default ∅ (m !! o.1))]> m.

(** The step names of the input, and the names of the jobs that have a step
    of a given name. *)
Definition step_names (cr : Recommendations.CostReport.t) : gset string :=
  list_to_set (occurrences cr).*1.

Definition sharing_jobs (cr : Recommendations.CostReport.t) (stepName : string)
  : gset string :=
  list_to_set (List.filter (λ o, String.eqb o.1 stepName) (occurrences cr)).*2.

(** The recommendation of the duplicate-steps rule for a step name shared by
    [n] jobs. *)
Definition duplicate_rec (stepName : string) (n : nat)
  : Recommendations.Recommendation.t F64 :=
  {| Recommendations.Recommendation.RuleID := "duplicate-steps";
     Recommendations.Recommendation.Severity := "medium";
     Recommendations.Recommendation.EstimatedMonthlySavings :=
       (f64_of_int (Z.of_nat n - 1) * f64_of_int 5)%f64;
     Recommendations.Recommendation.Fix :=
       "Step '" +:+ stepName +:+ "' appears in " +:+ pretty n
       +:+ " jobs. Consider using a matrix strategy or reusable workflow to reduce duplication." |}.

(** The rule ids with their severities. *)
Definition rule_severities : list (string * string) :=
  [ ("cache-miss", "high"); ("long-checkout", "low");
    ("duplicate-steps", "medium"); ("expensive-os", "high") ].

(** What a recommendation says, apart from its savings. *)
Definition advice (r : Recommendations.Recommendation.t F64) : string * string * string :=
  (Recommendations.Recommendation.RuleID r,
   Recommendations.Recommendation.Severity r,
   Recommendations.Recommendation.Fix r).

(** A recommendation carries a rule id with its severity, and a remediation
    text. *)
Definition well_formed (r : Recommendations.Recommendation.t F64) : Prop :=
  (Recommendations.Recommendation.RuleID r, Recommendations.Recommendation.Severity r)
    ∈ rule_severities
  ∧ Recommendations.Recommendation.Fix r ≠ "".

(** The monthly-scale factor in the words of the specification: 30 over the
    observation days, days that are not positive counting as 1. *)
Definition spec_monthlyScale (days : Z) : F64 :=
  (f64_of_int 30 / f64_of_int (Z.max days 1))%f64.

(** The savings of the cache-miss rule in the words of the specification:
    70% of the step's minutes, times the job's rate, times the monthly-scale
    factor. *)
Definition spec_cache_miss_savings (cr : Recommendations.CostReport.t) (j : Job.t)
    (s : Step.t) : F64 :=
  (f64_const 0.7 * step_minutes s * Analyzer.RunnerRate (Job.Labels j)
   * spec_monthlyScale (Recommendations.CostReport.Days cr))%f64.

End RuleVocabulary.

(** ** Vocabulary of IEEE 754: the rank and the sign of a number *)

(** The place of a number in the order of [<]: first its kind (below zero,
    zero, above zero; finite or not), then exponent and mantissa. The two
    zeros have one rank. *)
Definition sf_rank (f : spec_float) : Z * Z * Z :=
  match f with
  | S754_nan => (0, 0, 0)
  | S754_zero _ => (0, 0, 0)
  | S754_infinity true => (-2, 0, 0)
  | S754_infinity false => (2, 0, 0)
  | S754_finite true m e => (-1, - e, - Zpos m)
  | S754_finite false m e => (1, e, Zpos m)
  end%Z.

Definition lex_lt (a b : Z * Z * Z) : Prop :=
  (a.1.1 < b.1.1
   ∨ (a.1.1 = b.1.1 ∧ (a.1.2 < b.1.2 ∨ (a.1.2 = b.1.2 ∧ a.2 < b.2))))%Z.

(** A number of sign [sx]; a zero has either sign. *)
Definition sf_signed (sx : bool) (f : spec_float) : Prop :=
  match f with
  | S754_nan => False
  | S754_zero _ => True
  | S754_infinity s | S754_finite s _ _ => s = sx
  end.

(** ** Inputs of the test suite and of the scenarios *)

Module Scenario.
Import Cost.

(** [time.Date(2024, 1, 1, 0, 0, 0, 0, time.UTC)], in nanoseconds since the
    Unix epoch *)
Definition start : time.Time := (1704067200 * 1000000000)%Z.

(** [dur(mins)] and the like, for whole numbers *)
Definition dur (mins : Z) : time.Duration := (mins * time.Minute)%Z.
Definition secs (s : Z) : time.Duration := (s * time.Second)%Z.

Definition mkRecStep (name : string) (s : Z) (conclusion : string) : Step.t :=
  {| Step.Name := name; Step.Conclusion := conclusion;
     Step.StartedAt := start; Step.CompletedAt := (start + secs s)%Z |}.

Definition mkJob (name wf conclusion : string) (labels : list string) (mins : Z)
    (steps : list Step.t) : Job.t :=
  {| Job.Name := name; Job.Workflow := wf; Job.Conclusion := conclusion;
     Job.Labels := labels; Job.StartedAt := start;
     Job.CompletedAt := (start + dur mins)%Z; Job.Steps := steps |}.

Definition mkRecJob (name workflow : string) (labels : list string) (mins : Z)
    (steps : list Step.t) : Job.t :=
  mkJob name workflow "success" labels mins steps.

Definition step (name : string) (mins : Z) : StepAnalysis.t :=
  {| StepAnalysis.Name := name; StepAnalysis.Duration := dur mins |}.

Definition job (name : string) (mins : Z) (labels : list string)
    (steps : list StepAnalysis.t) : JobAnalysis.t :=
  {| JobAnalysis.Name := name; JobAnalysis.Duration := dur mins;
     JobAnalysis.Labels := labels; JobAnalysis.Steps := steps |}.

Definition workflow (name : string) (jobs : list JobAnalysis.t) : WorkflowAnalysis.t :=
  {| WorkflowAnalysis.Name := name; WorkflowAnalysis.Jobs := jobs |}.

(** TestCalculateCost_LinuxPricing *)
Definition linux : list WorkflowAnalysis.t :=
  [ workflow "CI"
      [ job "build" 10 ["ubuntu-latest"] [ step "checkout" 1; step "compile" 9 ] ] ].

(** TestCalculateCost_ZeroDuration *)
Definition zero_duration : list WorkflowAnalysis.t :=
  [ workflow "CI" [ job "noop" 0 ["ubuntu-latest"] [ step "nothing" 0 ] ] ].

(** TestCalculateCost_MultiWorkflowAggregation *)
Definition three_tiers : list WorkflowAnalysis.t :=
  [ workflow "CI"
      [ job "build" 10 ["ubuntu-latest"] [ step "checkout" 1; step "compile" 9 ] ];
    workflow "Deploy" [ job "deploy-prod" 5 ["macos-latest"] [ step "deploy" 5 ] ];
    workflow "Lint" [ job "lint" 2 ["windows-latest"] [ step "eslint" 2 ] ] ].

(** TestCalculateCost_TopStepsLimit *)
Definition seven_steps : list WorkflowAnalysis.t :=
  [ workflow "BigWorkflow"
      [ job "big-job" 28 ["ubuntu-latest"]
          [ step "step1" 1; step "step2" 2; step "step3" 3; step "step4" 4;
            step "step5" 5; step "step6" 6; step "step7" 7 ] ] ].


(** One workflow whose jobs "x", "y", "x" run 7, 1 and 2 minutes. *)
Definition repeated_job : list WorkflowAnalysis.t :=
  [ workflow "CI"
      [ job "x" 7 ["ubuntu-latest"] []; job "y" 1 ["ubuntu-latest"] [];
        job "x" 2 ["ubuntu-latest"] [] ] ].

(** TestAnalyzeCostCalculation *)
Definition three_jobs : list Job.t :=
  [ mkJob "build" "CI" "success" ["ubuntu-latest"] 10 [];
    mkJob "test" "CI" "success" ["macos-latest"] 5 [];
    mkJob "lint" "Lint" "success" ["windows-latest"] 2 [] ].

(** A job that failed as it started: its two instants coincide. *)
Definition failed_at_once : list Job.t :=
  [ mkJob "deploy" "CI" "failure" ["ubuntu-latest"] 0 [] ].

(** A job that failed after 8 minutes. *)
Definition failed_late : list Job.t :=
  [ mkJob "build" "CI" "failure" ["ubuntu-latest"] 8 [] ].

(** TestDetectCacheMiss_Triggers_NpmInstall and _NoTrigger_UnderThreshold *)
Definition npm_install (s : Z) : Recommendations.CostReport.t :=
  {| Recommendations.CostReport.Jobs :=
       [ mkRecJob "build" "CI" ["ubuntu-latest"] 5 [ mkRecStep "npm install" s "success" ] ];
     Recommendations.CostReport.Days := 7 |}.

(** Two jobs that share the steps "Setup Node" and "Run tests", each of one
    minute. *)
Definition shared_steps : list Job.t :=
  [ mkRecJob "job-1" "CI" ["ubuntu-latest"] 5
      [ mkRecStep "Setup Node" 60 "success"; mkRecStep "Run tests" 60 "success" ];
    mkRecJob "job-2" "CI" ["ubuntu-latest"] 5
      [ mkRecStep "Setup Node" 60 "success"; mkRecStep "Run tests" 60 "success" ] ].

(** TestGenerateRecommendations_Combined *)
Definition combined : list Job.t :=
  [ mkRecJob "build" "CI" ["macos-latest"] 10
      [ mkRecStep "npm install" 90 "success"; mkRecStep "Checkout" 45 "success" ];
    mkRecJob "test" "CI" ["ubuntu-latest"] 5
      [ mkRecStep "npm install" 90 "success" ] ].

(** TestDetectDuplicateSteps_Triggers_ThreeJobs *)
Definition three_setups : Recommendations.CostReport.t :=
  {| Recommendations.CostReport.Jobs :=
       [ mkRecJob "job-1" "CI" ["ubuntu-latest"] 5 [ mkRecStep "Setup Node" 30 "success" ];
         mkRecJob "job-2" "CI" ["ubuntu-latest"] 5 [ mkRecStep "Setup Node" 30 "success" ];
         mkRecJob "job-3" "CI" ["ubuntu-latest"] 5 [ mkRecStep "Setup Node" 30 "success" ] ];
     Recommendations.CostReport.Days := 7 |}.

(** TestDetectExpensiveOS_MonthlySavingsCalculation *)
Definition mac_job : Recommendations.CostReport.t :=
  {| Recommendations.CostReport.Jobs := [ mkRecJob "test-mac" "CI" ["macos-13"] 10 [] ];
     Recommendations.CostReport.Days := 30 |}.

(** A job on a runner labelled for Windows and for macOS, 10 minutes long. *)
Definition two_platforms : Job.t :=
  mkRecJob "test" "CI" ["windows-latest"; "macos-13"] 10 [].

(** The same job, [mins] minutes long. *)
Definition two_platforms_for (mins : Z) : Job.t :=
  mkRecJob "test" "CI" ["windows-latest"; "macos-13"] mins [].

(** The job of [npm_install], observed over [days] days. *)
Definition npm_install_over (s days : Z) : Recommendations.CostReport.t :=
  {| Recommendations.CostReport.Jobs := Recommendations.CostReport.Jobs (npm_install s);
     Recommendations.CostReport.Days := days |}.

(** TestAnalyzeWasteDetection: the steps of half a minute and of 5 minutes *)
Definition waste_detection : list Job.t :=
  [ mkJob "build" "CI" "failure" ["ubuntu-latest"] 8
      [ mkRecStep "Restore npm cache" 30 "failure"; mkRecStep "npm install" 300 "success" ] ].

(** TestAnalyzeMacOSSuggestion *)
Definition ios : list Job.t :=
  [ mkJob "ios" "Mobile" "success" ["macos-13"] 20 [] ].

(** TestDetectLongCheckout_Triggers and _NoTrigger_FastCheckout *)
Definition checkout_code (s : Z) : Recommendations.CostReport.t :=
  {| Recommendations.CostReport.Jobs :=
       [ mkRecJob "build" "CI" ["ubuntu-latest"] 5 [ mkRecStep "Checkout code" s "success" ] ];
     Recommendations.CostReport.Days := 7 |}.

(** TestDetectLongCheckout_NoTrigger_NonCheckoutStep *)
Definition build_app : Recommendations.CostReport.t :=
  {| Recommendations.CostReport.Jobs :=
       [ mkRecJob "build" "CI" ["ubuntu-latest"] 5 [ mkRecStep "Build app" 120 "success" ] ];
     Recommendations.CostReport.Days := 7 |}.

(** TestDetectDuplicateSteps_Triggers *)
Definition two_builds : Recommendations.CostReport.t :=
  {| Recommendations.CostReport.Jobs :=
       [ mkRecJob "build-linux" "CI" ["ubuntu-latest"] 5 [ mkRecStep "Run tests" 60 "success" ];
         mkRecJob "build-mac" "CI" ["macos-latest"] 5 [ mkRecStep "Run tests" 60 "success" ] ];
     Recommendations.CostReport.Days := 7 |}.

(** [approxEqual] of the test suite, on binary64 *)
Definition approxEqual (a b epsilon : float) : bool :=
  PrimFloat.ltb (PrimFloat.abs (PrimFloat.sub a b)) epsilon.

(** Two orders in which a loop can visit a map: the order of [map_to_list],
    and its reverse. *)
Definition forwards {V} : MapRange V := map_to_list.
Definition backwards {V} : MapRange V := λ m, reverse (map_to_list m).

End Scenario.

(** * Properties *)

(** Closed goals over concrete inputs: evaluate, then close each conjunct. *)
Ltac by_computation :=
  vm_compute; repeat split; try reflexivity; try (intros Hfalse; discriminate Hfalse).

(** ** Rate resolution *)

Section Rates.
Context {fl : Float64} {lib : GoLib}.

Lemma RunnerRate_cons l rest :
  Analyzer.RunnerRate (l :: rest) =
    if platform_label l then tier_of l else Analyzer.RunnerRate rest.
Proof.
  unfold platform_label, tier_of, mentions. simpl.
  destruct (strings.Contains (strings.ToLower l) "macos"); [done|].
  by destruct (strings.Contains (strings.ToLower l) "windows").
Qed.

Lemma RunnerRate_first labels :
  Analyzer.RunnerRate labels =
    match List.find platform_label labels with
    | Some l => tier_of l
    | None => f64_const 0.008
    end.
Proof.
  induction labels as [|l rest IH]; [done|].
  rewrite RunnerRate_cons. cbn [List.find].
  by destruct (platform_label l).
Qed.

Lemma rateForOS_rule os :
  Cost.rateForOS os =
    if platform_label os then tier_of os else f64_const 0.008.
Proof.
  unfold Cost.rateForOS, platform_label, tier_of, mentions.
  destruct (strings.Contains (strings.ToLower os) "macos"); [done|].
  by destruct (strings.Contains (strings.ToLower os) "windows").
Qed.

(** C4. Rate resolution examines the labels in their order: the first
    label whose lowercased text contains "macos" or "windows" decides,
    "macos" giving the high-tier rate and "windows" the mid-tier rate; with
    no such label, and for the empty list, the rate is the low tier. A job
    without labels resolves its default OS through the same rule. In
    particular ["ubuntu-latest"] and ["self-hosted"; "linux"] are low tier,
    ["windows-latest"] is mid tier, ["macos-latest"] and ["macos-13"] are high
    tier, and no labels with default OS "macos" is high tier. *)
Theorem C4_rate_resolution :
  (∀ labels,
     Analyzer.RunnerRate labels =
       match List.find platform_label labels with
       | Some l => if mentions "macos" l then f64_const 0.08 else f64_const 0.016
       | None => f64_const 0.008
       end)
  ∧ (∀ labels os,
       Cost.resolveRate labels os =
         match labels with
         | [] => if platform_label os
                 then (if mentions "macos" os then f64_const 0.08 else f64_const 0.016)
                 else f64_const 0.008
         | _ :: _ => Analyzer.RunnerRate labels
         end)
  ∧ Cost.resolveRate ["ubuntu-latest"] "linux" = Cost.RateLinux
  ∧ Cost.resolveRate ["windows-latest"] "linux" = Cost.RateWindows
  ∧ Cost.resolveRate ["macos-latest"] "linux" = Cost.RateMacOS
  ∧ Cost.resolveRate ["macos-13"] "linux" = Cost.RateMacOS
  ∧ Cost.resolveRate ["self-hosted"; "linux"] "macos" = Cost.RateLinux
  ∧ Cost.resolveRate [] "macos" = Cost.RateMacOS.
Proof.
  split; [apply RunnerRate_first|].
  split; [|repeat split; reflexivity].
  intros [|l rest] os; [|done].
  unfold Cost.resolveRate. simpl. apply rateForOS_rule.
Qed.

End Rates.

(** ** The aggregator: which names the per-job and per-workflow maps hold *)

Section CostKeys.
Context {fl : Float64} {lib : GoLib}.

Lemma dom_map_add (m : gmap string F64) k v :
  dom (map_add m k v) = {[k]} ∪ dom m.
Proof. unfold map_add. by rewrite dom_insert_L. Qed.

Lemma job_body_skip os wf v job :
  counted (Cost.JobAnalysis.Duration job) = false →
  Cost.job_body os wf v job = v.
Proof.
  unfold counted, Cost.job_body. intros Hc.
  apply negb_false_iff in Hc. by rewrite Hc.
Qed.

Lemma job_body_perJob os wf v job :
  counted (Cost.JobAnalysis.Duration job) = true →
  Cost.perJob (Cost.job_body os wf v job) =
    map_add (Cost.perJob v) (Cost.JobAnalysis.Name job)
      (time.Minutes (Cost.JobAnalysis.Duration job)
       * Cost.resolveRate (Cost.JobAnalysis.Labels job) os)%f64.
Proof.
  unfold counted, Cost.job_body. intros Hc.
  apply negb_true_iff in Hc. by rewrite Hc.
Qed.

Lemma jobs_perJob_dom os wf jobs v :
  dom (Cost.perJob (fold_left (Cost.job_body os wf) jobs v)) =
    dom (Cost.perJob v) ∪
    list_to_set (Cost.JobAnalysis.Name <$>
                 filter (λ job, counted (Cost.JobAnalysis.Duration job) = true) jobs).
Proof.
  revert v. induction jobs as [|job jobs IH]; intros v; simpl.
  { set_solver. }
  rewrite IH. destruct (counted (Cost.JobAnalysis.Duration job)) eqn:Hc.
  - rewrite filter_cons_True by done.
    rewrite job_body_perJob, dom_map_add by done. set_solver.
  - rewrite filter_cons_False by (rewrite Hc; done).
    by rewrite job_body_skip.
Qed.

(** The variables of the loop over the jobs of [wf], as it ends. *)
Lemma workflow_body_unfold os v wf :
  let jv :=
    fold_left (Cost.job_body os wf) (Cost.WorkflowAnalysis.Jobs wf)
      {| Cost.perJob := Cost.CostReport.PerJob (Cost.report v);
         Cost.wfCost := f64_zero;
         Cost.jSteps := Cost.allSteps v |} in
  Cost.CostReport.PerJob (Cost.report (Cost.workflow_body os v wf)) = Cost.perJob jv
  ∧ Cost.CostReport.PerWorkflow (Cost.report (Cost.workflow_body os v wf)) =
      map_add (Cost.CostReport.PerWorkflow (Cost.report v))
              (Cost.WorkflowAnalysis.Name wf) (Cost.wfCost jv)
  ∧ Cost.CostReport.TotalCost (Cost.report (Cost.workflow_body os v wf)) =
      (Cost.CostReport.TotalCost (Cost.report v) + Cost.wfCost jv)%f64
  ∧ Cost.allSteps (Cost.workflow_body os v wf) = Cost.jSteps jv.
Proof. done. Qed.

Lemma scan_dom analyses os v :
  let v' := fold_left (Cost.workflow_body os) analyses v in
  dom (Cost.CostReport.PerJob (Cost.report v')) =
    dom (Cost.CostReport.PerJob (Cost.report v)) ∪
    list_to_set (Cost.JobAnalysis.Name <$> counted_jobs analyses)
  ∧ dom (Cost.CostReport.PerWorkflow (Cost.report v')) =
      dom (Cost.CostReport.PerWorkflow (Cost.report v)) ∪
      list_to_set (Cost.WorkflowAnalysis.Name <$> analyses).
Proof.
  revert v. induction analyses as [|wf rest IH]; intros v; simpl.
  { unfold counted_jobs. simpl. set_solver. }
  destruct (IH (Cost.workflow_body os v wf)) as [IHj IHw].
  destruct (workflow_body_unfold os v wf) as (Hj & Hw & _).
  rewrite IHj, IHw, Hj, Hw, jobs_perJob_dom, dom_map_add. simpl.
  unfold counted_jobs. rewrite bind_cons, filter_app, fmap_app, list_to_set_app_L.
  split; set_solver.
Qed.

(** The names with an entry in the maps of the report. *)
Lemma CalculateCost_dom analyses os days :
  let r := Cost.CalculateCost analyses os days in
  dom (Cost.CostReport.PerJob r) =
    list_to_set (Cost.JobAnalysis.Name <$> counted_jobs analyses)
  ∧ dom (Cost.CostReport.PerWorkflow r) =
      list_to_set (Cost.WorkflowAnalysis.Name <$> analyses).
Proof.
  unfold Cost.CalculateCost, Cost.scan. simpl.
  destruct (scan_dom analyses os Cost.init) as [Hj Hw].
  rewrite Hj, Hw. simpl. split; set_solver.
Qed.

(** The names with an entry, by membership. *)
Lemma CalculateCost_entries analyses os days :
  let r := Cost.CalculateCost analyses os days in
  (∀ w, is_Some (Cost.CostReport.PerWorkflow r !! w) ↔
        ∃ wf, wf ∈ analyses ∧ Cost.WorkflowAnalysis.Name wf = w)
  ∧ (∀ n, is_Some (Cost.CostReport.PerJob r !! n) ↔
          ∃ wf job, wf ∈ analyses ∧ job ∈ Cost.WorkflowAnalysis.Jobs wf
                    ∧ Cost.JobAnalysis.Name job = n
                    ∧ counted (Cost.JobAnalysis.Duration job) = true).
Proof.
  intros r. destruct (CalculateCost_dom analyses os days) as [Hj Hw].
  fold r in Hj, Hw. split.
  - intros w. rewrite <- elem_of_dom, Hw, elem_of_list_to_set, list_elem_of_fmap.
    naive_solver.
  - intros n. rewrite <- elem_of_dom, Hj, elem_of_list_to_set, list_elem_of_fmap.
    unfold counted_jobs. split.
    + intros (job & -> & Hin). apply list_elem_of_filter in Hin as [Hc Hin].
      apply list_elem_of_bind in Hin as (wf & Hjob & Hwf). eauto 10.
    + intros (wf & job & Hwf & Hjob & <- & Hc). exists job. split; [done|].
      apply list_elem_of_filter. split; [done|].
      apply list_elem_of_bind. eauto.
Qed.

End CostKeys.

(** ** Exact arithmetic: durations and sums *)

Section ExactArith.
#[local] Existing Instance exact.
Local Open Scope Q_scope.
Implicit Types x y z : Q.

Lemma Qltb_lt x y : Qltb x y = true ↔ x < y.
Proof.
  unfold Qltb. rewrite Qlt_alt. destruct (x ?= y); split; congruence.
Qed.

Lemma Qltb_ge x y : Qltb x y = false ↔ y <= x.
Proof.
  rewrite <- not_true_iff_false, Qltb_lt. split; [apply Qnot_lt_le|apply Qle_not_lt].
Qed.

Lemma exact_leb x y : (x <=? y)%f64 = true ↔ x <= y.
Proof. apply Qle_bool_iff. Qed.

Lemma exact_leb_false x y : (x <=? y)%f64 = false ↔ y < x.
Proof.
  rewrite <- not_true_iff_false, exact_leb. split; [apply Qnot_le_lt|apply Qlt_not_le].
Qed.

Lemma exact_Minutes (d : time.Duration) :
  time.Minutes (fl := exact) d == d # 60000000000.
Proof.
  unfold time.Minutes. cbn -[Z.quot Z.rem Z.mul].
  pose proof (Z.quot_rem' d time.Minute) as Hd.
  change time.Minute with 60000000000%Z in *.
  change (60 * 1000000000)%Z with 60000000000%Z.
  set (q := (d ÷ 60000000000)%Z) in *. set (r := Z.rem d 60000000000) in *.
  unfold Qeq, Qplus, Qdiv, Qmult, Qinv, inject_Z. cbn -[Z.mul]. lia.
Qed.

Lemma exact_Seconds (d : time.Duration) :
  time.Seconds (fl := exact) d == d # 1000000000.
Proof.
  unfold time.Seconds. cbn -[Z.quot Z.rem Z.mul].
  pose proof (Z.quot_rem' d time.Second) as Hd.
  change time.Second with 1000000000%Z in *.
  set (q := (d ÷ 1000000000)%Z) in *. set (r := Z.rem d 1000000000) in *.
  unfold Qeq, Qplus, Qdiv, Qmult, Qinv, inject_Z. cbn -[Z.mul]. lia.
Qed.

(** In exact arithmetic the guard [minutes <= 0] reads the sign of the
    duration. *)
Lemma exact_counted (d : time.Duration) :
  counted (fl := exact) d = true ↔ (0 < d)%Z.
Proof.
  unfold counted. rewrite negb_true_iff, exact_leb_false, exact_Minutes.
  unfold f64_zero, Qlt. cbn. lia.
Qed.

Lemma exact_const_rate (q : Q) : q ∈ rates → 0 < f64_const (fl := exact) q.
Proof.
  unfold rates. rewrite !elem_of_cons.
  intros [->|[->|[->|Hq]]]; [by vm_compute..|by apply elem_of_nil in Hq].
Qed.

Lemma exact_laws : Float64Laws exact.
Proof.
  split; cbn [F64 exact f64_ltb f64_leb f64_add f64_mul].
  - intros x. apply Qltb_ge. apply Qle_refl.
  - intros x y z. rewrite !Qltb_lt. apply Qlt_trans.
  - intros x y z _. rewrite !Qltb_ge. intros ??. by eapply Qle_trans.
  - by vm_compute.
  - intros x _. unfold is_number. cbn. apply Qeq_bool_iff. reflexivity.
  - intros x y. rewrite !Qle_bool_iff. change (@f64_zero exact) with 0. intros. lra.
  - intros x q Hq. rewrite !Qle_bool_iff. change (@f64_zero exact) with 0.
    intros Hx. pose proof (exact_const_rate q Hq) as Hc.
    apply Qmult_le_0_compat; [done|]. by apply Qlt_le_weak.
  - intros d Hd. rewrite Qle_bool_iff, exact_Minutes.
    change (@f64_zero exact) with 0. unfold Qle. cbn. lia.
  - intros d Hd. rewrite Qle_bool_iff, exact_Minutes.
    change (@f64_zero exact) with 0. unfold Qle. cbn. lia.
Qed.

(** Sums of rationals do not depend on the order of the summands. *)
Lemma exact_sum_from (l : list Q) a : fold_left Qplus l a == a + foldr Qplus 0 l.
Proof.
  revert a. induction l as [|x l IH]; intros a; simpl; [ring|].
  rewrite IH. ring.
Qed.

Lemma exact_sum (l : list Q) : f64_sum (fl := exact) l == foldr Qplus 0 l.
Proof. unfold f64_sum. cbn. rewrite exact_sum_from. ring. Qed.

Lemma exact_sum_cons x (l : list Q) :
  f64_sum (fl := exact) (x :: l) == x + f64_sum (fl := exact) l.
Proof. rewrite !exact_sum. simpl. ring. Qed.

Lemma exact_sum_perm (l1 l2 : list Q) :
  l1 ≡ₚ l2 → f64_sum (fl := exact) l1 == f64_sum (fl := exact) l2.
Proof.
  intros Hp. rewrite !exact_sum.
  induction Hp as [|x l1 l2 _ IH|x y l|l1 l2 l3 _ IH1 _ IH2]; simpl.
  - reflexivity.
  - by rewrite IH.
  - ring.
  - by rewrite IH1.
Qed.

Lemma exact_map_total_insert (m : gmap string Q) k v :
  m !! k = None →
  map_total (fl := exact) (<[k := v]> m) == v + map_total (fl := exact) m.
Proof.
  intros Hk. unfold map_total.
  rewrite (exact_sum_perm _ (v :: (map_to_list m).*2)).
  - apply exact_sum_cons.
  - by rewrite map_to_list_insert.
Qed.

(** [m[k] += v] adds [v] to the sum of the values. *)
Lemma exact_map_total_add (m : gmap string Q) k v :
  map_total (fl := exact) (map_add (fl := exact) m k v) == map_total (fl := exact) m + v.
Proof.
  unfold map_add. cbn [F64 exact f64_add f64_zero f64_of_int].
  destruct (m !! k) as [x|] eqn:Hk; simpl.
  - rewrite <- (insert_delete_eq m k (x + v)).
    rewrite <- (insert_delete_id m k x) at 2 by done.
    rewrite !exact_map_total_insert by apply lookup_delete_eq. ring.
  - rewrite exact_map_total_insert by done. unfold f64_zero. cbn. ring.
Qed.

Context {lib : GoLib}.

Lemma exact_jobs_total os wf jobs (v : Cost.jvars) :
  map_total (Cost.perJob (fold_left (Cost.job_body os wf) jobs v)) + Cost.wfCost v
  == map_total (Cost.perJob v)
     + Cost.wfCost (fold_left (Cost.job_body os wf) jobs v).
Proof.
  revert v. induction jobs as [|job jobs IH]; intros v; simpl; [reflexivity|].
  pose proof (IH (Cost.job_body os wf v job)) as H1. clear IH.
  destruct (counted (Cost.JobAnalysis.Duration job)) eqn:Hc.
  - pose proof (job_body_perJob os wf v job Hc) as Hp. rewrite Hp in H1.
    rewrite exact_map_total_add in H1.
    assert (Cost.wfCost (Cost.job_body os wf v job)
            == Cost.wfCost v
               + time.Minutes (Cost.JobAnalysis.Duration job)
                 * Cost.resolveRate (Cost.JobAnalysis.Labels job) os) as Hw.
    { unfold Cost.job_body, counted in *. apply negb_true_iff in Hc.
      rewrite Hc. reflexivity. }
    cbn [F64 exact f64_add f64_mul] in *. lra.
  - rewrite job_body_skip in * by done. done.
Qed.

Lemma exact_scan_total os analyses (v : Cost.wvars) :
  map_total (Cost.CostReport.PerJob (Cost.report v))
    == Cost.CostReport.TotalCost (Cost.report v) →
  map_total (Cost.CostReport.PerWorkflow (Cost.report v))
    == Cost.CostReport.TotalCost (Cost.report v) →
  map_total (Cost.CostReport.PerJob
               (Cost.report (fold_left (Cost.workflow_body os) analyses v)))
    == Cost.CostReport.TotalCost
         (Cost.report (fold_left (Cost.workflow_body os) analyses v))
  ∧ map_total (Cost.CostReport.PerWorkflow
                 (Cost.report (fold_left (Cost.workflow_body os) analyses v)))
    == Cost.CostReport.TotalCost
         (Cost.report (fold_left (Cost.workflow_body os) analyses v)).
Proof.
  revert v. induction analyses as [|wf rest IH]; intros v; simpl; [done|].
  intros Hj Hw. apply IH; clear IH.
  - destruct (workflow_body_unfold os v wf) as (-> & _ & -> & _).
    pose proof (exact_jobs_total os wf (Cost.WorkflowAnalysis.Jobs wf)
      {| Cost.perJob := Cost.CostReport.PerJob (Cost.report v);
         Cost.wfCost := f64_zero;
         Cost.jSteps := Cost.allSteps v |}) as Ht.
    cbn [Cost.perJob Cost.wfCost] in Ht.
    set (jv := fold_left _ _ _) in *. clearbody jv.
    change (@f64_zero exact) with 0 in Ht.
    cbn [F64 exact f64_add] in *. lra.
  - destruct (workflow_body_unfold os v wf) as (_ & -> & -> & _).
    rewrite exact_map_total_add. cbn [F64 exact f64_add] in *. lra.
Qed.

Lemma exact_totals analyses os days :
  let r := Cost.CalculateCost analyses os days in
  map_total (Cost.CostReport.PerJob r) == Cost.CostReport.TotalCost r
  ∧ map_total (Cost.CostReport.PerWorkflow r) == Cost.CostReport.TotalCost r.
Proof.
  unfold Cost.CalculateCost, Cost.scan. cbn -[map_total].
  apply exact_scan_total; apply Qeq_refl.
Qed.

(** C5, in exact arithmetic. The total cost is the sum of the per-workflow
    costs and the sum of the per-job costs, in whatever order the entries
    of the two maps are added up. *)
Theorem C5_totals_agree analyses os days (ws js : list (string * Q)) :
  let r := Cost.CalculateCost analyses os days in
  ws ≡ₚ map_to_list (Cost.CostReport.PerWorkflow r) →
  js ≡ₚ map_to_list (Cost.CostReport.PerJob r) →
  Cost.CostReport.TotalCost r == f64_sum ws.*2
  ∧ Cost.CostReport.TotalCost r == f64_sum js.*2.
Proof.
  intros r Hws Hjs. destruct (exact_totals analyses os days) as [Hj Hw].
  fold r in Hj, Hw. unfold map_total in *. split.
  - rewrite <- Hw. apply exact_sum_perm. by rewrite Hws.
  - rewrite <- Hj. apply exact_sum_perm. by rewrite Hjs.
Qed.

Lemma exact_projection analyses os days :
  let r := Cost.CalculateCost analyses os days in
  Cost.CostReport.ProjectedCost30 r
    == Cost.CostReport.TotalCost r / inject_Z (Z.max days 1) * 30
  ∧ (Cost.CostReport.TotalCost r == 0 → Cost.CostReport.ProjectedCost30 r == 0).
Proof.
  intros r.
  assert (Cost.CostReport.ProjectedCost30 r
            == Cost.CostReport.TotalCost r / inject_Z (Z.max days 1) * 30) as Hp.
  { unfold r, Cost.CalculateCost. cbn.
    destruct (Z.leb_spec days 0).
    - rewrite Z.max_r by lia. reflexivity.
    - rewrite Z.max_l by lia. reflexivity. }
  split; [done|]. intros H0. rewrite Hp, H0. unfold Qdiv. ring.
Qed.

Lemma time_Sub_pos (t u : time.Time) : (0 < time.Sub t u ↔ u < t)%Z.
Proof.
  unfold time.Sub, time.minDuration, time.maxDuration.
  destruct (Z.ltb_spec (t - u) (- 2 ^ 63)); [lia|].
  destruct (Z.ltb_spec (2 ^ 63 - 1) (t - u)); lia.
Qed.

Lemma exact_job_minutes (j : Job.t) :
  (job_minutes j <=? f64_zero)%f64 = false ↔ (Job.StartedAt j < Job.CompletedAt j)%Z.
Proof.
  unfold job_minutes. rewrite exact_leb_false, exact_Minutes, <- time_Sub_pos.
  unfold f64_zero, Qlt. cbn. lia.
Qed.

End ExactArith.

(** ** IEEE 754 binary64: the order of the numbers and the signs of the
    operations *)

Section SpecFloat.
Variables prec emax : Z.
Local Open Scope Z_scope.

Lemma SFcompare_rank f1 f2 :
  f1 ≠ S754_nan → f2 ≠ S754_nan →
  ∃ c, SFcompare f1 f2 = Some c
       ∧ (c = Lt ↔ lex_lt (sf_rank f1) (sf_rank f2)).
Proof.
  intros H1 H2. unfold SFcompare, lex_lt.
  destruct f1 as [s1|s1| |s1 m1 e1], f2 as [s2|s2| |s2 m2 e2]; try congruence;
    try destruct s1; try destruct s2; cbn; eexists; (split; [reflexivity|]).
  all: rewrite ?Pos.compare_cont_spec.
  all: try (split; first [discriminate | lia | (intros; reflexivity)]).
  all: destruct (Z.compare_spec e1 e2), (Pos.compare_spec m1 m2); cbn; split;
       first [discriminate | (intros; reflexivity) | lia].
Qed.

Lemma shr_1_nonneg mrs : 0 ≤ shr_m mrs → 0 ≤ shr_m (shr_1 mrs).
Proof.
  destruct mrs as [m r s]. cbn. destruct m as [|p|p]; [done| |lia].
  intros _. by destruct p.
Qed.

Lemma iter_pos_nonneg p mrs :
  0 ≤ shr_m mrs → 0 ≤ shr_m (SpecFloat.iter_pos shr_1 p mrs).
Proof.
  revert mrs. induction p as [p IH|p IH|]; intros mrs Hm; cbn.
  - apply IH, IH. by apply shr_1_nonneg.
  - by apply IH, IH.
  - by apply shr_1_nonneg.
Qed.

Lemma shr_fexp_nonneg m e l : 0 ≤ m → 0 ≤ shr_m (shr_fexp prec emax m e l).1.
Proof.
  intros Hm. unfold shr_fexp, shr.
  assert (0 ≤ shr_m (shr_record_of_loc m l)) as H0.
  { destruct l as [|[]]; exact Hm. }
  destruct (_ - e); cbn [fst]; [done| |done].
  by apply iter_pos_nonneg.
Qed.

Lemma round_nearest_even_nonneg m l : 0 ≤ m → 0 ≤ round_nearest_even m l.
Proof.
  intros Hm. unfold round_nearest_even. destruct l as [|[]]; try done; [|lia].
  destruct (Z.even m); lia.
Qed.

(** Rounding yields a number, of the sign it was given. *)
Lemma binary_round_aux_signed sx mx ex lx :
  0 ≤ mx → sf_signed sx (binary_round_aux prec emax sx mx ex lx).
Proof.
  intros Hm. unfold binary_round_aux.
  pose proof (shr_fexp_nonneg mx ex lx Hm) as H1.
  destruct (shr_fexp prec emax mx ex lx) as [mrs' e']. cbn [fst] in H1.
  pose proof (shr_fexp_nonneg
                (round_nearest_even (shr_m mrs') (loc_of_shr_record mrs')) e' loc_Exact
                (round_nearest_even_nonneg _ _ H1)) as H2.
  destruct (shr_fexp prec emax _ e' loc_Exact) as [mrs'' e'']. cbn [fst] in H2.
  destruct (shr_m mrs''); [done| |lia].
  by destruct (_ <=? _).
Qed.

Lemma binary_round_signed sx mx ex : sf_signed sx (binary_round prec emax sx mx ex).
Proof.
  unfold binary_round. destruct (shl_align _ _ _) as [mz ez].
  by apply binary_round_aux_signed.
Qed.

Lemma binary_normalize_signed m e :
  (0 ≤ m → sf_signed false (binary_normalize prec emax m e false))
  ∧ (m ≤ 0 → sf_signed true (binary_normalize prec emax m e false)).
Proof.
  unfold binary_normalize. destruct m; split; intros Hm; try done; try lia;
    apply binary_round_signed.
Qed.

Lemma SFmul_signed sx x sy my ey :
  sf_signed sx x → sf_signed (xorb sx sy) (SFmul prec emax x (S754_finite sy my ey)).
Proof.
  destruct x as [s|s| |s m e]; cbn; try done.
  - by intros ->.
  - intros ->. by apply binary_round_aux_signed.
Qed.

Lemma SFdiv_signed sx x sy my ey :
  sf_signed sx x → sf_signed (xorb sx sy) (SFdiv prec emax x (S754_finite sy my ey)).
Proof.
  destruct x as [s|s| |s m e]; cbn -[SFdiv_core_binary]; try done.
  - by intros ->.
  - intros ->.
    destruct (SFdiv_core_binary prec emax (Z.pos m) e (Z.pos my) ey) as [[mz ez] lz] eqn:Hd.
    apply binary_round_aux_signed.
    unfold SFdiv_core_binary in Hd.
    set (s' := (_ - _ - _)) in Hd.
    set (m' := match s' with Z.pos _ => _ | _ => _ end) in Hd.
    assert (0 ≤ m') as Hm'.
    { unfold m'. destruct s'; try lia. apply Z.shiftl_nonneg. lia. }
    pose proof (Z.div_eucl_eq m' (Z.pos my) ltac:(lia)) as Heq.
    pose proof (Z.mod_pos_bound m' (Z.pos my) ltac:(lia)) as Hb.
    unfold Z.modulo in Hb.
    destruct (Z.div_eucl m' (Z.pos my)) as [q r]. injection Hd as <- _ _. nia.
Qed.

Lemma SFadd_signed sx x y :
  sf_signed sx x → sf_signed sx y → sf_signed sx (SFadd prec emax x y).
Proof.
  destruct x as [s1|s1| |s1 m1 e1], y as [s2|s2| |s2 m2 e2]; cbn; try done.
  - intros _ _. by destruct s1, s2.
  - intros -> ->. by destruct sx.
  - intros -> ->.
    destruct (binary_normalize_signed
      (cond_Zopp sx (Z.pos (shl_align m1 e1 (Z.min e1 e2)).1)
       + cond_Zopp sx (Z.pos (shl_align m2 e2 (Z.min e1 e2)).1)) (Z.min e1 e2)) as [Hp Hn].
    destruct sx; cbn [cond_Zopp] in *; [apply Hn|apply Hp]; lia.
Qed.

Lemma SFldexp_signed sx x e : sf_signed sx x → sf_signed sx (SFldexp prec emax x e).
Proof.
  destruct x as [s|s| |s m ex]; cbn; try done. intros ->. apply binary_round_signed.
Qed.

Lemma SFopp_signed sx x : sf_signed sx x → sf_signed (negb sx) (SFopp x).
Proof. destruct x; cbn; try done; by intros ->. Qed.

Lemma SFleb_zero_l x : SFleb (S754_zero false) x = true ↔ sf_signed false x.
Proof.
  unfold SFleb. destruct x as [s|s| |s m e]; try destruct s; cbn;
    split; intros; try done; try congruence.
Qed.

Lemma SFleb_zero_r x : SFleb x (S754_zero false) = true ↔ sf_signed true x.
Proof.
  unfold SFleb. destruct x as [s|s| |s m e]; try destruct s; cbn;
    split; intros; try done; try congruence.
Qed.

Lemma SFeqb_refl x : SFeqb x x = true ↔ x ≠ S754_nan.
Proof.
  unfold SFeqb. destruct x as [s|s| |s m e]; cbn;
    rewrite ?Z.compare_refl, ?Pos.compare_cont_refl; try destruct s; cbn;
    split; intros; try done; try congruence.
Qed.

Lemma sf_signed_number sx f : sf_signed sx f → f ≠ S754_nan.
Proof. by destruct f. Qed.

End SpecFloat.

Section Binary64.
#[local] Existing Instance binary64.
Local Open Scope Z_scope.

(** The float that [SF2Prim] makes of a number is a number of the same
    sign, whether or not the mantissa is in its normal form. *)
Lemma Prim2SF_SF2Prim_signed sx f : sf_signed sx f → sf_signed sx (Prim2SF (SF2Prim f)).
Proof.
  destruct f as [s|s| |s m e]; cbn [sf_signed]; try done.
  - intros _. by destruct s.
  - intros ->. by destruct sx.
  - intros ->. unfold SF2Prim.
    set (pm := of_uint63 _).
    assert (sf_signed false (Prim2SF (Z.ldexp pm e))) as Hf.
    { unfold Z.ldexp. rewrite FloatAxioms.ldshiftexp_spec. apply SFldexp_signed.
      unfold pm. rewrite FloatAxioms.of_uint63_spec.
      apply binary_normalize_signed. apply Uint63.to_Z_bounded. }
    destruct sx; [|done]. rewrite FloatAxioms.opp_spec. by apply (SFopp_signed false).
Qed.

Lemma float_of_Z_signed z :
  (0 ≤ z → sf_signed false (Prim2SF (float_of_Z z)))
  ∧ (z ≤ 0 → sf_signed true (Prim2SF (float_of_Z z))).
Proof.
  unfold float_of_Z. split; intros Hz; apply Prim2SF_SF2Prim_signed;
    by apply binary_normalize_signed.
Qed.

Lemma binary64_zero : Prim2SF (f64_zero (fl := binary64)) = S754_zero false.
Proof. by vm_compute. Qed.

Lemma binary64_nonneg (x : float) :
  (f64_zero <=? x)%f64 = true ↔ sf_signed false (Prim2SF x).
Proof.
  cbn [f64_leb binary64]. rewrite FloatAxioms.leb_spec, binary64_zero. apply SFleb_zero_l.
Qed.

Lemma binary64_nonpos (x : float) :
  (x <=? f64_zero)%f64 = true ↔ sf_signed true (Prim2SF x).
Proof.
  cbn [f64_leb binary64]. rewrite FloatAxioms.leb_spec, binary64_zero. apply SFleb_zero_r.
Qed.

Lemma binary64_number (x : float) : is_number x = true ↔ Prim2SF x ≠ S754_nan.
Proof.
  unfold is_number. cbn [f64_eqb binary64]. rewrite FloatAxioms.eqb_spec. apply SFeqb_refl.
Qed.

(** [x < y] on binary64: both are numbers, and [x] has the lower rank. *)
Lemma binary64_lt (x y : float) :
  (x <? y)%f64 = true
  ↔ Prim2SF x ≠ S754_nan ∧ Prim2SF y ≠ S754_nan
    ∧ lex_lt (sf_rank (Prim2SF x)) (sf_rank (Prim2SF y)).
Proof.
  cbn [f64_ltb binary64]. rewrite FloatAxioms.ltb_spec. unfold SFltb.
  assert (∀ f, f = S754_nan ∨ f ≠ S754_nan) as Hdec by (intros []; auto).
  destruct (Hdec (Prim2SF x)) as [Hx|Hx].
  { rewrite Hx. cbn. split; [done|]. by intros [? _]. }
  destruct (Hdec (Prim2SF y)) as [Hy|Hy].
  { rewrite Hy. destruct (Prim2SF x); cbn; (split; [done|]); by intros (_ & ? & _). }
  destruct (SFcompare_rank _ _ Hx Hy) as (c & -> & Hlt).
  rewrite <- Hlt. destruct c; split; try done; try by intros (_ & _ & ?).
Qed.

Lemma binary64_rate (q : Q) :
  q ∈ rates → ∃ m e, Prim2SF (f64_const q) = S754_finite false m e.
Proof.
  unfold rates. rewrite !elem_of_cons.
  intros [->|[->|[->|Hq]]]; [..|by apply elem_of_nil in Hq];
    eexists _, _; vm_compute; reflexivity.
Qed.

Lemma binary64_laws : Float64Laws binary64.
Proof.
  split.
  - intros x. apply not_true_iff_false. rewrite binary64_lt. unfold lex_lt. lia.
  - intros x y z. rewrite !binary64_lt. unfold lex_lt.
    intros (Hx & Hy & Hxy) (_ & Hz & Hyz). do 2 (split; [done|]). lia.
  - intros x y z Hy%binary64_number Hxy%not_true_iff_false Hyz%not_true_iff_false.
    apply not_true_iff_false. rewrite binary64_lt in *.
    intros (Hx & Hz & Hxz).
    assert (¬ lex_lt (sf_rank (Prim2SF x)) (sf_rank (Prim2SF y))) as H1 by tauto.
    assert (¬ lex_lt (sf_rank (Prim2SF y)) (sf_rank (Prim2SF z))) as H2 by tauto.
    unfold lex_lt in *. lia.
  - by vm_compute.
  - intros x Hx%binary64_nonneg. apply binary64_number. by eapply sf_signed_number.
  - intros x y Hx%binary64_nonneg Hy%binary64_nonneg. apply binary64_nonneg.
    cbn [f64_add binary64]. rewrite FloatAxioms.add_spec. by apply SFadd_signed.
  - intros x q Hq Hx%binary64_nonneg. apply binary64_nonneg.
    cbn [f64_mul binary64]. rewrite FloatAxioms.mul_spec.
    destruct (binary64_rate q Hq) as (m & e & ->).
    apply (SFmul_signed _ _ false _ false m e Hx).
  - intros d Hd. unfold time.Minutes. cbn [f64_add f64_div f64_of_int binary64].
    rewrite binary64_nonneg, FloatAxioms.add_spec, FloatAxioms.div_spec.
    assert (∃ m e, Prim2SF (float_of_Z (60 * 1000000000)) = S754_finite false m e)
      as (m & e & ->) by (eexists _, _; vm_compute; reflexivity).
    apply SFadd_signed.
    + apply float_of_Z_signed. apply Z.quot_pos; [done|by vm_compute].
    + apply (SFdiv_signed _ _ false _ false). apply float_of_Z_signed.
      apply Z.rem_nonneg; [by vm_compute|done].
  - intros d Hd. unfold time.Minutes. cbn [f64_add f64_div f64_of_int binary64].
    rewrite binary64_nonpos, FloatAxioms.add_spec, FloatAxioms.div_spec.
    assert (∃ m e, Prim2SF (float_of_Z (60 * 1000000000)) = S754_finite false m e)
      as (m & e & ->) by (eexists _, _; vm_compute; reflexivity).
    apply SFadd_signed.
    + apply float_of_Z_signed.
      rewrite <- (Z.opp_involutive d), Z.quot_opp_l by (by vm_compute).
      assert (0 ≤ - d ÷ time.Minute); [|lia]. apply Z.quot_pos; [lia|by vm_compute].
    + apply (SFdiv_signed _ _ true _ false). apply float_of_Z_signed.
      rewrite <- (Z.opp_involutive d), Z.rem_opp_l by (by vm_compute).
      assert (0 ≤ Z.rem (- d) time.Minute); [|lia]. apply Z.rem_nonneg; [by vm_compute|lia].
Qed.

End Binary64.

(** C1, as the code has it. The per-workflow map has an entry for every
    workflow name of the input, also when none of the workflow's jobs is
    counted. The per-job map has an entry for a job name exactly when a job
    of that name passes the guard [jobMinutes <= 0]: a job name whose every
    occurrence has a non-positive duration has no entry. In exact arithmetic
    a job passes the guard exactly when its duration is positive. *)
Theorem C1_map_entries :
  (∀ (fl : Float64) (lib : GoLib) analyses os days,
     let r := Cost.CalculateCost analyses os days in
     (∀ w, is_Some (Cost.CostReport.PerWorkflow r !! w) ↔
           ∃ wf, wf ∈ analyses ∧ Cost.WorkflowAnalysis.Name wf = w)
     ∧ (∀ n, is_Some (Cost.CostReport.PerJob r !! n) ↔
             ∃ wf job, wf ∈ analyses ∧ job ∈ Cost.WorkflowAnalysis.Jobs wf
                       ∧ Cost.JobAnalysis.Name job = n
                       ∧ counted (Cost.JobAnalysis.Duration job) = true))
  ∧ (∀ d : time.Duration, counted (fl := exact) d = true ↔ (0 < d)%Z).
Proof.
  split.
  - intros fl lib analyses os days. apply CalculateCost_entries.
  - apply exact_counted.
Qed.

(** C6. The 30-day projection is the total cost divided by the number of
    observation days, at least 1, times 30: this is the expression the code
    evaluates, in every arithmetic. In exact arithmetic it is 0 when the
    total is 0. *)
Theorem C6_projection :
  (∀ (fl : Float64) (lib : GoLib) analyses os days,
     let r := Cost.CalculateCost analyses os days in
     Cost.CostReport.ProjectedCost30 r
     = (Cost.CostReport.TotalCost r / f64_of_int (Z.max days 1) * f64_of_int 30)%f64)
  ∧ (∀ (lib : GoLib) analyses os days,
       let r := Cost.CalculateCost (fl := exact) analyses os days in
       (Cost.CostReport.ProjectedCost30 r
        == Cost.CostReport.TotalCost r / inject_Z (Z.max days 1) * 30)%Q
       ∧ ((Cost.CostReport.TotalCost r == 0)%Q →
          (Cost.CostReport.ProjectedCost30 r == 0)%Q)).
Proof.
  split.
  - intros fl lib analyses os days. unfold Cost.CalculateCost. cbn.
    destruct (Z.leb_spec days 0).
    + by rewrite Z.max_r by lia.
    + by rewrite Z.max_l by lia.
  - intros lib analyses os days. apply exact_projection.
Qed.

(** ** Sorting: the stable sort, and what the contract of [sort.Slice] fixes *)

Section Sorting.
Context {A : Type} (less : A → A → bool).

Lemma strict_weak_on_all l : strict_weak less → strict_weak_on less l.
Proof.
  intros (Hirr & Htr & Hneg). repeat split.
  - intros x _. apply Hirr.
  - intros x y z _ _ _. apply Htr.
  - intros x y z _ _ _. apply Hneg.
Qed.

Lemma strict_weak_on_incl l1 l2 :
  (∀ x, x ∈ l2 → x ∈ l1) → strict_weak_on less l1 → strict_weak_on less l2.
Proof.
  intros Hin (Hirr & Htr & Hneg). repeat split.
  - intros x Hx. apply Hirr; auto.
  - intros x y z Hx Hy Hz. apply Htr; auto.
  - intros x y z Hx Hy Hz. apply Hneg; auto.
Qed.

Lemma strict_weak_on_asym l x y :
  strict_weak_on less l → x ∈ l → y ∈ l → less x y = true → less y x = false.
Proof.
  intros (Hirr & Htr & _) Hx Hy Hxy. destruct (less y x) eqn:Hyx; [|done].
  by rewrite <- (Hirr x Hx), (Htr x y x).
Qed.

Lemma insert_stable_perm x l : insert_stable less x l ≡ₚ x :: l.
Proof.
  induction l as [|y t IH]; simpl; [done|].
  destruct (less y x); [|done]. rewrite IH. apply Permutation_swap.
Qed.

Lemma stable_sort_perm l : stable_sort less l ≡ₚ l.
Proof.
  induction l as [|x t IH]; simpl; [done|].
  by rewrite insert_stable_perm, IH.
Qed.

Lemma insert_stable_ordered x l :
  strict_weak_on less (x :: l) → ordered_by less l →
  ordered_by less (insert_stable less x l).
Proof.
  unfold ordered_by. intros Hsw Hl. revert Hsw.
  induction Hl as [|y t Ht IH Hy]; intros Hsw; simpl.
  { repeat constructor. }
  destruct (less y x) eqn:Hyx.
  - constructor.
    + apply IH. eapply strict_weak_on_incl; [|exact Hsw].
      intros z. rewrite !elem_of_cons. tauto.
    + rewrite insert_stable_perm. constructor; [|done].
      apply (strict_weak_on_asym (x :: y :: t)); [done|set_solver..|done].
  - constructor; [by constructor|].
    constructor; [done|].
    apply Forall_forall. intros z Hz. rewrite Forall_forall in Hy.
    destruct Hsw as (_ & _ & Hneg).
    apply (Hneg z y x); [set_solver..|by apply Hy|done].
Qed.

Lemma stable_sort_ordered l :
  strict_weak_on less l → ordered_by less (stable_sort less l).
Proof.
  induction l as [|x t IH]; intros Hsw; simpl; [constructor|].
  apply insert_stable_ordered.
  - eapply strict_weak_on_incl; [|exact Hsw].
    intros z. rewrite !elem_of_cons, stable_sort_perm. tauto.
  - apply IH. eapply strict_weak_on_incl; [|exact Hsw].
    intros z. rewrite elem_of_cons. tauto.
Qed.

Lemma no_ties_perm l1 l2 : l1 ≡ₚ l2 → no_ties less l1 → no_ties less l2.
Proof.
  unfold no_ties.
  induction 1 as [|x l1 l2 Hp IH|x y l|l1 l2 l3 _ IH1 _ IH2]; intros Hn.
  - done.
  - inversion_clear Hn as [|? ? Hx Hl]. constructor; [|by apply IH].
    apply Forall_forall. intros z Hz. rewrite Forall_forall in Hx.
    apply Hx. by rewrite Hp.
  - inversion_clear Hn as [|? ? Hy Hl]. inversion_clear Hl as [|? ? Hx Hl'].
    inversion_clear Hy as [|? ? Hyx Hyl].
    constructor; [|by constructor].
    constructor; [tauto|done].
  - auto.
Qed.

Lemma no_tiesb_sound l : no_tiesb less l = true → no_ties less l.
Proof.
  unfold no_ties. induction l as [|x t IH]; simpl; [constructor|].
  intros [Hx Ht]%andb_true_iff. constructor; [|by apply IH].
  apply Forall_forall. intros y Hy. rewrite forallb_forall in Hx.
  apply orb_true_iff, Hx. by apply list_elem_of_In.
Qed.

(** Two orderings of the same elements coincide when no two elements tie. *)
Lemma ordered_unique l1 l2 :
  l1 ≡ₚ l2 → no_ties less l1 →
  ordered_by less l1 → ordered_by less l2 → l1 = l2.
Proof.
  unfold ordered_by. revert l2.
  induction l1 as [|x t1 IH]; intros l2 Hp Hn Hs1 Hs2.
  { by apply Permutation_nil in Hp. }
  destruct l2 as [|y t2]; [by apply Permutation_sym, Permutation_nil in Hp|].
  inversion_clear Hn as [|? ? Hx Hn']. rewrite Forall_forall in Hx.
  inversion_clear Hs1 as [|? ? Hs1' Hx1]. rewrite Forall_forall in Hx1.
  inversion_clear Hs2 as [|? ? Hs2' Hy2]. rewrite Forall_forall in Hy2.
  assert (x = y) as <-.
  { assert (y ∈ x :: t1) as [->|Hy]%elem_of_cons; [|done|].
    { rewrite Hp. by left. }
    assert (x ∈ y :: t2) as [->|Hx2]%elem_of_cons; [|done|].
    { rewrite <- Hp. by left. }
    specialize (Hx y Hy). specialize (Hx1 y Hy). specialize (Hy2 x Hx2).
    cbn in *. destruct Hx; congruence. }
  f_equal. apply IH; [|done..]. by eapply Permutation_cons_inv.
Qed.

Lemma firstn_min (l : list A) n :
  firstn (if (length l <? n)%nat then length l else n) l = firstn n l.
Proof.
  destruct (Nat.ltb_spec (length l) n); [|done].
  rewrite !firstn_all2 by lia. done.
Qed.

End Sorting.

(** ** The insertion sort of [sort.Slice] on short slices *)

Section InsertionSort.
Context {A : Type} (less : A → A → bool).

Lemma Less_middle (pre post : list A) x y :
  GoSort.Less less (pre ++ y :: x :: post) (S (length pre)) (length pre) = less x y.
Proof.
  unfold GoSort.Less.
  rewrite (lookup_app_r pre) by lia.
  rewrite (lookup_app_r pre) by lia.
  replace (S (length pre) - length pre)%nat with 1%nat by lia.
  replace (length pre - length pre)%nat with 0%nat by lia. done.
Qed.

Lemma Swap_middle (pre post : list A) x y :
  GoSort.Swap (pre ++ y :: x :: post) (S (length pre)) (length pre)
  = pre ++ x :: y :: post.
Proof.
  unfold GoSort.Swap.
  rewrite (lookup_app_r pre) by lia.
  rewrite (lookup_app_r pre) by lia.
  replace (S (length pre) - length pre)%nat with 1%nat by lia.
  replace (length pre - length pre)%nat with 0%nat by lia. cbn.
  rewrite (insert_app_r_alt pre) by lia.
  replace (S (length pre) - length pre)%nat with 1%nat by lia. cbn.
  rewrite (insert_app_r_alt pre) by lia.
  replace (length pre - length pre)%nat with 0%nat by lia. done.
Qed.

Lemma sink_insert (pre post : list A) x :
  GoSort.sink less (pre ++ x :: post) 0 (length pre)
  = rev (insert_stable (after less) x (rev pre)) ++ post.
Proof.
  revert post. induction pre as [|y pre IH] using rev_ind; intros post.
  { done. }
  rewrite length_app, Nat.add_1_r, rev_app_distr. cbn [GoSort.sink rev app insert_stable].
  rewrite <- app_assoc. cbn [app].
  rewrite Less_middle. unfold after at 1.
  destruct (less x y) eqn:Hxy; cbn [andb].
  - rewrite Swap_middle, IH. cbn [rev]. by rewrite <- app_assoc.
  - cbn [rev]. rewrite rev_involutive. by rewrite <- !app_assoc.
Qed.

Lemma insertion_passes (sp rest : list A) :
  fold_left (λ d i, GoSort.sink less d 0 i) (seq (length sp) (length rest)) (sp ++ rest)
  = rev (fold_left (λ acc x, insert_stable (after less) x acc) rest (rev sp)).
Proof.
  revert sp. induction rest as [|x rest IH]; intros sp; cbn [length seq fold_left].
  - by rewrite app_nil_r, rev_involutive.
  - rewrite sink_insert.
    set (sp' := rev (insert_stable (after less) x (rev sp))).
    assert (length sp' = S (length sp)) as Hlen.
    { unfold sp'. rewrite length_rev, insert_stable_perm. cbn. by rewrite length_rev. }
    rewrite <- Hlen, IH. unfold sp'. by rewrite rev_involutive.
Qed.

(** Go's insertion sort, as a function on lists. *)
Lemma SliceShort_eq (l : list A) :
  GoSort.SliceShort less l = rev (stable_sort (after less) (rev l)).
Proof.
  unfold GoSort.SliceShort, GoSort.insertionSort. destruct l as [|x0 rest]; [done|].
  cbn [length]. replace (S (length rest) - (0 + 1))%nat with (length rest) by lia.
  change (0 + 1)%nat with (length [x0]). change (x0 :: rest) with ([x0] ++ rest) at 1.
  rewrite insertion_passes. f_equal.
  unfold stable_sort. by rewrite fold_left_rev_right.
Qed.

Lemma after_strict_weak_on l :
  strict_weak_on less l → strict_weak_on (after less) (rev l).
Proof.
  intros (Hirr & Htr & Hneg). unfold after.
  assert (∀ x, x ∈ rev l → x ∈ l) as Hin.
  { intros x Hx. by apply list_elem_of_In, in_rev, list_elem_of_In in Hx. }
  repeat split.
  - intros x Hx. apply Hirr; auto.
  - intros x y z Hx Hy Hz Hxy Hyz. apply (Htr z y x); auto.
  - intros x y z Hx Hy Hz Hxy Hyz. apply (Hneg z y x); auto.
Qed.

Lemma ordered_rev (l : list A) : ordered_by (after less) l → ordered_by less (rev l).
Proof.
  unfold ordered_by, after. induction 1 as [|x t Ht IH Hx]; cbn [rev]; [constructor|].
  apply StronglySorted_app_2; [|done|repeat constructor].
  intros y1 y2 Hy1 ->%list_elem_of_singleton.
  apply list_elem_of_In, in_rev, list_elem_of_In in Hy1.
  rewrite Forall_forall in Hx. by apply Hx.
Qed.

Lemma Slice_short (l : list A) :
  (length l ≤ 12)%nat → GoSort.Slice less l = GoSort.SliceShort less l.
Proof.
  intros Hl. unfold GoSort.Slice, GoSort.SliceShort. cbn [GoSort.pdqsort].
  rewrite Nat.sub_0_r. by replace (length l <=? 12)%nat with true by (symmetry; by apply Nat.leb_le).
Qed.
End InsertionSort.

(** The contract on the slice gives the contract for a [less] that is a
    strict weak ordering of the whole type. *)
#[global] Instance GoSortSpec_GoLibSpec (lib : GoLib) : GoSortSpec lib → GoLibSpec lib.
Proof.
  intros [Hperm Hord]. split; [exact Hperm|].
  intros A less l Hsw. apply Hord. by apply strict_weak_on_all.
Qed.

Lemma go_short_sort_spec : GoSortSpec go_short.
Proof.
  split; intros A less l; cbn; rewrite SliceShort_eq.
  - by rewrite <- Permutation_rev, stable_sort_perm, <- Permutation_rev.
  - intros Hsw. apply ordered_rev, stable_sort_ordered. by apply after_strict_weak_on.
Qed.

Lemma go_short_spec : GoLibSpec go_short.
Proof. apply GoSortSpec_GoLibSpec, go_short_sort_spec. Qed.

(** ** The aggregator: the top steps *)

Section TopSteps.
Context {fl : Float64} {lib : GoLib}.

Lemma CalculateCost_TopSteps analyses os days :
  let r := Cost.CalculateCost analyses os days in
  Cost.CostReport.TopSteps r =
    firstn 5 (sort_Slice Cost.byCost (Cost.CostReport.PerStep r)).
Proof. unfold Cost.CalculateCost. cbn -[Nat.ltb firstn]. apply firstn_min. Qed.

End TopSteps.

(** ** The narrative report *)

Section Narrative.
Context {fl : Float64} {lib : GoLib}.

Lemma fold_left_snoc {X Y} (f : X → Y) (l : list X) (acc : list Y) :
  fold_left (λ acc x, acc ++ [f x]) l acc = acc ++ (f <$> l).
Proof.
  revert acc. induction l as [|x l IH]; intros acc; simpl.
  - by rewrite app_nil_r.
  - by rewrite IH, <- app_assoc.
Qed.

Lemma step_body_untouched rate v s : untouched v (Analyzer.step_body rate v s).
Proof.
  unfold untouched, Analyzer.step_body.
  destruct (_ <=? _)%f64; [done|].
  repeat (split; [done|]). cbn.
  destruct (_ && String.eqb _ _), (_ && (_ || _ || _));
    rewrite ?List.filter_app; cbn; by rewrite ?app_nil_r.
Qed.

Lemma steps_untouched rate steps v :
  untouched v (fold_left (Analyzer.step_body rate) steps v).
Proof.
  revert v. induction steps as [|s steps IH]; intros v; simpl; [done|].
  pose proof (step_body_untouched rate v s) as H1.
  pose proof (IH (Analyzer.step_body rate v s)) as H2.
  unfold untouched in *. destruct_and!. repeat split; congruence.
Qed.

(** The loop over the jobs never writes the monthly estimate, the top steps
    or the suggestions, and it appends one retry finding for each failed
    job that passes its guard. *)
Lemma scan_jobs jobs v :
  let v' := fold_left Analyzer.job_body jobs v in
  Analyzer.Report.MonthlyCost (Analyzer.r v') = Analyzer.Report.MonthlyCost (Analyzer.r v)
  ∧ Analyzer.Report.TopSteps (Analyzer.r v') = Analyzer.Report.TopSteps (Analyzer.r v)
  ∧ Analyzer.Report.Suggestions (Analyzer.r v') = Analyzer.Report.Suggestions (Analyzer.r v)
  ∧ List.filter is_retry (Analyzer.Report.Waste (Analyzer.r v'))
    = List.filter is_retry (Analyzer.Report.Waste (Analyzer.r v))
      ++ (retry_item <$> List.filter failed_run jobs).
Proof.
  revert v. induction jobs as [|j jobs IH]; intros v; simpl.
  { by rewrite app_nil_r. }
  destruct (IH (Analyzer.job_body v j)) as (-> & -> & -> & ->). clear IH.
  unfold Analyzer.job_body, failed_run. fold (job_minutes j).
  destruct (job_minutes j <=? f64_zero)%f64; [done|]. cbn [negb andb].
  match goal with |- context [fold_left ?f ?l ?a] =>
    pose proof (steps_untouched (Analyzer.RunnerRate (Job.Labels j)) l a) as Hu end.
  unfold untouched in Hu. cbn in Hu.
  destruct Hu as (_ & _ & -> & _ & -> & -> & _ & ->).
  repeat (split; [done|]).
  destruct (String.eqb (Job.Conclusion j) "failure"); [|done].
  rewrite List.filter_app. cbn. by rewrite <- app_assoc.
Qed.

Lemma Analyze_Waste rng jobs days :
  Analyzer.Report.Waste (Analyzer.Analyze rng jobs days)
  = Analyzer.Report.Waste (Analyzer.r (Analyzer.scan jobs)).
Proof. done. Qed.

(** The retry findings of the report. *)
Lemma Analyze_retry rng jobs days :
  let waste := Analyzer.Report.Waste (Analyzer.Analyze rng jobs days) in
  List.filter is_retry waste = retry_item <$> List.filter failed_run jobs
  ∧ (∀ j, j ∈ jobs → Job.Conclusion j = "failure" →
          (job_minutes j <=? f64_zero)%f64 = false →
          {| Analyzer.WasteItem.Type_ := "retry";
             Analyzer.WasteItem.Detail := "Failed: " +:+ Job.Name j;
             Analyzer.WasteItem.Cost :=
               (job_minutes j * Analyzer.RunnerRate (Job.Labels j))%f64 |} ∈ waste).
Proof.
  intros waste. unfold waste. rewrite Analyze_Waste.
  destruct (scan_jobs jobs Analyzer.init) as (_ & _ & _ & Hw).
  assert (List.filter is_retry (Analyzer.Report.Waste (Analyzer.r (Analyzer.scan jobs)))
          = retry_item <$> List.filter failed_run jobs) as Hret by exact Hw.
  split; [done|]. intros j Hj Hfail Hdur.
  assert (retry_item j ∈ retry_item <$> List.filter failed_run jobs) as Hin.
  { apply list_elem_of_fmap. exists j. split; [done|].
    apply list_elem_of_In, List.filter_In. split; [by apply list_elem_of_In|].
    unfold failed_run. rewrite Hdur, Hfail. done. }
  rewrite <- Hret in Hin. apply list_elem_of_In, List.filter_In in Hin as [Hin _].
  by apply list_elem_of_In.
Qed.

End Narrative.

(** C8, as the code has it. The narrative report holds one finding of type
    "retry" for every job whose outcome is failure and whose duration passes
    the guard [dur <= 0], in the order of the jobs, and no other; its cost is
    the job's whole cost, its minutes times its rate. In exact arithmetic a
    job passes the guard exactly when it completed after it started. *)
Theorem C8_failed_jobs :
  (∀ (fl : Float64) (lib : GoLib) rng jobs days,
     let waste := Analyzer.Report.Waste (Analyzer.Analyze rng jobs days) in
     List.filter is_retry waste = retry_item <$> List.filter failed_run jobs
     ∧ (∀ j, j ∈ jobs → Job.Conclusion j = "failure" →
             (job_minutes j <=? f64_zero)%f64 = false →
             {| Analyzer.WasteItem.Type_ := "retry";
                Analyzer.WasteItem.Detail := "Failed: " +:+ Job.Name j;
                Analyzer.WasteItem.Cost :=
                  (job_minutes j * Analyzer.RunnerRate (Job.Labels j))%f64 |} ∈ waste))
  ∧ (∀ j : Job.t,
       (job_minutes (fl := exact) j <=? f64_zero)%f64 = false
       ↔ (Job.StartedAt j < Job.CompletedAt j)%Z).
Proof.
  split.
  - intros fl lib rng jobs days. apply Analyze_retry.
  - apply exact_job_minutes.
Qed.

(** ** The detectors *)

Section Detectors.
Context {fl : Float64} {lib : GoLib}.

Lemma fold_left_bind {X Y} (g : X → list Y) (l : list X) (acc : list Y) :
  fold_left (λ acc x, acc ++ g x) l acc = acc ++ (l ≫= g).
Proof.
  revert acc. induction l as [|x l IH]; intros acc; simpl.
  - by rewrite app_nil_r.
  - by rewrite IH, <- app_assoc.
Qed.

Lemma fold_left_ext {X Y} (f g : Y → X → Y) (l : list X) (acc : Y) :
  (∀ a x, f a x = g a x) → fold_left f l acc = fold_left g l acc.
Proof.
  intros Hfg. revert acc. induction l as [|x l IH]; intros acc; simpl; [done|].
  by rewrite IH, Hfg.
Qed.

Lemma bind_filter_map {X Y} (p : X → bool) (f : X → Y) (l : list X) :
  (l ≫= λ x, if p x then [f x] else []) = f <$> List.filter p l.
Proof.
  induction l as [|x l IH]; [done|].
  rewrite bind_cons. cbn [List.filter]. rewrite IH. by destruct (p x).
Qed.

Lemma cacheMiss_step_app cr j recs s :
  Recommendations.cacheMiss_step cr (Analyzer.RunnerRate (Job.Labels j)) recs s
  = recs ++ (if cache_miss_trigger s then [cache_miss_rec cr j s] else []).
Proof.
  unfold Recommendations.cacheMiss_step, cache_miss_trigger, install_step.
  fold (step_seconds s).
  destruct (step_seconds s <=? f64_of_int 60)%f64; cbn [negb andb].
  { by rewrite app_nil_r. }
  destruct (existsb _ _); cbn [negb]; [done|by rewrite app_nil_r].
Qed.

(** The cache-miss recommendations, in the order of the jobs and of their
    steps: one for each step that triggers the rule. *)
Lemma DetectCacheMiss_eq cr :
  Recommendations.DetectCacheMiss cr
  = Recommendations.CostReport.Jobs cr ≫= λ j,
      cache_miss_rec cr j <$> List.filter cache_miss_trigger (Job.Steps j).
Proof.
  unfold Recommendations.DetectCacheMiss.
  rewrite (fold_left_ext _
    (λ recs j, recs ++ (cache_miss_rec cr j <$> List.filter cache_miss_trigger (Job.Steps j)))).
  { by rewrite fold_left_bind. }
  intros recs j. cbv zeta.
  rewrite (fold_left_ext _
    (λ recs s, recs ++ (if cache_miss_trigger s then [cache_miss_rec cr j s] else []))).
  - by rewrite fold_left_bind, bind_filter_map.
  - intros. apply cacheMiss_step_app.
Qed.

Lemma expensiveOS_job_app cr recs j :
  Recommendations.expensiveOS_job cr recs j
  = recs ++ (if expensive_os_trigger j then [expensive_os_rec cr j] else []).
Proof.
  unfold Recommendations.expensiveOS_job, expensive_os_trigger.
  fold (job_minutes j).
  destruct (Recommendations.isMac (Job.Labels j)); cbn [negb andb].
  - destruct (job_minutes j <=? f64_of_int 5)%f64; cbn [negb]; [|done].
    by rewrite app_nil_r.
  - by rewrite app_nil_r.
Qed.

Lemma DetectExpensiveOS_eq cr :
  Recommendations.DetectExpensiveOS cr
  = expensive_os_rec cr <$> List.filter expensive_os_trigger (Recommendations.CostReport.Jobs cr).
Proof.
  unfold Recommendations.DetectExpensiveOS.
  rewrite (fold_left_ext _
    (λ recs j, recs ++ (if expensive_os_trigger j then [expensive_os_rec cr j] else []))).
  - by rewrite fold_left_bind, bind_filter_map.
  - intros. apply expensiveOS_job_app.
Qed.

Lemma duplicate_entry_app recs e :
  Recommendations.duplicate_entry recs e = recs ++ duplicate_recs e.
Proof.
  unfold duplicate_recs, Recommendations.duplicate_entry. destruct e as [n jobs].
  destruct (size jobs <? 2)%nat; [by rewrite app_nil_r|done].
Qed.

Lemma DetectDuplicateSteps_eq rng cr :
  Recommendations.DetectDuplicateSteps rng cr
  = rng (Recommendations.stepJobs cr) ≫= duplicate_recs.
Proof.
  unfold Recommendations.DetectDuplicateSteps.
  rewrite (fold_left_ext _ (λ recs e, recs ++ duplicate_recs e)).
  - by rewrite fold_left_bind.
  - intros. apply duplicate_entry_app.
Qed.

Lemma GenerateRecommendations_eq rng cr :
  Recommendations.GenerateRecommendations rng cr
  = Recommendations.DetectCacheMiss cr ++ Recommendations.DetectLongCheckout cr
    ++ Recommendations.DetectDuplicateSteps rng cr
    ++ Recommendations.DetectExpensiveOS cr.
Proof.
  unfold Recommendations.GenerateRecommendations. cbv zeta.
  by rewrite app_nil_l, <- !app_assoc.
Qed.

Lemma isMac_iff labels :
  Recommendations.isMac labels = true ↔ ∃ l, l ∈ labels ∧ mentions "macos" l = true.
Proof.
  unfold Recommendations.isMac. rewrite existsb_exists.
  split; intros (l & Hl & Hm); exists l; split; try done; by apply list_elem_of_In.
Qed.

End Detectors.

(** ** Observation days that are not positive *)

Section Days.
Context {fl : Float64} {lib : GoLib}.

Lemma Analyze_MonthlyCost rng jobs days :
  Analyzer.Report.MonthlyCost (Analyzer.Analyze rng jobs days)
  = if (0 <? days)%Z
    then (Analyzer.Report.TotalCost (Analyzer.Analyze rng jobs days)
          / f64_of_int days * f64_of_int 30)%f64
    else f64_zero.
Proof.
  unfold Analyzer.Analyze.
  cbn [Analyzer.Report.MonthlyCost Analyzer.Report.TotalCost].
  destruct (0 <? days)%Z; [done|]. unfold Analyzer.scan.
  by destruct (scan_jobs jobs Analyzer.init) as (-> & _).
Qed.

Lemma CalculateCost_days analyses os days :
  (days ≤ 0)%Z → Cost.CalculateCost analyses os days = Cost.CalculateCost analyses os 1.
Proof.
  intros Hd. unfold Cost.CalculateCost.
  by replace (days <=? 0)%Z with true by (symmetry; by apply Z.leb_le).
Qed.

(** C3, as the code has it. For observation days [d <= 0] only the
    aggregator behaves as if [d = 1]: its report is the report for one day.
    The detectors' monthly-scale factor is then 1, and the narrative report
    leaves its monthly estimate at 0. *)
Theorem C3_nonpositive_days rng jobs analyses os days :
  (days ≤ 0)%Z →
  Recommendations.monthlyScale days = f64_of_int 1
  ∧ Analyzer.Report.MonthlyCost (Analyzer.Analyze rng jobs days) = f64_zero
  ∧ Cost.CalculateCost analyses os days = Cost.CalculateCost analyses os 1
  ∧ Cost.CostReport.ProjectedCost30 (Cost.CalculateCost analyses os days)
    = (Cost.CostReport.TotalCost (Cost.CalculateCost analyses os days)
       / f64_of_int 1 * f64_of_int 30)%f64.
Proof.
  intros Hd. split; [|split; [|split]].
  - unfold Recommendations.monthlyScale.
    by replace (days <=? 0)%Z with true by (symmetry; by apply Z.leb_le).
  - rewrite Analyze_MonthlyCost.
    by replace (0 <? days)%Z with false by (symmetry; apply Z.ltb_ge; lia).
  - by apply CalculateCost_days.
  - by rewrite CalculateCost_days.
Qed.

End Days.

(** ** Runs that differ in the order of a map's entries *)

Section Runs.
Context {fl : Float64} {lib : GoLib}.

Lemma DetectDuplicateSteps_perm rng1 rng2 cr :
  is_range rng1 (Recommendations.stepJobs cr) →
  is_range rng2 (Recommendations.stepJobs cr) →
  Recommendations.DetectDuplicateSteps rng1 cr
  ≡ₚ Recommendations.DetectDuplicateSteps rng2 cr.
Proof.
  unfold is_range. intros H1 H2. rewrite !DetectDuplicateSteps_eq.
  by rewrite H1, H2.
Qed.

Lemma top_entries (ents : list (string * F64)) (acc : list (Analyzer.StepCost.t F64)) :
  fold_left
    (λ acc nm, acc ++ [ {| Analyzer.StepCost.Name := nm.1;
                           Analyzer.StepCost.Min := nm.2 |} ])
    ents acc
  = acc ++ (step_cost <$> ents).
Proof. exact (fold_left_snoc step_cost ents acc). Qed.

(** The report depends on the order of [stepAgg] only through the sorted
    list of its entries. *)
Lemma Analyze_sorted rng1 rng2 jobs days :
  sort_Slice Analyzer.byMin (step_cost <$> rng1 (Analyzer.stepAgg (Analyzer.scan jobs)))
  = sort_Slice Analyzer.byMin (step_cost <$> rng2 (Analyzer.stepAgg (Analyzer.scan jobs))) →
  Analyzer.Analyze rng1 jobs days = Analyzer.Analyze rng2 jobs days.
Proof.
  intros Hs. unfold Analyzer.Analyze. cbv zeta.
  destruct (scan_jobs jobs Analyzer.init) as (_ & Htop & _).
  change (fold_left Analyzer.job_body jobs Analyzer.init) with (Analyzer.scan jobs) in Htop.
  rewrite !top_entries, Htop. cbn [Analyzer.init Analyzer.r Analyzer.Report.TopSteps app].
  by rewrite Hs.
Qed.

End Runs.

(** ** The cache-miss and expensive-os rules *)

Lemma exact_cache_miss_trigger (lib : GoLib) (s : Step.t) :
  cache_miss_trigger (fl := exact) s = true
  ↔ install_step s = true
    ∧ (60 * time.Second < time.Sub (Step.CompletedAt s) (Step.StartedAt s))%Z.
Proof.
  unfold cache_miss_trigger, step_seconds.
  rewrite andb_true_iff, negb_true_iff, exact_leb_false, exact_Seconds.
  change time.Second with 1000000000%Z.
  set (d := time.Sub _ _). unfold Qlt. cbn. split; intros [? ?]; split; try done; lia.
Qed.

Lemma exact_cache_miss_savings (lib : GoLib) cr j s :
  (Recommendations.Recommendation.EstimatedMonthlySavings
     (cache_miss_rec (fl := exact) cr j s)
   == (7 # 10)
      * time.Minutes (fl := exact) (time.Sub (Step.CompletedAt s) (Step.StartedAt s))
      * Analyzer.RunnerRate (fl := exact) (Job.Labels j)
      * Recommendations.monthlyScale (fl := exact) (Recommendations.CostReport.Days cr))%Q.
Proof.
  unfold cache_miss_rec, step_seconds.
  cbn [Recommendations.Recommendation.EstimatedMonthlySavings].
  set (d := time.Sub _ _).
  pose proof (exact_Seconds d) as Hs. pose proof (exact_Minutes d) as Hm.
  set (sec := time.Seconds d) in *. set (min := time.Minutes d) in *.
  set (rate := Analyzer.RunnerRate _). set (scale := Recommendations.monthlyScale _).
  cbn [F64 exact f64_mul f64_div f64_of_int f64_const] in *.
  rewrite Hs, Hm. unfold Qdiv. cbn [Qnum Qden inject_Z Qinv].
  assert (d # 1000000000 == (60 # 1) * (d # 60000000000))%Q as Hd
    by (unfold Qeq; cbn; lia).
  rewrite Hd. field.
Qed.

Lemma install_step_keywords {lib : GoLib} (s : Step.t) :
  install_step s = true
  ↔ ∃ kw, kw ∈ ["install"; "npm ci"; "pip install"; "go mod download"]
          ∧ strings.Contains (strings.ToLower (Step.Name s)) kw = true.
Proof.
  unfold install_step, Recommendations.keywords. rewrite existsb_exists.
  split; intros (kw & Hkw & Hc); exists kw; split; try done; by apply list_elem_of_In.
Qed.

(** C7, as the code has it. [DetectCacheMiss] emits a recommendation exactly
    for the steps whose lowercased name contains one of "install", "npm ci",
    "pip install", "go mod download" and whose duration exceeds 60 seconds,
    one for each, in the order of the jobs and their steps. Each has rule id
    "cache-miss", severity "high" and a remediation text that is not empty.
    Its savings are the seconds of the step times 0.7 over 60, times the
    job's rate, times the factor of the observation days, which is 30 over
    the days when they are positive and 1 when they are not; in exact
    arithmetic that is 70% of the step's minutes times the rate times this
    factor. A step "npm install" of 90 seconds in a job on "ubuntu-latest"
    yields one recommendation with positive savings; at 30 seconds it yields
    none. *)
Theorem C7_cache_miss :
  (∀ (fl : Float64) (lib : GoLib) cr,
     Recommendations.DetectCacheMiss cr
     = Recommendations.CostReport.Jobs cr ≫= λ j,
         cache_miss_rec cr j <$> List.filter cache_miss_trigger (Job.Steps j))
  ∧ (∀ (fl : Float64) (lib : GoLib) s,
       cache_miss_trigger s = true
       ↔ (step_seconds s <=? f64_of_int 60)%f64 = false
         ∧ ∃ kw, kw ∈ ["install"; "npm ci"; "pip install"; "go mod download"]
                 ∧ strings.Contains (strings.ToLower (Step.Name s)) kw = true)
  ∧ (∀ (fl : Float64) (lib : GoLib) cr j s,
       Recommendations.Recommendation.RuleID (cache_miss_rec cr j s) = "cache-miss"
       ∧ Recommendations.Recommendation.Severity (cache_miss_rec cr j s) = "high"
       ∧ Recommendations.Recommendation.Fix (cache_miss_rec cr j s) ≠ ""
       ∧ Recommendations.Recommendation.EstimatedMonthlySavings (cache_miss_rec cr j s)
         = (time.Seconds (time.Sub (Step.CompletedAt s) (Step.StartedAt s))
            * f64_const 0.7 / f64_of_int 60
            * Analyzer.RunnerRate (Job.Labels j)
            * (if (Recommendations.CostReport.Days cr <=? 0)%Z then f64_of_int 1
               else f64_of_int 30 / f64_of_int (Recommendations.CostReport.Days cr)))%f64)
  ∧ (∀ (lib : GoLib) cr j s,
       (cache_miss_trigger (fl := exact) s = true
        ↔ (60 * time.Second < time.Sub (Step.CompletedAt s) (Step.StartedAt s))%Z
          ∧ ∃ kw, kw ∈ ["install"; "npm ci"; "pip install"; "go mod download"]
                  ∧ strings.Contains (strings.ToLower (Step.Name s)) kw = true)
       ∧ (Recommendations.Recommendation.EstimatedMonthlySavings
            (cache_miss_rec (fl := exact) cr j s)
          == (7 # 10)
             * time.Minutes (fl := exact)
                 (time.Sub (Step.CompletedAt s) (Step.StartedAt s))
             * Analyzer.RunnerRate (fl := exact) (Job.Labels j)
             * (if (Recommendations.CostReport.Days cr <=? 0)%Z then 1
                else 30 / inject_Z (Recommendations.CostReport.Days cr)))%Q)
  ∧ (∃ rec,
       Recommendations.DetectCacheMiss (fl := binary64) (lib := go)
         (Scenario.npm_install 90) = [rec]
       ∧ Recommendations.Recommendation.RuleID rec = "cache-miss"
       ∧ Recommendations.Recommendation.Severity rec = "high"
       ∧ (f64_zero <? Recommendations.Recommendation.EstimatedMonthlySavings rec)%f64 = true
       ∧ Recommendations.Recommendation.Fix rec
         = "Add actions/cache for step 'npm install' (took 90s). Caching dependencies can reduce this step by ~70%.")
  ∧ Recommendations.DetectCacheMiss (fl := binary64) (lib := go)
      (Scenario.npm_install 30) = [].
Proof.
  split; [intros; apply DetectCacheMiss_eq|].
  split.
  { intros fl lib s. unfold cache_miss_trigger.
    by rewrite andb_true_iff, negb_true_iff, install_step_keywords. }
  split.
  { intros fl lib cr j s. repeat split. unfold cache_miss_rec.
    cbn [Recommendations.Recommendation.Fix]. discriminate. }
  split.
  { intros lib cr j s. split.
    - rewrite exact_cache_miss_trigger, install_step_keywords. tauto.
    - exact (exact_cache_miss_savings lib cr j s). }
  split; [|by vm_compute].
  eexists. split; [vm_compute; reflexivity|]. by vm_compute.
Qed.

Lemma exact_expensive_os_savings cr j :
  (Recommendations.Recommendation.EstimatedMonthlySavings
     (expensive_os_rec (fl := exact) cr j)
   == job_minutes (fl := exact) j
      * (Cost.RateMacOS (fl := exact) - Cost.RateLinux (fl := exact))
      * Recommendations.monthlyScale (fl := exact) (Recommendations.CostReport.Days cr))%Q.
Proof.
  unfold expensive_os_rec. cbn [Recommendations.Recommendation.EstimatedMonthlySavings].
  set (m := job_minutes j). set (scale := Recommendations.monthlyScale _).
  assert (f64_const (fl := exact) (0.08 - 0.008)
          == Cost.RateMacOS (fl := exact) - Cost.RateLinux (fl := exact))%Q as Hc
    by (by vm_compute).
  cbn [F64 exact f64_mul] in *. by rewrite Hc.
Qed.

(** C10, as the code has it. [DetectExpensiveOS] takes a job for a macOS job
    when any of its labels, lowercased, contains "macos", whatever the other
    labels are, and flags it when it ran for more than 5 minutes; the savings
    are the job's minutes times the constant [0.08 - 0.008] times the
    monthly-scale factor. A job labelled ["windows-latest"; "macos-13"] that
    ran for more than 5 minutes is flagged and priced at the gap between the
    macOS and the Linux rate, while [RunnerRate] gives that job the Windows
    rate; a job that did not run for more than 5 minutes is not flagged,
    whatever its labels. In exact arithmetic a job ran for more than 5
    minutes when it completed more than 5 minutes after it started. *)
Theorem C10_expensive_os :
  (∀ (fl : Float64) (lib : GoLib) labels,
     Recommendations.isMac labels = true
     ↔ ∃ l, l ∈ labels ∧ mentions "macos" l = true)
  ∧ (∀ (fl : Float64) (lib : GoLib) cr,
       Recommendations.DetectExpensiveOS cr
       = expensive_os_rec cr
           <$> List.filter expensive_os_trigger (Recommendations.CostReport.Jobs cr))
  ∧ (∀ (fl : Float64) (lib : GoLib) j days,
       Job.Labels j = ["windows-latest"; "macos-13"] →
       (job_minutes j <=? f64_of_int 5)%f64 = false →
       let cr := {| Recommendations.CostReport.Jobs := [j];
                    Recommendations.CostReport.Days := days |} in
       (∃ fix_text,
          Recommendations.DetectExpensiveOS cr
          = [ {| Recommendations.Recommendation.RuleID := "expensive-os";
                 Recommendations.Recommendation.Severity := "high";
                 Recommendations.Recommendation.EstimatedMonthlySavings :=
                   (job_minutes j * f64_const (0.08 - 0.008)
                    * Recommendations.monthlyScale days)%f64;
                 Recommendations.Recommendation.Fix := fix_text |} ])
       ∧ Analyzer.RunnerRate (Job.Labels j) = f64_const 0.016)
  ∧ (∀ cr j,
       (Recommendations.Recommendation.EstimatedMonthlySavings
          (expensive_os_rec (fl := exact) cr j)
        == job_minutes (fl := exact) j
           * (Cost.RateMacOS (fl := exact) - Cost.RateLinux (fl := exact))
           * Recommendations.monthlyScale (fl := exact)
               (Recommendations.CostReport.Days cr))%Q
       ∧ (Cost.RateMacOS (fl := exact) - Cost.RateLinux (fl := exact) == 0.072)%Q
       ∧ (Cost.RateWindows (fl := exact) == 0.016)%Q)
  ∧ (∀ (fl : Float64) (lib : GoLib) j days,
       (job_minutes j <=? f64_of_int 5)%f64 = true →
       Recommendations.DetectExpensiveOS
         {| Recommendations.CostReport.Jobs := [j];
            Recommendations.CostReport.Days := days |} = [])
  ∧ (∀ j : Job.t,
       (job_minutes (fl := exact) j <=? f64_of_int 5)%f64 = false
       ↔ (5 * time.Minute < time.Sub (Job.CompletedAt j) (Job.StartedAt j))%Z).
Proof.
  split; [intros; apply isMac_iff|].
  split; [intros; apply DetectExpensiveOS_eq|].
  split.
  { intros fl lib j days Hl Hd cr. split.
    + eexists. rewrite DetectExpensiveOS_eq. unfold cr.
      cbn [Recommendations.CostReport.Jobs List.filter].
      unfold expensive_os_trigger. rewrite Hd, Hl. reflexivity.
    + rewrite Hl. reflexivity. }
  split.
  { intros cr j. split; [apply exact_expensive_os_savings|].
    split; by vm_compute. }
  split.
  - intros fl lib j days Hd. rewrite DetectExpensiveOS_eq.
    cbn [Recommendations.CostReport.Jobs List.filter].
    unfold expensive_os_trigger. rewrite Hd. by rewrite andb_false_r.
  - intros j. unfold job_minutes. rewrite exact_leb_false, exact_Minutes.
    change time.Minute with 60000000000%Z.
    set (d := time.Sub _ _). unfold Qlt. cbn. lia.
Qed.


(** ** The narrative report: what its loops accumulate *)

Section Guards.
Context {fl : Float64} {lib : GoLib}.

Lemma fold_left_filter {X Y} (f : Y → X → Y) (p : X → bool) (l : list X) (a : Y) :
  (∀ a x, p x = false → f a x = a) →
  fold_left f (List.filter p l) a = fold_left f l a.
Proof.
  intros Hskip. revert a. induction l as [|x l IH]; intros a; [done|].
  cbn [List.filter fold_left]. destruct (p x) eqn:Hp.
  - cbn [fold_left]. apply IH.
  - rewrite (Hskip a x Hp). apply IH.
Qed.

Lemma step_body_skip rate v s : step_ran s = false → Analyzer.step_body rate v s = v.
Proof.
  unfold step_ran, step_minutes, Analyzer.step_body. intros Hs.
  apply negb_false_iff in Hs. by rewrite Hs.
Qed.

Lemma job_body_skipped v j : job_ran j = false → Analyzer.job_body v j = v.
Proof.
  unfold job_ran, job_minutes, Analyzer.job_body. intros Hs.
  apply negb_false_iff in Hs. by rewrite Hs.
Qed.

Lemma job_body_ran_steps v j : Analyzer.job_body v (ran_steps j) = Analyzer.job_body v j.
Proof.
  unfold Analyzer.job_body. cbn [ran_steps Job.Labels Job.CompletedAt Job.StartedAt
    Job.Workflow Job.Conclusion Job.Name Job.Steps].
  destruct (_ <=? _)%f64; [done|].
  apply fold_left_filter. intros a x. apply step_body_skip.
Qed.

Lemma scan_ran_jobs jobs v :
  fold_left Analyzer.job_body (ran_jobs jobs) v = fold_left Analyzer.job_body jobs v.
Proof.
  unfold ran_jobs. rewrite <- (fold_left_filter Analyzer.job_body job_ran jobs v)
    by (intros; by apply job_body_skipped).
  generalize (List.filter job_ran jobs). intros l. revert v.
  induction l as [|j l IH]; intros v; [done|].
  cbn [fmap list_fmap fold_left]. rewrite job_body_ran_steps. apply IH.
Qed.

Lemma Analyze_ran_jobs rng jobs days :
  Analyzer.Analyze rng (ran_jobs jobs) days = Analyzer.Analyze rng jobs days.
Proof.
  unfold Analyzer.Analyze, Analyzer.scan. by rewrite scan_ran_jobs.
Qed.

End Guards.


Section Scan.
Context {fl : Float64} {lib : GoLib}.

Lemma step_body_ran rate v s :
  step_ran s = true →
  Analyzer.stepAgg (Analyzer.step_body rate v s)
    = map_add (Analyzer.stepAgg v) (Step.Name s) (step_minutes s)
  ∧ Analyzer.Report.Waste (Analyzer.r (Analyzer.step_body rate v s))
    = Analyzer.Report.Waste (Analyzer.r v) ++ step_waste rate s.
Proof.
  unfold step_waste, step_ran, cache_failure, slow_install, Analyzer.step_body.
  fold (step_minutes s). intros Hs. rewrite Hs.
  apply negb_true_iff in Hs. rewrite Hs. cbn. split; [done|].
  destruct (_ && String.eqb _ _), (_ && (_ || _ || _)); cbn;
    by rewrite <- ?app_assoc, ?app_nil_r.
Qed.

Lemma steps_scan rate steps v :
  let v' := fold_left (Analyzer.step_body rate) steps v in
  Analyzer.stepAgg v'
    = fold_left (λ m s, map_add m (Step.Name s) (step_minutes s))
        (List.filter step_ran steps) (Analyzer.stepAgg v)
  ∧ Analyzer.Report.Waste (Analyzer.r v')
    = Analyzer.Report.Waste (Analyzer.r v) ++ (steps ≫= step_waste rate).
Proof.
  revert v. induction steps as [|s steps IH]; intros v; cbn [fold_left List.filter].
  { by rewrite app_nil_r. }
  destruct (IH (Analyzer.step_body rate v s)) as [Ha Hw]. cbv zeta. rewrite Ha, Hw.
  rewrite bind_cons. destruct (step_ran s) eqn:Hs.
  - destruct (step_body_ran rate v s Hs) as [-> ->]. by rewrite <- app_assoc.
  - rewrite step_body_skip by done. unfold step_waste at 2. by rewrite Hs.
Qed.

(** One pass of the loop over the jobs, for a job that passes the guard. *)
Lemma job_body_ran v j :
  job_ran j = true →
  let v' := Analyzer.job_body v j in
  Analyzer.Report.TotalMinutes (Analyzer.r v')
    = (Analyzer.Report.TotalMinutes (Analyzer.r v) + job_minutes j)%f64
  ∧ Analyzer.Report.TotalCost (Analyzer.r v')
    = (Analyzer.Report.TotalCost (Analyzer.r v) + job_cost j)%f64
  ∧ Analyzer.Report.ByWorkflow (Analyzer.r v')
    = map_add (Analyzer.Report.ByWorkflow (Analyzer.r v)) (Job.Workflow j) (job_cost j)
  ∧ Analyzer.Report.Waste (Analyzer.r v')
    = Analyzer.Report.Waste (Analyzer.r v) ++ job_waste j
  ∧ Analyzer.stepAgg v'
    = fold_left (λ m s, map_add m (Step.Name s) (step_minutes s))
        (List.filter step_ran (Job.Steps j)) (Analyzer.stepAgg v)
  ∧ Analyzer.hasMac v'
    = (if (Analyzer.RunnerRate (Job.Labels j) =? f64_const 0.08)%f64
       then true else Analyzer.hasMac v).
Proof.
  unfold job_ran, job_waste, Analyzer.job_body. intros Hj.
  unfold job_ran. rewrite Hj. apply negb_true_iff in Hj.
  fold (job_minutes j). rewrite Hj. cbv zeta.
  match goal with |- context [fold_left ?f ?l ?a] =>
    pose proof (steps_untouched (Analyzer.RunnerRate (Job.Labels j)) l a) as Hu;
    pose proof (steps_scan (Analyzer.RunnerRate (Job.Labels j)) l a) as Hs end.
  unfold untouched in Hu. cbn in Hu, Hs.
  destruct Hu as (-> & -> & _ & -> & _ & _ & -> & _). destruct Hs as [-> ->].
  do 3 (split; [done|]). split; [|done].
  unfold retry_item. fold (job_minutes j).
  destruct (String.eqb (Job.Conclusion j) "failure"); by rewrite <- ?app_assoc.
Qed.

Lemma scan_fields jobs v :
  let v' := fold_left Analyzer.job_body jobs v in
  Analyzer.Report.TotalMinutes (Analyzer.r v')
    = fold_left f64_add (job_minutes <$> List.filter job_ran jobs)
        (Analyzer.Report.TotalMinutes (Analyzer.r v))
  ∧ Analyzer.Report.TotalCost (Analyzer.r v')
    = fold_left f64_add (job_cost <$> List.filter job_ran jobs)
        (Analyzer.Report.TotalCost (Analyzer.r v))
  ∧ Analyzer.Report.ByWorkflow (Analyzer.r v')
    = fold_left (λ m j, map_add m (Job.Workflow j) (job_cost j))
        (List.filter job_ran jobs) (Analyzer.Report.ByWorkflow (Analyzer.r v))
  ∧ Analyzer.Report.Waste (Analyzer.r v')
    = Analyzer.Report.Waste (Analyzer.r v) ++ (jobs ≫= job_waste)
  ∧ Analyzer.stepAgg v'
    = fold_left (λ m s, map_add m (Step.Name s) (step_minutes s))
        (ran_steps_of jobs) (Analyzer.stepAgg v)
  ∧ Analyzer.hasMac v'
    = Analyzer.hasMac v
      || existsb (λ j, job_ran j
                       && (Analyzer.RunnerRate (Job.Labels j) =? f64_const 0.08)%f64) jobs.
Proof.
  revert v. induction jobs as [|j jobs IH]; intros v.
  { cbn. by rewrite app_nil_r, orb_false_r. }
  cbn [fold_left]. destruct (IH (Analyzer.job_body v j)) as (Hm & Hc & Hw & Hwa & Ha & Hmac).
  cbv zeta. rewrite Hm, Hc, Hw, Hwa, Ha, Hmac. clear IH Hm Hc Hw Hwa Ha Hmac.
  unfold ran_steps_of. cbn [List.filter existsb]. rewrite bind_cons.
  destruct (job_ran j) eqn:Hj.
  - destruct (job_body_ran v j Hj) as (-> & -> & -> & -> & -> & ->).
    rewrite bind_cons, List.filter_app, fold_left_app, <- app_assoc.
    cbn [fmap list_fmap fold_left andb].
    do 5 (split; [done|]).
    by destruct (_ =? _)%f64, (Analyzer.hasMac v).
  - rewrite job_body_skipped by done. unfold job_waste at 2. rewrite Hj. done.
Qed.

End Scan.

Section MapFolds.
Context {fl : Float64}.

Lemma dom_fold_map_add {X} (key : X → string) (val : X → F64) (l : list X)
    (m : gmap string F64) :
  dom (fold_left (λ m x, map_add m (key x) (val x)) l m)
  = dom m ∪ list_to_set (key <$> l).
Proof.
  revert m. induction l as [|x l IH]; intros m; cbn [fold_left].
  - set_solver.
  - rewrite IH, dom_map_add. set_solver.
Qed.

End MapFolds.

Section Report.
Context {fl : Float64} {lib : GoLib}.

Lemma scan_init jobs :
  let v := Analyzer.scan jobs in
  Analyzer.Report.ByWorkflow (Analyzer.r v)
    = fold_left (λ m j, map_add m (Job.Workflow j) (job_cost j))
        (List.filter job_ran jobs) ∅
  ∧ Analyzer.Report.Waste (Analyzer.r v) = jobs ≫= job_waste
  ∧ Analyzer.stepAgg v
    = fold_left (λ m s, map_add m (Step.Name s) (step_minutes s)) (ran_steps_of jobs) ∅
  ∧ Analyzer.hasMac v
    = existsb (λ j, job_ran j
                    && (Analyzer.RunnerRate (Job.Labels j) =? f64_const 0.08)%f64) jobs.
Proof.
  destruct (scan_fields jobs Analyzer.init) as (_ & _ & Hw & Hwa & Ha & Hm).
  unfold Analyzer.scan. cbv zeta. by rewrite Hw, Hwa, Ha, Hm.
Qed.

(** X2. The per-workflow costs of the narrative report have an entry for a
    workflow name exactly when a job of that workflow passes the guard
    [dur <= 0]: a workflow none of whose jobs ran for a positive time is not
    listed (the aggregator lists it, with a cost of zero). *)
Theorem X2_by_workflow_entries rng jobs days w :
  is_Some (Analyzer.Report.ByWorkflow (Analyzer.Analyze rng jobs days) !! w)
  ↔ ∃ j, j ∈ jobs ∧ Job.Workflow j = w ∧ job_ran j = true.
Proof.
  change (Analyzer.Report.ByWorkflow (Analyzer.Analyze rng jobs days))
    with (Analyzer.Report.ByWorkflow (Analyzer.r (Analyzer.scan jobs))).
  destruct (scan_init jobs) as (-> & _).
  rewrite <- elem_of_dom, dom_fold_map_add, dom_empty_L, (left_id_L ∅ (∪)).
  rewrite elem_of_list_to_set, list_elem_of_fmap. split.
  - intros (j & -> & Hj). apply list_elem_of_In, List.filter_In in Hj as [Hj Hr].
    exists j. by rewrite list_elem_of_In.
  - intros (j & Hj & <- & Hr). exists j. split; [done|].
    apply list_elem_of_In, List.filter_In. by rewrite <- list_elem_of_In.
Qed.

Lemma Analyze_Waste_kinds rng jobs days :
  let waste := Analyzer.Report.Waste (Analyzer.Analyze rng jobs days) in
  waste = jobs ≫= job_waste
  ∧ Forall (λ w, Analyzer.WasteItem.Type_ w ∈ ["retry"; "cache-miss"; "slow-deps"]) waste.
Proof.
  intros waste. unfold waste. rewrite Analyze_Waste.
  destruct (scan_init jobs) as (_ & -> & _). split; [done|].
  apply Forall_forall.
  intros w (j & Hw & _)%list_elem_of_bind. unfold job_waste in Hw.
  destruct (job_ran j); [|by apply elem_of_nil in Hw].
  apply elem_of_app in Hw as [Hw|Hw].
  - destruct (String.eqb _ _); [|by apply elem_of_nil in Hw].
    apply list_elem_of_singleton in Hw as ->. cbn. set_solver.
  - apply list_elem_of_bind in Hw as (s & Hw & _). unfold step_waste in Hw.
    destruct (step_ran s); [|by apply elem_of_nil in Hw].
    apply elem_of_app in Hw as [Hw|Hw].
    + destruct (cache_failure s); [|by apply elem_of_nil in Hw].
      apply list_elem_of_singleton in Hw as ->. cbn. set_solver.
    + destruct (slow_install s); [|by apply elem_of_nil in Hw].
      apply list_elem_of_singleton in Hw as ->. cbn. set_solver.
Qed.

Lemma Analyze_TopSteps rng jobs days :
  Analyzer.Report.TopSteps (Analyzer.Analyze rng jobs days)
  = firstn 10 (sort_Slice Analyzer.byMin
                 (step_cost <$> rng (Analyzer.stepAgg (Analyzer.scan jobs)))).
Proof.
  unfold Analyzer.Analyze. cbn [Analyzer.Report.TopSteps].
  destruct (scan_jobs jobs Analyzer.init) as (_ & Htop & _).
  change (fold_left Analyzer.job_body jobs Analyzer.init) with (Analyzer.scan jobs) in Htop.
  rewrite top_entries, Htop. cbn [Analyzer.init Analyzer.r Analyzer.Report.TopSteps app].
  set (sorted := sort_Slice _ _).
  destruct (Nat.ltb_spec 10 (length sorted)); [done|].
  by rewrite firstn_all2 by lia.
Qed.

Lemma stepAgg_entries jobs n :
  is_Some (Analyzer.stepAgg (Analyzer.scan jobs) !! n)
  ↔ ∃ j st, j ∈ jobs ∧ job_ran j = true ∧ st ∈ Job.Steps j
            ∧ step_ran st = true ∧ Step.Name st = n.
Proof.
  destruct (scan_init jobs) as (_ & _ & -> & _).
  rewrite <- elem_of_dom, dom_fold_map_add, dom_empty_L, (left_id_L ∅ (∪)).
  rewrite elem_of_list_to_set, list_elem_of_fmap. unfold ran_steps_of. split.
  - intros (st & -> & Hst). apply list_elem_of_In, List.filter_In in Hst as [Hst Hr].
    apply list_elem_of_In, list_elem_of_bind in Hst as (j & Hst & Hj).
    apply list_elem_of_In, List.filter_In in Hj as [Hj Hjr].
    exists j, st. by rewrite list_elem_of_In.
  - intros (j & st & Hj & Hjr & Hst & Hr & <-). exists st. split; [done|].
    apply list_elem_of_In, List.filter_In. split; [|done].
    apply list_elem_of_In, list_elem_of_bind. exists j. split; [done|].
    apply list_elem_of_In, List.filter_In. by rewrite <- list_elem_of_In.
Qed.

End Report.


Section Suggestions.
Context {fl : Float64} {lib : GoLib}.

Lemma fold_left_tips (top : list (Analyzer.StepCost.t F64)) (sug : list string) :
  fold_left (λ acc s, if (Analyzer.StepCost.Min s >? f64_of_int 30)%f64
                      then acc ++ [Analyzer.tip s] else acc) top sug
  = sug ++ (Analyzer.tip <$> List.filter long_step top).
Proof.
  revert sug. induction top as [|s top IH]; intros sug; cbn [fold_left List.filter].
  { by rewrite app_nil_r. }
  rewrite IH. unfold long_step at 2. destruct (_ >? _)%f64; [|done].
  by rewrite <- app_assoc.
Qed.

Lemma wasteSum_f64_sum (waste : list (Analyzer.WasteItem.t F64)) :
  fold_left (λ acc w, (acc + Analyzer.WasteItem.Cost w)%f64) waste f64_zero
  = f64_sum (Analyzer.WasteItem.Cost <$> waste).
Proof.
  unfold f64_sum. generalize (@f64_zero fl).
  induction waste as [|w waste IH]; intros a; [done|]. cbn. apply IH.
Qed.

Lemma Analyze_TopSteps_length rng jobs days :
  (length (Analyzer.Report.TopSteps (Analyzer.Analyze rng jobs days)) ≤ 10)%nat.
Proof.
  unfold Analyzer.Analyze. cbn [Analyzer.Report.TopSteps].
  set (sorted := sort_Slice _ _).
  destruct (Nat.ltb_spec 10 (length sorted)); [|done].
  rewrite length_firstn. lia.
Qed.

Lemma Analyze_Suggestions_eq rng jobs days :
  let rep := Analyzer.Analyze rng jobs days in
  Analyzer.Report.Suggestions rep
  = (if (f64_sum (Analyzer.WasteItem.Cost <$> Analyzer.Report.Waste rep) >? f64_zero)%f64
     then [waste_summary (Analyzer.Report.Waste rep)] else [])
    ++ (if existsb macos_rate jobs then [macos_hint] else [])
    ++ (Analyzer.tip <$> List.filter long_step (Analyzer.Report.TopSteps rep)).
Proof.
  unfold Analyzer.Analyze.
  cbn [Analyzer.Report.Suggestions Analyzer.Report.Waste Analyzer.Report.TopSteps].
  rewrite fold_left_tips, wasteSum_f64_sum.
  destruct (scan_jobs jobs Analyzer.init) as (_ & _ & Hs & _).
  change (fold_left Analyzer.job_body jobs Analyzer.init) with (Analyzer.scan jobs) in Hs.
  rewrite Hs. cbn [Analyzer.init Analyzer.r Analyzer.Report.Suggestions app].
  destruct (scan_init jobs) as (_ & _ & _ & ->).
  fold macos_hint. unfold waste_summary.
  change (λ j, job_ran j
               && (Analyzer.RunnerRate (Job.Labels j) =? f64_const 0.08)%f64)
    with macos_rate.
  destruct (_ >? _)%f64, (existsb macos_rate jobs); by rewrite <- ?app_assoc.
Qed.

(** X8. The suggestions of the narrative report, in their order: the waste
    summary when the costs of the findings sum to more than zero, the macOS
    hint when a job that ran was priced at the macOS rate, then one tip for
    each top step of more than 30 minutes, in the order of the top steps.
    There are at most 12 of them. *)
Theorem X8_suggestions rng jobs days :
  let rep := Analyzer.Analyze rng jobs days in
  Analyzer.Report.Suggestions rep
  = (if (f64_sum (Analyzer.WasteItem.Cost <$> Analyzer.Report.Waste rep) >? f64_zero)%f64
     then [waste_summary (Analyzer.Report.Waste rep)] else [])
    ++ (if existsb macos_rate jobs then [macos_hint] else [])
    ++ (Analyzer.tip <$> List.filter long_step (Analyzer.Report.TopSteps rep))
  ∧ (length (Analyzer.Report.Suggestions rep) ≤ 12)%nat.
Proof.
  intros rep. pose proof (Analyze_Suggestions_eq rng jobs days) as Hsug.
  fold rep in Hsug. cbv zeta in Hsug. split; [done|].
  rewrite Hsug, !length_app, length_fmap.
  pose proof (Analyze_TopSteps_length rng jobs days) as Hten. fold rep in Hten.
  pose proof (List.filter_length long_step (Analyzer.Report.TopSteps rep)).
  destruct (_ >? _)%f64, (existsb macos_rate jobs); cbn [length]; lia.
Qed.

(** The three kinds of suggestion differ in their first character. *)
Lemma macos_hint_in_Suggestions rng jobs days :
  macos_hint ∈ Analyzer.Report.Suggestions (Analyzer.Analyze rng jobs days)
  ↔ existsb macos_rate jobs = true.
Proof.
  rewrite Analyze_Suggestions_eq. rewrite !elem_of_app. split.
  - intros [H|[H|H]].
    + destruct (_ >? _)%f64; [|by apply elem_of_nil in H].
      apply list_elem_of_singleton in H. discriminate H.
    + destruct (existsb macos_rate jobs); [done|by apply elem_of_nil in H].
    + apply list_elem_of_fmap in H as (s & H & _). discriminate H.
  - intros ->. right. left. by apply list_elem_of_singleton.
Qed.

Lemma waste_summary_in_Suggestions rng jobs days :
  let rep := Analyzer.Analyze rng jobs days in
  waste_summary (Analyzer.Report.Waste rep) ∈ Analyzer.Report.Suggestions rep
  ↔ (f64_sum (Analyzer.WasteItem.Cost <$> Analyzer.Report.Waste rep) >? f64_zero)%f64 = true.
Proof.
  intros rep. unfold rep at 2. rewrite Analyze_Suggestions_eq. fold rep.
  rewrite !elem_of_app. split.
  - intros [H|[H|H]].
    + destruct (_ >? _)%f64; [done|by apply elem_of_nil in H].
    + destruct (existsb macos_rate jobs); [|by apply elem_of_nil in H].
      apply list_elem_of_singleton in H. discriminate H.
    + apply list_elem_of_fmap in H as (s & H & _). discriminate H.
  - intros ->. left. by apply list_elem_of_singleton.
Qed.

End Suggestions.

Section ExactAnalyzer.
#[local] Existing Instance exact.
Local Open Scope Q_scope.
Context {lib : GoLib}.

Lemma exact_const (q : Q) : f64_const (fl := exact) q == q.
Proof.
  unfold f64_const. cbn. destruct q as [n d]. cbn [Qnum Qden].
  symmetry. apply Qmake_Qdiv.
Qed.

Lemma exact_RunnerRate (labels : list string) :
  0.008 <= Analyzer.RunnerRate (fl := exact) labels
  ∧ Analyzer.RunnerRate (fl := exact) labels <= 0.08.
Proof.
  rewrite RunnerRate_first. unfold tier_of.
  destruct (List.find platform_label labels) as [l|]; [destruct (mentions "macos" l)|];
    rewrite exact_const; split; by vm_compute.
Qed.

Lemma exact_job_ran (j : Job.t) : job_ran (fl := exact) j = true ↔ 0 < job_minutes j.
Proof.
  unfold job_ran. by rewrite negb_true_iff, exact_leb_false.
Qed.

Lemma exact_step_ran (s : Step.t) : step_ran (fl := exact) s = true ↔ 0 < step_minutes s.
Proof.
  unfold step_ran. by rewrite negb_true_iff, exact_leb_false.
Qed.

Lemma exact_job_cost (j : Job.t) :
  0 < job_minutes j →
  0 < job_cost j ∧ 0.008 * job_minutes j <= job_cost j ∧ job_cost j <= 0.08 * job_minutes j.
Proof.
  intros Hm. unfold job_cost. destruct (exact_RunnerRate (Job.Labels j)) as [Hlo Hhi].
  set (m := job_minutes j) in *. set (rate := Analyzer.RunnerRate _) in *.
  cbn [F64 exact f64_mul] in *.
  assert (0 < rate) by (eapply Qlt_le_trans; [|exact Hlo]; by vm_compute).
  split; [by apply Qmult_lt_0_compat|]. split.
  - rewrite (Qmult_comm 0.008). apply Qmult_le_l; done.
  - rewrite (Qmult_comm 0.08). apply Qmult_le_l; done.
Qed.

(** Sums over the jobs that pass the guard. *)
Lemma exact_ran_sums (l : list Job.t) :
  Forall (λ j, 0 < job_minutes j) l →
  let mins := foldr Qplus 0 (job_minutes <$> l) in
  let cost := foldr Qplus 0 (job_cost <$> l) in
  0 <= mins ∧ 0.008 * mins <= cost ∧ cost <= 0.08 * mins.
Proof.
  induction 1 as [|j l Hj _ IH]; cbn [fmap list_fmap foldr].
  { split; [|split]; by vm_compute. }
  destruct IH as (H0 & Hlo & Hhi). destruct (exact_job_cost j Hj) as (_ & Hjlo & Hjhi).
  match type of H0 with _ <= ?x => set (mins := x) in * end.
  match type of Hhi with ?x <= _ => set (cost := x) in * end.
  set (m := job_minutes j) in *. set (c := job_cost j) in *.
  cbn [F64 exact] in *. split; [|split]; lra.
Qed.

Lemma exact_fold_total {X} (key : X → string) (val : X → F64) (l : list X) (m : gmap string F64) :
  map_total (fl := exact) (fold_left (λ m x, map_add (fl := exact) m (key x) (val x)) l m)
  == map_total (fl := exact) m + foldr Qplus 0 (val <$> l).
Proof.
  revert m. induction l as [|x l IH]; intros m; cbn [fold_left fmap list_fmap foldr].
  { cbn [F64 exact] in *. lra. }
  rewrite IH, exact_map_total_add. cbn [F64 exact] in *. lra.
Qed.

Lemma exact_fold_positive {X} (key : X → string) (val : X → F64) (l : list X)
    (m : gmap string F64) :
  Forall (λ x, 0 < val x) l →
  map_Forall (λ _ c, 0 < c) m →
  map_Forall (λ _ c, 0 < c)
    (fold_left (λ m x, map_add (fl := exact) m (key x) (val x)) l m).
Proof.
  intros Hl. revert m. induction Hl as [|x l Hx _ IH]; intros m Hm; [done|].
  cbn [fold_left]. apply IH. unfold map_add. apply map_Forall_insert_2; [|done].
  cbn [F64 exact f64_add f64_zero f64_of_int] in *. cbn beta in Hx.
  destruct (m !! key x) as [c|] eqn:Hc; cbn [default from_option].
  - specialize (Hm _ _ Hc). cbn beta in Hm. unfold id. lra.
  - change (inject_Z 0) with 0. lra.
Qed.

Lemma exact_fold_lookup {X} (key : X → string) (val : X → F64) (l : list X)
    (m : gmap string F64) (k : string) :
  default 0 (fold_left (λ m x, map_add (fl := exact) m (key x) (val x)) l m !! k)
  == default 0 (m !! k)
     + foldr Qplus 0 (val <$> List.filter (λ x, String.eqb (key x) k) l).
Proof.
  revert m. induction l as [|x l IH]; intros m; cbn [fold_left List.filter].
  { cbn. ring. }
  rewrite IH. unfold map_add. cbn [F64 exact f64_add f64_zero f64_of_int] in *.
  destruct (String.eqb_spec (key x) k) as [->|Hne].
  - rewrite lookup_insert_eq. cbn [default from_option id fmap list_fmap foldr].
    change (inject_Z 0) with 0. unfold id. ring.
  - rewrite lookup_insert_ne by done. ring.
Qed.

Lemma exact_fold_value {X} (key : X → string) (val : X → F64) (l : list X) k c :
  fold_left (λ m x, map_add (fl := exact) m (key x) (val x)) l ∅ !! k = Some c →
  c == f64_sum (val <$> List.filter (λ x, String.eqb (key x) k) l).
Proof.
  intros Hk. rewrite exact_sum. change c with (default 0 (Some c)). rewrite <- Hk.
  eapply Qeq_trans; [exact (exact_fold_lookup key val l ∅ k)|].
  rewrite lookup_empty. cbn [default from_option]. apply Qplus_0_l.
Qed.

Lemma ran_jobs_positive (jobs : list Job.t) :
  Forall (λ j, 0 < job_minutes j) (List.filter job_ran jobs).
Proof.
  apply Forall_forall. intros j Hj.
  apply list_elem_of_In, List.filter_In in Hj as [_ Hj]. by apply exact_job_ran.
Qed.

(** X3. In exact arithmetic the totals of the narrative report are
    consistent: the total minutes are not negative; the total cost lies
    between the total minutes at the Linux rate and at the macOS rate; the
    per-workflow costs add up to the total cost; and the cost listed for a
    workflow is the sum of the costs of its jobs that ran, which is
    positive. *)
Theorem X3_exact_totals rng jobs days :
  let rep := Analyzer.Analyze (fl := exact) rng jobs days in
  0 <= Analyzer.Report.TotalMinutes rep
  ∧ 0.008 * Analyzer.Report.TotalMinutes rep <= Analyzer.Report.TotalCost rep
  ∧ Analyzer.Report.TotalCost rep <= 0.08 * Analyzer.Report.TotalMinutes rep
  ∧ map_total (Analyzer.Report.ByWorkflow rep) == Analyzer.Report.TotalCost rep
  ∧ map_Forall
      (λ w c, c == f64_sum (job_cost <$>
                            List.filter (λ j, String.eqb (Job.Workflow j) w)
                                        (List.filter job_ran jobs))
              ∧ 0 < c)
      (Analyzer.Report.ByWorkflow rep).
Proof.
  intros rep.
  destruct (scan_fields jobs Analyzer.init) as (Hm & Hc & Hw & _).
  change (fold_left Analyzer.job_body jobs Analyzer.init) with (Analyzer.scan jobs) in *.
  change (Analyzer.Report.TotalMinutes rep)
    with (Analyzer.Report.TotalMinutes (Analyzer.r (Analyzer.scan jobs))).
  change (Analyzer.Report.TotalCost rep)
    with (Analyzer.Report.TotalCost (Analyzer.r (Analyzer.scan jobs))).
  change (Analyzer.Report.ByWorkflow rep)
    with (Analyzer.Report.ByWorkflow (Analyzer.r (Analyzer.scan jobs))).
  rewrite Hm, Hc, Hw. clear Hm Hc Hw.
  cbn [Analyzer.init Analyzer.r Analyzer.Report.TotalMinutes Analyzer.Report.TotalCost
       Analyzer.Report.ByWorkflow].
  pose proof (ran_jobs_positive jobs) as Hpos.
  set (l := List.filter job_ran jobs) in *.
  destruct (exact_ran_sums l Hpos) as (H0 & Hlo & Hhi).
  change (@f64_zero exact) with 0. cbn [F64 exact f64_add].
  rewrite !exact_sum_from, !Qplus_0_l.
  do 3 (split; [done|]). split.
  - rewrite exact_fold_total. unfold map_total. rewrite map_to_list_empty. cbn. ring.
  - intros w c Hwc. split; [by apply exact_fold_value|].
    eapply (exact_fold_positive Job.Workflow (job_cost (fl := exact)) l ∅); [| |exact Hwc].
    + eapply Forall_impl; [exact Hpos|]. intros j Hj. by apply exact_job_cost.
    + apply map_Forall_empty.
Qed.

End ExactAnalyzer.


Section MacHint.
Context {fl : Float64} {lib : GoLib}.
Hypothesis Hmac : (f64_const 0.08 =? f64_const 0.08)%f64 = true.
Hypothesis Hwin : (f64_const 0.016 =? f64_const 0.08)%f64 = false.
Hypothesis Hlin : (f64_const 0.008 =? f64_const 0.08)%f64 = false.

Lemma RunnerRate_macos labels :
  (Analyzer.RunnerRate labels =? f64_const 0.08)%f64 = on_macos labels.
Proof.
  rewrite RunnerRate_first. unfold on_macos, tier_of.
  destruct (List.find platform_label labels) as [l|]; [|done].
  by destruct (mentions "macos" l).
Qed.

Lemma macos_hint_jobs rng jobs days :
  macos_hint ∈ Analyzer.Report.Suggestions (Analyzer.Analyze rng jobs days)
  ↔ ∃ j, j ∈ jobs ∧ job_ran j = true ∧ on_macos (Job.Labels j) = true.
Proof.
  rewrite macos_hint_in_Suggestions, existsb_exists. unfold macos_rate.
  split.
  - intros (j & Hj & [Hr Hm]%andb_true_iff). exists j.
    rewrite RunnerRate_macos in Hm. by rewrite list_elem_of_In.
  - intros (j & Hj & Hr & Hm). exists j. rewrite <- list_elem_of_In.
    by rewrite RunnerRate_macos, Hr, Hm.
Qed.

End MacHint.

Lemma on_macos_isMac {fl : Float64} {lib : GoLib} (labels : list string) :
  on_macos labels = true → Recommendations.isMac labels = true.
Proof.
  unfold on_macos. destruct (List.find platform_label labels) as [l|] eqn:Hl; [|done].
  intros Hm. apply isMac_iff. exists l. split; [|done].
  apply List.find_some in Hl as [Hl _]. by apply list_elem_of_In.
Qed.

(** X9. The macOS hint is among the suggestions exactly when some job that
    ran has, as the first of its labels that names a platform, one that
    names macOS: in exact arithmetic and on binary64, where the three rates
    are different numbers. Such a job is a macOS job for [DetectExpensiveOS]
    too; the converse fails for the labels ["windows-latest"; "macos-13"],
    which [DetectExpensiveOS] takes for macOS and for which no hint is
    given. *)
Theorem X9_macos_hint :
  (∀ (lib : GoLib) rng jobs days,
     macos_hint ∈ Analyzer.Report.Suggestions (Analyzer.Analyze (fl := exact) rng jobs days)
     ↔ ∃ j, j ∈ jobs ∧ job_ran (fl := exact) j = true ∧ on_macos (Job.Labels j) = true)
  ∧ (∀ (lib : GoLib) rng jobs days,
       macos_hint ∈ Analyzer.Report.Suggestions
                      (Analyzer.Analyze (fl := binary64) rng jobs days)
       ↔ ∃ j, j ∈ jobs ∧ job_ran (fl := binary64) j = true
              ∧ on_macos (Job.Labels j) = true)
  ∧ (∀ (fl : Float64) (lib : GoLib) labels,
       on_macos labels = true → Recommendations.isMac labels = true)
  ∧ (on_macos (lib := go) ["windows-latest"; "macos-13"] = false
     ∧ Recommendations.isMac (lib := go) ["windows-latest"; "macos-13"] = true).
Proof.
  split; [|split; [|split]].
  - intros lib rng jobs days. by apply macos_hint_jobs.
  - intros lib rng jobs days. by apply macos_hint_jobs.
  - intros fl lib labels. apply on_macos_isMac.
  - by vm_compute.
Qed.

Section ExactWaste.
#[local] Existing Instance exact.
Local Open Scope Q_scope.
Context {lib : GoLib}.

Lemma exact_rate_pos (labels : list string) : 0 < Analyzer.RunnerRate (fl := exact) labels.
Proof.
  destruct (exact_RunnerRate labels) as [Hlo _].
  eapply Qlt_le_trans; [|exact Hlo]. by vm_compute.
Qed.

Lemma exact_job_waste_pos (j : Job.t) :
  Forall (λ w, 0 < Analyzer.WasteItem.Cost w) (job_waste (fl := exact) j).
Proof.
  unfold job_waste. destruct (job_ran j) eqn:Hj; [|constructor].
  apply exact_job_ran in Hj. pose proof (exact_rate_pos (Job.Labels j)) as Hr.
  apply Forall_app. split.
  - destruct (String.eqb _ _); repeat constructor.
    cbn. by apply Qmult_lt_0_compat.
  - apply Forall_forall. intros w (s & Hw & _)%list_elem_of_bind.
    unfold step_waste in Hw. destruct (step_ran s) eqn:Hs; [|by apply elem_of_nil in Hw].
    apply exact_step_ran in Hs.
    set (rate := Analyzer.RunnerRate _) in *. set (m := step_minutes s) in *.
    assert (0 < m * rate) as Hmr by (by apply Qmult_lt_0_compat).
    apply elem_of_app in Hw as [Hw|Hw].
    + destruct (cache_failure s); [|by apply elem_of_nil in Hw].
      by apply list_elem_of_singleton in Hw as ->.
    + destruct (slow_install s); [|by apply elem_of_nil in Hw].
      apply list_elem_of_singleton in Hw as ->. cbn.
      apply Qmult_lt_0_compat; [done|]. by vm_compute.
Qed.

Lemma exact_sum_pos (l : list Q) :
  Forall (λ x, 0 < x) l → l ≠ [] → 0 < f64_sum (fl := exact) l.
Proof.
  intros Hl Hne. rewrite exact_sum. destruct Hl as [|x l Hx Hl]; [done|]. clear Hne.
  cbn [foldr]. assert (0 <= foldr Qplus 0 l) as H0.
  { induction Hl as [|y l Hy _ IH]; cbn [foldr]; [by vm_compute|]. lra. }
  lra.
Qed.

(** X5. In exact arithmetic every waste finding has a positive cost, so the
    waste summary is among the suggestions exactly when there is a
    finding. *)
Theorem X5_exact_waste rng jobs days :
  let rep := Analyzer.Analyze (fl := exact) rng jobs days in
  Forall (λ w, 0 < Analyzer.WasteItem.Cost w) (Analyzer.Report.Waste rep)
  ∧ (waste_summary (Analyzer.Report.Waste rep) ∈ Analyzer.Report.Suggestions rep
     ↔ Analyzer.Report.Waste rep ≠ []).
Proof.
  intros rep.
  assert (Forall (λ w, 0 < Analyzer.WasteItem.Cost w) (Analyzer.Report.Waste rep)) as Hpos.
  { unfold rep. rewrite Analyze_Waste. destruct (scan_init jobs) as (_ & -> & _).
    apply Forall_forall. intros w (j & Hw & _)%list_elem_of_bind.
    pose proof (exact_job_waste_pos j) as Hj. rewrite Forall_forall in Hj. by apply Hj. }
  split; [done|].
  unfold rep. rewrite waste_summary_in_Suggestions. fold rep.
  cbn [F64 exact f64_ltb]. rewrite Qltb_lt. change (@f64_zero exact) with 0. split.
  - intros Hsum Hnil. rewrite Hnil in Hsum. by vm_compute in Hsum.
  - intros Hne. apply exact_sum_pos.
    + apply Forall_fmap. exact Hpos.
    + intros Hnil%fmap_nil_inv. by apply Hne.
Qed.

(** X7. In exact arithmetic the minutes of a top step are the sum of the
    minutes of the steps of that name that have a positive duration, in the
    jobs that have one, over all jobs and workflows; they are positive. *)
Theorem X7_step_minutes `{!GoLibSpec lib} rng jobs days s :
  is_range rng (Analyzer.stepAgg (Analyzer.scan (fl := exact) jobs)) →
  s ∈ Analyzer.Report.TopSteps (Analyzer.Analyze (fl := exact) rng jobs days) →
  Analyzer.StepCost.Min s
  == f64_sum (step_minutes <$>
              List.filter (λ st, String.eqb (Step.Name st) (Analyzer.StepCost.Name s))
                          (ran_steps_of jobs))
  ∧ 0 < Analyzer.StepCost.Min s.
Proof.
  intros Hrng Hs. rewrite Analyze_TopSteps in Hs.
  assert (s ∈ step_cost <$> map_to_list (Analyzer.stepAgg (Analyzer.scan jobs))) as Hin.
  { unfold is_range in Hrng. rewrite <- Hrng, <- (sort_Slice_perm _ Analyzer.byMin).
    rewrite <- (firstn_skipn 10 (sort_Slice _ _)). apply elem_of_app. by left. }
  apply list_elem_of_fmap in Hin as ([n m] & -> & Hnm). apply elem_of_map_to_list in Hnm.
  cbn [step_cost Analyzer.StepCost.Name Analyzer.StepCost.Min fst snd].
  destruct (scan_init jobs) as (_ & _ & Hagg & _). rewrite Hagg in Hnm. clear Hagg.
  split.
  - rewrite exact_sum. change m with (default 0 (Some m)). rewrite <- Hnm.
    eapply Qeq_trans;
      [exact (exact_fold_lookup Step.Name (step_minutes (fl := exact))
                (ran_steps_of jobs) ∅ n)|].
    rewrite lookup_empty. cbn [default from_option]. apply Qplus_0_l.
  - eapply (exact_fold_positive Step.Name (step_minutes (fl := exact)) (ran_steps_of jobs) ∅);
      [| |exact Hnm].
    + apply Forall_forall. intros st Hst. unfold ran_steps_of in Hst.
      apply list_elem_of_In, List.filter_In in Hst as [_ Hst]. by apply exact_step_ran.
    + apply map_Forall_empty.
Qed.

End ExactWaste.


Lemma exact_step_ran_instants (s : Step.t) :
  step_ran (fl := exact) s = true ↔ (Step.StartedAt s < Step.CompletedAt s)%Z.
Proof.
  rewrite exact_step_ran. unfold step_minutes. rewrite exact_Minutes, <- time_Sub_pos.
  unfold Qlt. cbn. lia.
Qed.

Lemma exact_job_ran_instants (j : Job.t) :
  job_ran (fl := exact) j = true ↔ (Job.StartedAt j < Job.CompletedAt j)%Z.
Proof. unfold job_ran. rewrite negb_true_iff. apply exact_job_minutes. Qed.

Lemma exact_slow_install (lib : GoLib) (s : Step.t) :
  slow_install (fl := exact) s = true
  ↔ (3 * time.Minute < time.Sub (Step.CompletedAt s) (Step.StartedAt s))%Z
    ∧ (mentions "install" (Step.Name s) || mentions "npm" (Step.Name s)
       || mentions "pip" (Step.Name s)) = true.
Proof.
  unfold slow_install, step_minutes, mentions. rewrite andb_true_iff.
  cbn [F64 exact f64_ltb f64_of_int]. rewrite Qltb_lt, exact_Minutes.
  change time.Minute with 60000000000%Z.
  set (d := time.Sub _ _). unfold Qlt. cbn. split; intros [? ?]; split; try done; lia.
Qed.


(** X1. The narrative report reads nothing of a job that its guard
    [dur <= 0] skips, its steps included, nor of a step that the guard
    [sd <= 0] skips: the report of an input is the report of the input
    without them. In exact arithmetic a job or a step passes its guard
    exactly when it completed after it started. *)
Theorem X1_skipped_jobs :
  (∀ (fl : Float64) (lib : GoLib) rng jobs days,
     Analyzer.Analyze rng (ran_jobs jobs) days = Analyzer.Analyze rng jobs days)
  ∧ (∀ j : Job.t, job_ran (fl := exact) j = true
                  ↔ (Job.StartedAt j < Job.CompletedAt j)%Z)
  ∧ (∀ s : Step.t, step_ran (fl := exact) s = true
                   ↔ (Step.StartedAt s < Step.CompletedAt s)%Z).
Proof.
  split; [|split].
  - intros fl lib rng jobs days. apply Analyze_ran_jobs.
  - apply exact_job_ran_instants.
  - apply exact_step_ran_instants.
Qed.


(** X4. The waste findings of the narrative report, in their order: for
    each job that ran, a retry finding if it failed, then for each of its
    steps that ran a cache-miss finding if its name mentions a cache and it
    failed, and a slow-deps finding if it took more than 3 minutes and its
    name mentions an installer. Every finding is of one of these three
    types. In exact arithmetic "more than 3 minutes" is read off the two
    instants of the step. *)
Theorem X4_waste_findings :
  (∀ (fl : Float64) (lib : GoLib) rng jobs days,
     let waste := Analyzer.Report.Waste (Analyzer.Analyze rng jobs days) in
     waste = jobs ≫= job_waste
     ∧ Forall (λ w, Analyzer.WasteItem.Type_ w ∈ ["retry"; "cache-miss"; "slow-deps"])
              waste)
  ∧ (∀ (lib : GoLib) (s : Step.t),
       slow_install (fl := exact) s = true
       ↔ (3 * time.Minute < time.Sub (Step.CompletedAt s) (Step.StartedAt s))%Z
         ∧ (mentions "install" (Step.Name s) || mentions "npm" (Step.Name s)
            || mentions "pip" (Step.Name s)) = true).
Proof.
  split.
  - intros fl lib rng jobs days. apply Analyze_Waste_kinds.
  - apply exact_slow_install.
Qed.



(** ** The aggregator: what its loops accumulate *)

Section CostScan.
Context {fl : Float64} {lib : GoLib}.

Lemma Cost_steps os wf job steps acc :
  fold_left (Cost.step_body wf job (Cost.resolveRate (Cost.JobAnalysis.Labels job) os))
            steps acc
  = acc ++ (step_entry os wf job <$> List.filter counted_step steps).
Proof.
  revert acc. induction steps as [|s steps IH]; intros acc; cbn [fold_left List.filter].
  { by rewrite app_nil_r. }
  rewrite IH. unfold Cost.step_body, counted_step, counted.
  destruct (_ <=? _)%f64; cbn [negb]; [done|].
  by rewrite <- app_assoc.
Qed.

Lemma Cost_job_body os wf v job :
  Cost.job_body os wf v job
  = if counted_job job
    then {| Cost.perJob := map_add (Cost.perJob v) (Cost.JobAnalysis.Name job)
                             (analysis_cost os job);
            Cost.wfCost := (Cost.wfCost v + analysis_cost os job)%f64;
            Cost.jSteps := Cost.jSteps v ++ job_entries os wf job |}
    else v.
Proof.
  unfold Cost.job_body, job_entries, counted_job, counted, analysis_cost.
  destruct (_ <=? _)%f64; cbn [negb]; [done|].
  by rewrite Cost_steps.
Qed.

Lemma Cost_jobs os wf jobs v :
  let v' := fold_left (Cost.job_body os wf) jobs v in
  Cost.perJob v'
    = fold_left (λ m job, map_add m (Cost.JobAnalysis.Name job) (analysis_cost os job))
        (List.filter counted_job jobs) (Cost.perJob v)
  ∧ Cost.wfCost v'
    = fold_left f64_add (analysis_cost os <$> List.filter counted_job jobs) (Cost.wfCost v)
  ∧ Cost.jSteps v' = Cost.jSteps v ++ (jobs ≫= job_entries os wf).
Proof.
  revert v. induction jobs as [|job jobs IH]; intros v; cbn [fold_left List.filter].
  { by rewrite app_nil_r. }
  destruct (IH (Cost.job_body os wf v job)) as (Hp & Hw & Hs). cbv zeta.
  rewrite Hp, Hw, Hs, bind_cons, Cost_job_body.
  assert (job_entries os wf job = if counted_job job then job_entries os wf job else [])
    as Hnil by (unfold job_entries; by destruct (counted_job job)).
  destruct (counted_job job); cbn.
  - by rewrite <- app_assoc.
  - by rewrite Hnil.
Qed.

Lemma Cost_workflows os analyses v :
  let v' := fold_left (Cost.workflow_body os) analyses v in
  Cost.CostReport.PerJob (Cost.report v')
    = fold_left (λ m job, map_add m (Cost.JobAnalysis.Name job) (analysis_cost os job))
        (List.filter counted_job (analyses ≫= Cost.WorkflowAnalysis.Jobs))
        (Cost.CostReport.PerJob (Cost.report v))
  ∧ Cost.CostReport.PerWorkflow (Cost.report v')
    = fold_left (λ m wf, map_add m (Cost.WorkflowAnalysis.Name wf) (workflow_cost os wf))
        analyses (Cost.CostReport.PerWorkflow (Cost.report v))
  ∧ Cost.CostReport.TotalCost (Cost.report v')
    = fold_left f64_add (workflow_cost os <$> analyses)
        (Cost.CostReport.TotalCost (Cost.report v))
  ∧ Cost.allSteps v' = Cost.allSteps v ++ (analyses ≫= workflow_entries os).
Proof.
  revert v. induction analyses as [|wf rest IH]; intros v; cbn [fold_left].
  { by rewrite app_nil_r. }
  destruct (IH (Cost.workflow_body os v wf)) as (Hj & Hw & Ht & Hs). cbv zeta.
  rewrite Hj, Hw, Ht, Hs. clear IH Hj Hw Ht Hs.
  destruct (workflow_body_unfold os v wf) as (-> & -> & -> & ->).
  match goal with |- context [fold_left (Cost.job_body os wf) ?l ?a] =>
    destruct (Cost_jobs os wf l a) as (-> & -> & ->) end.
  cbn [Cost.perJob Cost.wfCost Cost.jSteps].
  rewrite !bind_cons, List.filter_app, fold_left_app, <- app_assoc.
  cbn [fmap list_fmap fold_left]. done.
Qed.

Lemma CalculateCost_fields analyses os days :
  let r := Cost.CalculateCost analyses os days in
  Cost.CostReport.PerJob r
    = fold_left (λ m job, map_add m (Cost.JobAnalysis.Name job) (analysis_cost os job))
        (List.filter counted_job (analyses ≫= Cost.WorkflowAnalysis.Jobs)) ∅
  ∧ Cost.CostReport.PerWorkflow r
    = fold_left (λ m wf, map_add m (Cost.WorkflowAnalysis.Name wf) (workflow_cost os wf))
        analyses ∅
  ∧ Cost.CostReport.TotalCost r = f64_sum (workflow_cost os <$> analyses)
  ∧ Cost.CostReport.PerStep r = analyses ≫= workflow_entries os.
Proof.
  unfold Cost.CalculateCost, Cost.scan.
  cbn [Cost.CostReport.PerJob Cost.CostReport.PerWorkflow Cost.CostReport.TotalCost
       Cost.CostReport.PerStep].
  by destruct (Cost_workflows os analyses Cost.init) as (-> & -> & -> & ->).
Qed.

(** X10. The step list of the aggregator holds one entry for each step of
    positive minutes in a job of positive minutes, and no other, in the order
    of the workflows, their jobs and their steps; the entry names the
    workflow, the job and the step, and its cost is the step's minutes times
    the rate of its job. *)
Theorem X10_per_step analyses os days :
  Cost.CostReport.PerStep (Cost.CalculateCost analyses os days)
  = analyses ≫= λ wf,
      List.filter counted_job (Cost.WorkflowAnalysis.Jobs wf) ≫= λ job,
        step_entry os wf job <$> List.filter counted_step (Cost.JobAnalysis.Steps job).
Proof.
  destruct (CalculateCost_fields analyses os days) as (_ & _ & _ & ->).
  induction analyses as [|wf rest IH]; [done|]. rewrite !bind_cons, IH. f_equal.
  unfold workflow_entries. induction (Cost.WorkflowAnalysis.Jobs wf) as [|job jobs IHj]; [done|].
  rewrite bind_cons. cbn [List.filter]. unfold job_entries at 1.
  destruct (counted_job job); [by rewrite bind_cons, IHj|done].
Qed.

End CostScan.

(** ** The sorted lists: what [sort.Slice] is given, and what it returns *)

Section SortedLists.
Context {fl : Float64} {lib : GoLib}.

(** A duration that passes a guard [minutes <= 0] has minutes that are a
    number, and not negative. *)
Lemma guard_nonneg `{!Float64Laws fl} (d : time.Duration) :
  (time.Minutes d <=? f64_zero)%f64 = false → (f64_zero <=? time.Minutes d)%f64 = true.
Proof.
  intros Hg. destruct (Z.le_ge_cases 0 d) as [Hd|Hd]; [by apply f64_Minutes_nonneg|].
  rewrite f64_Minutes_nonpos in Hg by done. discriminate Hg.
Qed.

(** Descending order by a key is a strict weak ordering of a list whose keys
    are numbers. *)
Lemma descending_strict_weak_on `{!Float64Laws fl} {A} (key : A → F64) (l : list A) :
  Forall (λ a, is_number (key a) = true) l →
  strict_weak_on (λ a b, (key a >? key b)%f64) l.
Proof.
  rewrite Forall_forall. intros Hnum. repeat split.
  - intros x _. apply f64_lt_irrefl.
  - intros x y z _ _ _ Hxy Hyz. by apply (f64_lt_trans _ (key y)).
  - intros x y z _ Hy _ Hxy Hyz. apply (f64_lt_weak _ (key y)); auto.
Qed.




Lemma fold_map_add_nonneg `{!Float64Laws fl} {X} (key : X → string) (val : X → F64)
    (l : list X) (m : gmap string F64) :
  Forall (λ x, (f64_zero <=? val x)%f64 = true) l →
  map_Forall (λ _ v, (f64_zero <=? v)%f64 = true) m →
  map_Forall (λ _ v, (f64_zero <=? v)%f64 = true)
    (fold_left (λ m x, map_add m (key x) (val x)) l m).
Proof.
  intros Hl. revert m. induction Hl as [|x l Hx _ IH]; intros m Hm; [done|].
  cbn [fold_left]. apply IH. unfold map_add. apply map_Forall_insert_2; [|done].
  apply f64_nonneg_add; [|done].
  destruct (m !! key x) as [v|] eqn:Hv; cbn [default from_option].
  - exact (Hm _ _ Hv).
  - apply f64_zero_nonneg.
Qed.

(** Every sum of minutes that the narrative report aggregates under a step
    name is a number. *)
Lemma stepAgg_numbers `{!Float64Laws fl} jobs :
  map_Forall (λ _ m, is_number m = true) (Analyzer.stepAgg (Analyzer.scan jobs)).
Proof.
  destruct (scan_init jobs) as (_ & _ & -> & _).
  eapply map_Forall_impl; [|intros n m; apply f64_nonneg_number].
  apply fold_map_add_nonneg; [|apply map_Forall_empty].
  apply Forall_forall. intros s Hs. unfold ran_steps_of in Hs.
  apply list_elem_of_In, List.filter_In in Hs as [_ Hr].
  unfold step_ran in Hr. apply negb_true_iff in Hr. by apply guard_nonneg.
Qed.


Lemma byMin_on `{!Float64Laws fl} rng jobs :
  is_range rng (Analyzer.stepAgg (Analyzer.scan jobs)) →
  strict_weak_on Analyzer.byMin
    (step_cost <$> rng (Analyzer.stepAgg (Analyzer.scan jobs))).
Proof.
  intros Hrng. apply (descending_strict_weak_on Analyzer.StepCost.Min).
  unfold is_range in Hrng. rewrite Hrng.
  apply Forall_forall. intros s ([n m] & -> & Hnm)%list_elem_of_fmap.
  apply elem_of_map_to_list in Hnm. exact (stepAgg_numbers jobs n m Hnm).
Qed.


(** X6. The top steps of the narrative report, for a [sort.Slice] that meets
    its contract, in exact arithmetic and on binary64: there are [min 10 n]
    of them for [n] aggregated step names; no step name occurs twice; they
    come by descending minutes; each carries the minutes aggregated under
    its name; no step name left out has more minutes than one that is
    listed; and the aggregated names are the names of the steps of positive
    duration in the jobs of positive duration. *)
Theorem X6_top_steps `{!GoSortSpec lib} `{!Float64Laws fl} rng jobs days :
  is_range rng (Analyzer.stepAgg (Analyzer.scan jobs)) →
  let top := Analyzer.Report.TopSteps (Analyzer.Analyze rng jobs days) in
  let agg := Analyzer.stepAgg (Analyzer.scan jobs) in
  length top = min 10 (size agg)
  ∧ NoDup (Analyzer.StepCost.Name <$> top)
  ∧ ordered_by Analyzer.byMin top
  ∧ (∀ s, s ∈ top → agg !! Analyzer.StepCost.Name s = Some (Analyzer.StepCost.Min s))
  ∧ (∀ s n m, s ∈ top → agg !! n = Some m → n ∉ Analyzer.StepCost.Name <$> top →
              (m >? Analyzer.StepCost.Min s)%f64 = false)
  ∧ (∀ n, is_Some (agg !! n)
          ↔ ∃ j st, j ∈ jobs ∧ job_ran j = true ∧ st ∈ Job.Steps j
                    ∧ step_ran st = true ∧ Step.Name st = n).
Proof.
  intros Hrng top agg. unfold top. rewrite Analyze_TopSteps. fold agg.
  pose proof (byMin_on rng jobs Hrng) as Hsw. fold agg in Hsw.
  unfold is_range in Hrng. fold agg in Hrng.
  set (sorted := sort_Slice Analyzer.byMin (step_cost <$> rng agg)).
  assert (sorted ≡ₚ step_cost <$> map_to_list agg) as Hperm.
  { unfold sorted. by rewrite sort_Slice_elements, Hrng. }
  assert (ordered_by Analyzer.byMin sorted) as Hord.
  { by apply sort_Slice_ordered_on. }
  assert (Analyzer.StepCost.Name <$> sorted ≡ₚ (map_to_list agg).*1) as Hnames.
  { rewrite Hperm, <- list_fmap_compose. done. }
  assert (∀ s, s ∈ sorted → agg !! Analyzer.StepCost.Name s = Some (Analyzer.StepCost.Min s))
    as Hin.
  { intros s. rewrite Hperm. intros ([n m] & -> & Hnm)%list_elem_of_fmap.
    by apply elem_of_map_to_list in Hnm. }
  split; [|split; [|split; [|split; [|split]]]].
  - rewrite length_firstn, Hperm, length_fmap, length_map_to_list. lia.
  - apply (sublist_NoDup _ (Analyzer.StepCost.Name <$> sorted)).
    + rewrite Hnames. apply NoDup_fst_map_to_list.
    + apply fmap_sublist, sublist_take.
  - unfold ordered_by in *. rewrite <- (firstn_skipn 10 sorted) in Hord.
    by apply StronglySorted_app_1_l in Hord.
  - intros s Hs. apply Hin. rewrite <- (firstn_skipn 10 sorted).
    apply elem_of_app. by left.
  - intros s n m Hs Hnm Hn.
    assert (step_cost (n, m) ∈ skipn 10 sorted) as Hrest.
    { assert (step_cost (n, m) ∈ sorted) as Hsorted.
      { rewrite Hperm. apply list_elem_of_fmap. exists (n, m). split; [done|].
        by apply elem_of_map_to_list. }
      rewrite <- (firstn_skipn 10 sorted) in Hsorted.
      apply elem_of_app in Hsorted as [Hl|Hr]; [|done].
      exfalso. apply Hn. apply list_elem_of_fmap. by exists (step_cost (n, m)). }
    unfold ordered_by in Hord. rewrite <- (firstn_skipn 10 sorted) in Hord.
    exact (StronglySorted_app_1_elem_of _ _ _ s (step_cost (n, m)) Hord Hs Hrest).
  - apply stepAgg_entries.
Qed.

(** C9, as the code has it. Two runs on the same input differ at most in
    the order in which the two loops over a map visit its entries. The
    recommendations of the cache-miss, long-checkout and expensive-os rules
    are the same and stand at the same places; the duplicate-steps
    recommendations between them are the same up to their order. The
    narrative report has the same totals, monthly estimate, per-workflow
    costs and waste findings; its top steps and suggestions are the same
    when no two step names have the same aggregated minutes. This holds in
    exact arithmetic and on binary64. *)
Theorem C9_runs `{!GoSortSpec lib} `{!Float64Laws fl}
    (rng1 rng2 : MapRange (gmap string bool)) (rng3 rng4 : MapRange F64)
    cr jobs days :
  is_range rng1 (Recommendations.stepJobs cr) →
  is_range rng2 (Recommendations.stepJobs cr) →
  is_range rng3 (Analyzer.stepAgg (Analyzer.scan jobs)) →
  is_range rng4 (Analyzer.stepAgg (Analyzer.scan jobs)) →
  (∃ d1 d2,
     Recommendations.GenerateRecommendations rng1 cr
     = Recommendations.DetectCacheMiss cr ++ Recommendations.DetectLongCheckout cr
       ++ d1 ++ Recommendations.DetectExpensiveOS cr
     ∧ Recommendations.GenerateRecommendations rng2 cr
       = Recommendations.DetectCacheMiss cr ++ Recommendations.DetectLongCheckout cr
         ++ d2 ++ Recommendations.DetectExpensiveOS cr
     ∧ d1 ≡ₚ d2)
  ∧ (let a := Analyzer.Analyze rng3 jobs days in
     let b := Analyzer.Analyze rng4 jobs days in
     Analyzer.Report.TotalMinutes a = Analyzer.Report.TotalMinutes b
     ∧ Analyzer.Report.TotalCost a = Analyzer.Report.TotalCost b
     ∧ Analyzer.Report.MonthlyCost a = Analyzer.Report.MonthlyCost b
     ∧ Analyzer.Report.ByWorkflow a = Analyzer.Report.ByWorkflow b
     ∧ Analyzer.Report.Waste a = Analyzer.Report.Waste b)
  ∧ (no_ties Analyzer.byMin
       (step_cost <$> map_to_list (Analyzer.stepAgg (Analyzer.scan jobs))) →
     Analyzer.Analyze rng3 jobs days = Analyzer.Analyze rng4 jobs days).
Proof.
  intros H1 H2 H3 H4. split; [|split].
  - eexists _, _. rewrite !GenerateRecommendations_eq.
    split; [done|]. split; [done|]. by apply DetectDuplicateSteps_perm.
  - done.
  - intros Hties. apply Analyze_sorted.
    pose proof (byMin_on rng3 jobs H3) as Hsw3. pose proof (byMin_on rng4 jobs H4) as Hsw4.
    unfold is_range in H3, H4.
    apply (ordered_unique Analyzer.byMin).
    + by rewrite !sort_Slice_elements, H3, H4.
    + eapply no_ties_perm; [|exact Hties]. by rewrite sort_Slice_elements, H3.
    + by apply sort_Slice_ordered_on.
    + by apply sort_Slice_ordered_on.
Qed.

End SortedLists.

Section CostInputs.
Context {fl : Float64} {lib : GoLib}.

Lemma fold_left_fmap_ext {X X' Y} (f : Y → X → Y) (g : X → X') (f' : Y → X' → Y)
    (l : list X) (a : Y) :
  (∀ a x, f' a (g x) = f a x) →
  fold_left f' (g <$> l) a = fold_left f l a.
Proof.
  intros Hf. revert a. induction l as [|x l IH]; intros a; [done|].
  cbn [fmap list_fmap fold_left]. rewrite Hf. apply IH.
Qed.

Lemma filter_filter {X} (p : X → bool) (l : list X) :
  List.filter p (List.filter p l) = List.filter p l.
Proof.
  induction l as [|x l IH]; [done|]. cbn [List.filter].
  destruct (p x) eqn:Hp; [|done]. cbn [List.filter]. by rewrite Hp, IH.
Qed.

Lemma job_body_counted_part os wf v job :
  Cost.job_body os (counted_part wf) v (counted_steps job) = Cost.job_body os wf v job.
Proof.
  rewrite !Cost_job_body. unfold job_entries, counted_job, analysis_cost.
  cbn [counted_steps counted_part Cost.JobAnalysis.Duration Cost.JobAnalysis.Name
       Cost.JobAnalysis.Labels Cost.JobAnalysis.Steps].
  destruct (counted _); [|done]. by rewrite filter_filter.
Qed.

Lemma workflow_body_counted_part os v wf :
  Cost.workflow_body os v (counted_part wf) = Cost.workflow_body os v wf.
Proof.
  unfold Cost.workflow_body.
  cbn [counted_part Cost.WorkflowAnalysis.Name Cost.WorkflowAnalysis.Jobs].
  set (a := {| Cost.perJob := _ |}).
  assert (fold_left (Cost.job_body os (counted_part wf))
            (counted_steps <$> List.filter counted_job (Cost.WorkflowAnalysis.Jobs wf)) a
          = fold_left (Cost.job_body os wf) (Cost.WorkflowAnalysis.Jobs wf) a) as ->; [|done].
  rewrite <- (fold_left_filter (Cost.job_body os wf) counted_job).
  - apply (fold_left_fmap_ext (Cost.job_body os wf)).
    intros. apply job_body_counted_part.
  - intros v' job Hc. rewrite Cost_job_body. by rewrite Hc.
Qed.

(** X11. The aggregator reads nothing of a job that its guard skips, nor of
    a step that its guard skips: the report of an input is the report of the
    input without them. The workflows stay, also those left without a
    job. *)
Theorem X11_skipped_input analyses os days :
  Cost.CalculateCost (counted_part <$> analyses) os days
  = Cost.CalculateCost analyses os days.
Proof.
  unfold Cost.CalculateCost, Cost.scan.
  rewrite (fold_left_fmap_ext (Cost.workflow_body os) counted_part
             (Cost.workflow_body os)); [done|].
  intros. apply workflow_body_counted_part.
Qed.

Lemma resolveRate_with_default os os' job :
  Cost.resolveRate (Cost.JobAnalysis.Labels (with_default os job)) os'
  = Cost.resolveRate (Cost.JobAnalysis.Labels job) os.
Proof.
  unfold with_default. cbn [Cost.JobAnalysis.Labels].
  destruct (Cost.JobAnalysis.Labels job) as [|l rest]; [|done].
  unfold Cost.resolveRate. cbn [length Nat.ltb Nat.leb].
  rewrite RunnerRate_cons, rateForOS_rule. done.
Qed.

Lemma job_body_labelled os os' wf v job :
  Cost.job_body os' (labelled os wf) v (with_default os job) = Cost.job_body os wf v job.
Proof.
  rewrite !Cost_job_body. unfold job_entries, counted_job, analysis_cost, step_entry.
  rewrite !resolveRate_with_default.
  cbn [with_default labelled Cost.JobAnalysis.Duration Cost.JobAnalysis.Name
       Cost.JobAnalysis.Steps Cost.WorkflowAnalysis.Name].
  done.
Qed.

Lemma workflow_body_labelled os os' v wf :
  Cost.workflow_body os' v (labelled os wf) = Cost.workflow_body os v wf.
Proof.
  unfold Cost.workflow_body.
  cbn [labelled Cost.WorkflowAnalysis.Name Cost.WorkflowAnalysis.Jobs].
  set (a := {| Cost.perJob := _ |}).
  assert (fold_left (Cost.job_body os' (labelled os wf))
            (with_default os <$> Cost.WorkflowAnalysis.Jobs wf) a
          = fold_left (Cost.job_body os wf) (Cost.WorkflowAnalysis.Jobs wf) a) as ->; [|done].
  apply (fold_left_fmap_ext (Cost.job_body os wf)).
  intros. apply job_body_labelled.
Qed.

Lemma CalculateCost_labelled analyses os os' days :
  Cost.CalculateCost (labelled os <$> analyses) os' days
  = Cost.CalculateCost analyses os days.
Proof.
  unfold Cost.CalculateCost, Cost.scan.
  rewrite (fold_left_fmap_ext (Cost.workflow_body os) (labelled os)
             (Cost.workflow_body os')); [done|].
  intros. apply workflow_body_labelled.
Qed.

Lemma labelled_id os (analyses : list Cost.WorkflowAnalysis.t) :
  Forall (λ wf, Forall (λ job, Cost.JobAnalysis.Labels job ≠ [])
                       (Cost.WorkflowAnalysis.Jobs wf)) analyses →
  labelled os <$> analyses = analyses.
Proof.
  induction 1 as [|wf rest Hwf _ IH]; [done|]. cbn [fmap list_fmap]. f_equal; [|exact IH].
  destruct wf as [name jobs]. unfold labelled. cbn in *. f_equal.
  induction Hwf as [|job jobs Hjob _ IHj]; [done|]. cbn [fmap list_fmap]. f_equal; [|exact IHj].
  destruct job as [n d labels steps]. unfold with_default. cbn in *.
  by destruct labels.
Qed.

End CostInputs.

(** X12. The default OS is read as the only label of a job without labels:
    the report for a default OS is the report, for whatever default OS, of
    the input in which every job without labels carries that default OS as
    its label. So the default OS does not matter to an input all of whose
    jobs have a label. *)
Theorem X12_default_os :
  (∀ (fl : Float64) (lib : GoLib) analyses os os' days,
     Cost.CalculateCost (labelled os <$> analyses) os' days
     = Cost.CalculateCost analyses os days)
  ∧ (∀ (fl : Float64) (lib : GoLib) analyses os os' days,
       Forall (λ wf, Forall (λ job, Cost.JobAnalysis.Labels job ≠ [])
                            (Cost.WorkflowAnalysis.Jobs wf)) analyses →
       Cost.CalculateCost analyses os days = Cost.CalculateCost analyses os' days).
Proof.
  split.
  - intros. apply CalculateCost_labelled.
  - intros fl lib analyses os os' days Hl.
    rewrite <- (CalculateCost_labelled analyses os os' days).
    by rewrite labelled_id.
Qed.



Section ExactCost.
#[local] Existing Instance exact.
Local Open Scope Q_scope.
Context {lib : GoLib}.

Lemma exact_resolveRate labels os :
  0.008 <= Cost.resolveRate (fl := exact) labels os
  ∧ Cost.resolveRate (fl := exact) labels os <= 0.08.
Proof.
  unfold Cost.resolveRate. destruct (0 <? length labels)%nat; [apply exact_RunnerRate|].
  rewrite rateForOS_rule. unfold tier_of.
  destruct (platform_label os); [destruct (mentions "macos" os)|];
    rewrite exact_const; split; by vm_compute.
Qed.

Lemma exact_counted_pos (d : time.Duration) :
  counted (fl := exact) d = true ↔ 0 < time.Minutes d.
Proof. unfold counted. by rewrite negb_true_iff, exact_leb_false. Qed.

Lemma exact_analysis_cost os (job : Cost.JobAnalysis.t) :
  counted_job job = true → 0 < analysis_cost os job.
Proof.
  intros Hc%exact_counted_pos. unfold analysis_cost.
  destruct (exact_resolveRate (Cost.JobAnalysis.Labels job) os) as [Hlo _].
  apply Qmult_lt_0_compat; [done|]. eapply Qlt_le_trans; [|exact Hlo]. by vm_compute.
Qed.

Lemma exact_sum_nonneg (l : list Q) : Forall (λ x, 0 <= x) l → 0 <= foldr Qplus 0 l.
Proof.
  induction 1 as [|x l Hx _ IH]; cbn [foldr]; [by vm_compute|]. cbn beta in Hx. lra.
Qed.

Lemma exact_workflow_cost os (wf : Cost.WorkflowAnalysis.t) : 0 <= workflow_cost os wf.
Proof.
  unfold workflow_cost. rewrite exact_sum. apply exact_sum_nonneg.
  apply Forall_fmap, Forall_forall. intros job Hjob.
  apply list_elem_of_In, List.filter_In in Hjob as [_ Hc].
  apply Qlt_le_weak. by apply exact_analysis_cost.
Qed.

Lemma exact_fold_nonneg {X} (key : X → string) (val : X → F64) (l : list X)
    (m : gmap string F64) :
  Forall (λ x, 0 <= val x) l →
  map_Forall (λ _ c, 0 <= c) m →
  map_Forall (λ _ c, 0 <= c)
    (fold_left (λ m x, map_add (fl := exact) m (key x) (val x)) l m).
Proof.
  intros Hl. revert m. induction Hl as [|x l Hx _ IH]; intros m Hm; [done|].
  cbn [fold_left]. apply IH. unfold map_add. apply map_Forall_insert_2; [|done].
  cbn [F64 exact f64_add f64_zero f64_of_int] in *. cbn beta in Hx.
  destruct (m !! key x) as [c|] eqn:Hc; cbn [default from_option].
  - specialize (Hm _ _ Hc). cbn beta in Hm. unfold id. lra.
  - change (inject_Z 0) with 0. lra.
Qed.

Lemma counted_jobs_filter (analyses : list Cost.WorkflowAnalysis.t) :
  counted_jobs analyses
  = List.filter counted_job (analyses ≫= Cost.WorkflowAnalysis.Jobs).
Proof.
  unfold counted_jobs, counted_job.
  induction (analyses ≫= Cost.WorkflowAnalysis.Jobs) as [|job l IH]; [done|].
  cbn [List.filter]. destruct (counted (Cost.JobAnalysis.Duration job)) eqn:Hc.
  - rewrite filter_cons_True by done. by rewrite IH.
  - rewrite filter_cons_False by (by rewrite Hc). done.
Qed.

(** X13. In exact arithmetic the cost listed for a job name is the sum of
    the costs of the counted jobs of that name in all workflows (jobs of one
    name in different workflows share an entry), and it is positive; the
    cost listed for a workflow name is the sum of the costs of the workflows
    of that name, and it is not negative. *)
Theorem X13_exact_entries analyses os days :
  let r := Cost.CalculateCost (fl := exact) analyses os days in
  map_Forall
    (λ n c, c == f64_sum (analysis_cost os <$>
                          List.filter (λ job, String.eqb (Cost.JobAnalysis.Name job) n)
                                      (counted_jobs analyses))
            ∧ 0 < c)
    (Cost.CostReport.PerJob r)
  ∧ map_Forall
      (λ w c, c == f64_sum (workflow_cost os <$>
                            List.filter (λ wf, String.eqb (Cost.WorkflowAnalysis.Name wf) w)
                                        analyses)
              ∧ 0 <= c)
      (Cost.CostReport.PerWorkflow r).
Proof.
  intros r. destruct (CalculateCost_fields analyses os days) as (Hj & Hw & _).
  fold r in Hj, Hw. rewrite Hj, Hw, counted_jobs_filter. split.
  - intros n c Hn. split; [by apply exact_fold_value|].
    eapply (exact_fold_positive _ _ _ ∅); [| |exact Hn]; [|apply map_Forall_empty].
    apply Forall_forall. intros job Hjob.
    apply list_elem_of_In, List.filter_In in Hjob as [_ Hc]. by apply exact_analysis_cost.
  - intros w c Hwc. split; [by apply exact_fold_value|].
    eapply (exact_fold_nonneg _ _ _ ∅); [| |exact Hwc]; [|apply map_Forall_empty].
    apply Forall_forall. intros wf _. apply exact_workflow_cost.
Qed.

(** X14. In exact arithmetic the aggregator reports no negative amount: the
    total cost and the 30-day projection are not negative, and every entry
    of the step list has positive minutes and a cost between its minutes at
    the Linux rate and at the macOS rate. *)
Theorem X14_exact_bounds analyses os days :
  let r := Cost.CalculateCost (fl := exact) analyses os days in
  0 <= Cost.CostReport.TotalCost r
  ∧ 0 <= Cost.CostReport.ProjectedCost30 r
  ∧ Forall
      (λ e, 0 < Cost.StepCostEntry.Minutes e
            ∧ 0.008 * Cost.StepCostEntry.Minutes e <= Cost.StepCostEntry.Cost e
            ∧ Cost.StepCostEntry.Cost e <= 0.08 * Cost.StepCostEntry.Minutes e)
      (Cost.CostReport.PerStep r).
Proof.
  intros r. destruct (CalculateCost_fields analyses os days) as (_ & _ & Ht & Hs).
  fold r in Ht, Hs.
  assert (0 <= Cost.CostReport.TotalCost r) as Htot.
  { rewrite Ht, exact_sum. apply exact_sum_nonneg, Forall_fmap, Forall_forall.
    intros wf _. apply exact_workflow_cost. }
  split; [done|]. split.
  - destruct (exact_projection analyses os days) as [Hp _]. fold r in Hp. rewrite Hp.
    apply Qmult_le_0_compat; [|by vm_compute].
    apply Qle_shift_div_l.
    + change 0 with (inject_Z 0). rewrite <- Zlt_Qlt. lia.
    + by rewrite Qmult_0_l.
  - apply Forall_forall. intros e. rewrite Hs. intros (wf & He & _)%list_elem_of_bind.
    unfold workflow_entries in He. apply list_elem_of_bind in He as (job & He & _).
    unfold job_entries in He. destruct (counted_job job); [|by apply elem_of_nil in He].
    apply list_elem_of_fmap in He as (step & -> & Hstep).
    apply list_elem_of_In, List.filter_In in Hstep as [_ Hc].
    apply exact_counted_pos in Hc. cbn [step_entry Cost.StepCostEntry.Minutes Cost.StepCostEntry.Cost].
    destruct (exact_resolveRate (Cost.JobAnalysis.Labels job) os) as [Hlo Hhi].
    set (m := time.Minutes _) in *. set (rate := Cost.resolveRate _ _) in *.
    cbn [F64 exact f64_mul] in *. split; [done|]. split.
    + rewrite (Qmult_comm 0.008). by apply Qmult_le_l.
    + rewrite (Qmult_comm 0.08). by apply Qmult_le_l.
Qed.

Lemma foldr_Qplus_app (l1 l2 : list Q) :
  foldr Qplus 0 (l1 ++ l2) == foldr Qplus 0 l1 + foldr Qplus 0 l2.
Proof. induction l1 as [|x l1 IH]; cbn [app foldr]; [ring|]. rewrite IH. ring. Qed.

Lemma exact_fold_app {X} (key : X → string) (val : X → F64) (l1 l2 : list X) k :
  default 0 (fold_left (λ m x, map_add (fl := exact) m (key x) (val x)) (l1 ++ l2) ∅ !! k)
  == default 0 (fold_left (λ m x, map_add (fl := exact) m (key x) (val x)) l1 ∅ !! k)
     + default 0 (fold_left (λ m x, map_add (fl := exact) m (key x) (val x)) l2 ∅ !! k).
Proof.
  rewrite !exact_fold_lookup, lookup_empty, List.filter_app, fmap_app, foldr_Qplus_app.
  cbn [default from_option]. ring.
Qed.

(** X15. Reports add up. The step list of two inputs one after the other is
    the step list of the first followed by that of the second; in exact
    arithmetic the total cost is the sum of the two totals, and so is the
    cost listed under each job name and each workflow name, a name without
    an entry counting for zero. *)
Theorem X15_inputs_add_up a b os days :
  let cost := Cost.CalculateCost (fl := exact) in
  Cost.CostReport.PerStep (cost (a ++ b) os days)
  = Cost.CostReport.PerStep (cost a os days) ++ Cost.CostReport.PerStep (cost b os days)
  ∧ Cost.CostReport.TotalCost (cost (a ++ b) os days)
    == Cost.CostReport.TotalCost (cost a os days) + Cost.CostReport.TotalCost (cost b os days)
  ∧ (∀ n, default 0 (Cost.CostReport.PerJob (cost (a ++ b) os days) !! n)
          == default 0 (Cost.CostReport.PerJob (cost a os days) !! n)
             + default 0 (Cost.CostReport.PerJob (cost b os days) !! n))
  ∧ (∀ w, default 0 (Cost.CostReport.PerWorkflow (cost (a ++ b) os days) !! w)
          == default 0 (Cost.CostReport.PerWorkflow (cost a os days) !! w)
             + default 0 (Cost.CostReport.PerWorkflow (cost b os days) !! w)).
Proof.
  intros cost. unfold cost.
  destruct (CalculateCost_fields (a ++ b) os days) as (-> & -> & -> & ->).
  destruct (CalculateCost_fields a os days) as (-> & -> & -> & ->).
  destruct (CalculateCost_fields b os days) as (-> & -> & -> & ->).
  split; [by rewrite bind_app|]. split; [|split].
  - rewrite !exact_sum, fmap_app. apply foldr_Qplus_app.
  - intros n. rewrite bind_app, List.filter_app. apply exact_fold_app.
  - intros w. apply exact_fold_app.
Qed.

End ExactCost.


(** ** The long-checkout and duplicate-steps rules *)

Section LongCheckout.
Context {fl : Float64} {lib : GoLib}.

Lemma longCheckout_step_app cr j recs s :
  Recommendations.longCheckout_step cr (Analyzer.RunnerRate (Job.Labels j)) recs s
  = recs ++ (if long_checkout_trigger s then [long_checkout_rec cr j s] else []).
Proof.
  unfold Recommendations.longCheckout_step, long_checkout_trigger, mentions.
  fold (step_seconds s).
  destruct (step_seconds s <=? f64_of_int 30)%f64; cbn [negb andb].
  { by rewrite app_nil_r. }
  destruct (strings.Contains _ _); cbn [negb]; [done|by rewrite app_nil_r].
Qed.

Lemma DetectLongCheckout_eq cr :
  Recommendations.DetectLongCheckout cr
  = Recommendations.CostReport.Jobs cr ≫= λ j,
      long_checkout_rec cr j <$> List.filter long_checkout_trigger (Job.Steps j).
Proof.
  unfold Recommendations.DetectLongCheckout.
  rewrite (fold_left_ext _
    (λ recs j, recs ++ (long_checkout_rec cr j <$> List.filter long_checkout_trigger (Job.Steps j)))).
  { by rewrite fold_left_bind. }
  intros recs j. cbv zeta.
  rewrite (fold_left_ext _
    (λ recs s, recs ++ (if long_checkout_trigger s then [long_checkout_rec cr j s] else []))).
  - by rewrite fold_left_bind, bind_filter_map.
  - intros. apply longCheckout_step_app.
Qed.

End LongCheckout.

Lemma exact_long_checkout_trigger (lib : GoLib) (s : Step.t) :
  long_checkout_trigger (fl := exact) s = true
  ↔ mentions "checkout" (Step.Name s) = true
    ∧ (30 * time.Second < time.Sub (Step.CompletedAt s) (Step.StartedAt s))%Z.
Proof.
  unfold long_checkout_trigger, step_seconds.
  rewrite andb_true_iff, negb_true_iff, exact_leb_false, exact_Seconds.
  change time.Second with 1000000000%Z.
  set (d := time.Sub _ _). unfold Qlt. cbn. split; intros [? ?]; split; try done; lia.
Qed.

Lemma exact_long_checkout_savings (lib : GoLib) cr j s :
  (Recommendations.Recommendation.EstimatedMonthlySavings
     (long_checkout_rec (fl := exact) cr j s)
   == (1 # 2)
      * time.Minutes (fl := exact) (time.Sub (Step.CompletedAt s) (Step.StartedAt s))
      * Analyzer.RunnerRate (fl := exact) (Job.Labels j)
      * Recommendations.monthlyScale (fl := exact) (Recommendations.CostReport.Days cr))%Q.
Proof.
  unfold long_checkout_rec, step_seconds.
  cbn [Recommendations.Recommendation.EstimatedMonthlySavings].
  set (d := time.Sub _ _).
  pose proof (exact_Seconds d) as Hs. pose proof (exact_Minutes d) as Hm.
  set (sec := time.Seconds d) in *. set (min := time.Minutes d) in *.
  set (rate := Analyzer.RunnerRate _). set (scale := Recommendations.monthlyScale _).
  cbn [F64 exact f64_mul f64_div f64_of_int f64_const] in *.
  rewrite Hs, Hm. unfold Qdiv. cbn [Qnum Qden inject_Z Qinv].
  assert (d # 1000000000 == (60 # 1) * (d # 60000000000))%Q as Hd
    by (unfold Qeq; cbn; lia).
  rewrite Hd. field.
Qed.

(** X16. [DetectLongCheckout] emits a recommendation exactly for the steps
    whose lowercased name contains "checkout" and whose duration exceeds 30
    seconds, one for each, in the order of the jobs and their steps, with
    rule id "long-checkout" and severity "low"; in exact arithmetic the
    savings are half of the step's minutes times the job's rate times the
    monthly-scale factor. A step "Checkout code" of 45 seconds yields one
    recommendation with positive savings; at 10 seconds it yields none, and
    neither does a step "Build app" of 120 seconds. *)
Theorem X16_long_checkout :
  (∀ (fl : Float64) (lib : GoLib) cr,
     Recommendations.DetectLongCheckout cr
     = Recommendations.CostReport.Jobs cr ≫= λ j,
         long_checkout_rec cr j <$> List.filter long_checkout_trigger (Job.Steps j))
  ∧ (∀ (lib : GoLib) cr j s,
       (long_checkout_trigger (fl := exact) s = true
        ↔ mentions "checkout" (Step.Name s) = true
          ∧ (30 * time.Second < time.Sub (Step.CompletedAt s) (Step.StartedAt s))%Z)
       ∧ (Recommendations.Recommendation.EstimatedMonthlySavings
            (long_checkout_rec (fl := exact) cr j s)
          == (1 # 2)
             * time.Minutes (fl := exact)
                 (time.Sub (Step.CompletedAt s) (Step.StartedAt s))
             * Analyzer.RunnerRate (fl := exact) (Job.Labels j)
             * Recommendations.monthlyScale (fl := exact)
                 (Recommendations.CostReport.Days cr))%Q)
  ∧ (∃ rec,
       Recommendations.DetectLongCheckout (fl := binary64) (lib := go)
         (Scenario.checkout_code 45) = [rec]
       ∧ Recommendations.Recommendation.RuleID rec = "long-checkout"
       ∧ Recommendations.Recommendation.Severity rec = "low"
       ∧ (f64_zero <? Recommendations.Recommendation.EstimatedMonthlySavings rec)%f64 = true
       ∧ Recommendations.Recommendation.Fix rec
         = "Use shallow clone (fetch-depth: 1) for step 'Checkout code' (took 45s). This can cut checkout time by ~50%.")
  ∧ Recommendations.DetectLongCheckout (fl := binary64) (lib := go) (Scenario.checkout_code 10) = []
  ∧ Recommendations.DetectLongCheckout (fl := binary64) (lib := go) Scenario.build_app = [].
Proof.
  split; [intros; apply DetectLongCheckout_eq|].
  split.
  { intros lib cr j s. split.
    - apply exact_long_checkout_trigger.
    - apply exact_long_checkout_savings. }
  split; [|split; by vm_compute].
  eexists. split; [vm_compute; reflexivity|]. by vm_compute.
Qed.


Section Duplicates.
Context {fl : Float64} {lib : GoLib}.

Lemma List_filter_Permutation {X} (p : X → bool) (l1 l2 : list X) :
  l1 ≡ₚ l2 → List.filter p l1 ≡ₚ List.filter p l2.
Proof.
  induction 1 as [|x l1 l2 _ IH|x y l|l1 l2 l3 _ IH1 _ IH2]; cbn [List.filter].
  - done.
  - destruct (p x); by rewrite IH.
  - destruct (p x), (p y); (done || apply Permutation_swap).
  - by rewrite IH1.
Qed.

Lemma stepJobs_occurrences cr :
  Recommendations.stepJobs cr = fold_left record_occurrence (occurrences cr) ∅.
Proof.
  unfold Recommendations.stepJobs, occurrences.
  generalize (∅ : gmap string (gmap string bool)).
  induction (Recommendations.CostReport.Jobs cr) as [|j jobs IH]; intros m; [done|].
  cbn [fold_left]. rewrite bind_cons, fold_left_app, IH. f_equal.
  generalize m. induction (Job.Steps j) as [|s steps IHs]; intros m'; [done|].
  cbn [fold_left fmap list_fmap]. by rewrite IHs.
Qed.

Lemma record_occurrences_dom (occ : list (string * string)) m :
  dom (fold_left record_occurrence occ m) = dom m ∪ list_to_set occ.*1.
Proof.
  revert m. induction occ as [|o occ IH]; intros m; cbn [fold_left].
  { set_solver. }
  rewrite IH. unfold record_occurrence. rewrite dom_insert_L. set_solver.
Qed.

Lemma record_occurrences_inner (occ : list (string * string)) m s :
  dom (default ∅ (fold_left record_occurrence occ m !! s))
  = dom (default ∅ (m !! s))
    ∪ list_to_set (List.filter (λ o, String.eqb o.1 s) occ).*2.
Proof.
  revert m. induction occ as [|o occ IH]; intros m; cbn [fold_left List.filter].
  { set_solver. }
  rewrite IH. unfold record_occurrence.
  destruct (String.eqb_spec o.1 s) as [->|Hne].
  - rewrite lookup_insert_eq. cbn [default from_option id fmap list_fmap].
    rewrite dom_insert_L. set_solver.
  - by rewrite lookup_insert_ne.
Qed.

Lemma stepJobs_dom cr : dom (Recommendations.stepJobs cr) = step_names cr.
Proof.
  rewrite stepJobs_occurrences, record_occurrences_dom. unfold step_names.
  by rewrite dom_empty_L, (left_id_L ∅ (∪)).
Qed.

Lemma stepJobs_size cr s jobs :
  Recommendations.stepJobs cr !! s = Some jobs → size jobs = size (sharing_jobs cr s).
Proof.
  intros Hs. pose proof (record_occurrences_inner (occurrences cr) ∅ s) as Hd.
  rewrite <- stepJobs_occurrences, Hs, lookup_empty in Hd.
  cbn [default from_option id] in Hd. rewrite dom_empty_L, (left_id_L ∅ (∪)) in Hd.
  unfold sharing_jobs. by rewrite <- Hd, size_dom.
Qed.

Lemma duplicate_recs_entry (stepName : string) (jobs : gmap string bool) :
  duplicate_recs (stepName, jobs)
  = if (2 <=? size jobs)%nat then [duplicate_rec stepName (size jobs)] else [].
Proof.
  unfold duplicate_recs, Recommendations.duplicate_entry, duplicate_rec.
  destruct (Nat.ltb_spec (size jobs) 2), (Nat.leb_spec 2 (size jobs)); (done || lia).
Qed.

Lemma DetectDuplicateSteps_names rng cr :
  is_range rng (Recommendations.stepJobs cr) →
  Recommendations.DetectDuplicateSteps rng cr
  ≡ₚ (λ s, duplicate_rec s (size (sharing_jobs cr s)))
       <$> List.filter (λ s, (2 <=? size (sharing_jobs cr s))%nat) (elements (step_names cr)).
Proof.
  unfold is_range. intros Hrng. rewrite DetectDuplicateSteps_eq, Hrng.
  rewrite (Forall_bind_ext _
    (λ e, if (2 <=? size (sharing_jobs cr e.1))%nat
          then [duplicate_rec e.1 (size (sharing_jobs cr e.1))] else [])).
  2:{ apply Forall_forall. intros [s jobs] Hin. apply elem_of_map_to_list in Hin.
      rewrite duplicate_recs_entry. cbn [fst]. by rewrite (stepJobs_size cr s jobs). }
  rewrite bind_filter_map.
  assert ((map_to_list (Recommendations.stepJobs cr)).*1 ≡ₚ elements (step_names cr)) as Hnames.
  { apply NoDup_Permutation.
    - apply NoDup_fst_map_to_list.
    - apply NoDup_elements.
    - intros s. rewrite elem_of_elements, <- stepJobs_dom, elem_of_dom, list_elem_of_fmap.
      split.
      + intros ([s' jobs] & -> & Hin%elem_of_map_to_list). by exists jobs.
      + intros [jobs Hs]. exists (s, jobs). split; [done|]. by apply elem_of_map_to_list. }
  transitivity ((λ s, duplicate_rec s (size (sharing_jobs cr s)))
                  <$> List.filter (λ s, (2 <=? size (sharing_jobs cr s))%nat)
                        (map_to_list (Recommendations.stepJobs cr)).*1).
  - clear Hnames Hrng.
    induction (map_to_list (Recommendations.stepJobs cr)) as [|e l IH]; [done|].
    cbn [List.filter fmap list_fmap].
    destruct (2 <=? _)%nat; cbn [fmap list_fmap]; by rewrite IH.
  - apply fmap_Permutation. by apply List_filter_Permutation.
Qed.

(** X17. [DetectDuplicateSteps] gives one recommendation for each step
    name that occurs in at least two jobs of different names, and no other,
    in the order in which the loop visits the map; the savings are 5 for
    each such job name beyond the first. A step name repeated within one
    job, or shared only by jobs of the same name, is not reported. *)
Theorem X17_duplicate_steps rng cr :
  is_range rng (Recommendations.stepJobs cr) →
  Recommendations.DetectDuplicateSteps rng cr
  ≡ₚ (λ s, duplicate_rec s (size (sharing_jobs cr s)))
       <$> List.filter (λ s, (2 <=? size (sharing_jobs cr s))%nat) (elements (step_names cr)).
Proof. apply DetectDuplicateSteps_names. Qed.

End Duplicates.

Section RuleIds.
Context {fl : Float64} {lib : GoLib}.

Lemma Forall_RuleID (rule : string) (l : list (Recommendations.Recommendation.t F64)) :
  Forall (λ r, Recommendations.Recommendation.RuleID r = rule) l →
  Recommendations.Recommendation.RuleID <$> l = replicate (length l) rule.
Proof. induction 1 as [|r l Hr _ IH]; [done|]. cbn. by rewrite Hr, IH. Qed.

Lemma DetectCacheMiss_rule cr :
  Forall (λ r, Recommendations.Recommendation.RuleID r = "cache-miss" ∧ well_formed r)
         (Recommendations.DetectCacheMiss cr).
Proof.
  rewrite DetectCacheMiss_eq. apply Forall_forall.
  intros r (j & (s & -> & _)%list_elem_of_fmap & _)%list_elem_of_bind.
  split; [done|]. split; [|discriminate]. cbn. unfold rule_severities. set_solver.
Qed.

Lemma DetectLongCheckout_rule cr :
  Forall (λ r, Recommendations.Recommendation.RuleID r = "long-checkout" ∧ well_formed r)
         (Recommendations.DetectLongCheckout cr).
Proof.
  rewrite DetectLongCheckout_eq. apply Forall_forall.
  intros r (j & (s & -> & _)%list_elem_of_fmap & _)%list_elem_of_bind.
  split; [done|]. split; [|discriminate]. cbn. unfold rule_severities. set_solver.
Qed.

Lemma DetectDuplicateSteps_rule rng cr :
  Forall (λ r, Recommendations.Recommendation.RuleID r = "duplicate-steps" ∧ well_formed r)
         (Recommendations.DetectDuplicateSteps rng cr).
Proof.
  rewrite DetectDuplicateSteps_eq. apply Forall_forall.
  intros r ([s jobs] & Hr & _)%list_elem_of_bind. rewrite duplicate_recs_entry in Hr.
  destruct (2 <=? size jobs)%nat; [|by apply elem_of_nil in Hr].
  apply list_elem_of_singleton in Hr as ->.
  split; [done|]. split; [|discriminate]. cbn. unfold rule_severities. set_solver.
Qed.

Lemma DetectExpensiveOS_rule cr :
  Forall (λ r, Recommendations.Recommendation.RuleID r = "expensive-os" ∧ well_formed r)
         (Recommendations.DetectExpensiveOS cr).
Proof.
  rewrite DetectExpensiveOS_eq. apply Forall_forall.
  intros r (j & -> & _)%list_elem_of_fmap.
  split; [done|]. split; [|discriminate]. cbn. unfold rule_severities. set_solver.
Qed.

(** X18. The combined recommendations come grouped by rule, in the order
    cache-miss, long-checkout, duplicate-steps, expensive-os, each group as
    long as its detector's result; every recommendation carries the
    severity of its rule (high, low, medium, high) and a remediation text
    that is not empty. *)
Theorem X18_rules rng cr :
  let recs := Recommendations.GenerateRecommendations rng cr in
  Recommendations.Recommendation.RuleID <$> recs
  = replicate (length (Recommendations.DetectCacheMiss cr)) "cache-miss"
    ++ replicate (length (Recommendations.DetectLongCheckout cr)) "long-checkout"
    ++ replicate (length (Recommendations.DetectDuplicateSteps rng cr)) "duplicate-steps"
    ++ replicate (length (Recommendations.DetectExpensiveOS cr)) "expensive-os"
  ∧ Forall well_formed recs.
Proof.
  intros recs. unfold recs. rewrite GenerateRecommendations_eq.
  pose proof (DetectCacheMiss_rule cr) as H1.
  pose proof (DetectLongCheckout_rule cr) as H2.
  pose proof (DetectDuplicateSteps_rule rng cr) as H3.
  pose proof (DetectExpensiveOS_rule cr) as H4.
  split.
  - rewrite !fmap_app.
    rewrite (Forall_RuleID "cache-miss"), (Forall_RuleID "long-checkout"),
      (Forall_RuleID "duplicate-steps"), (Forall_RuleID "expensive-os"); [done|..];
      (eapply Forall_impl; [eassumption|]); by intros r [? _].
  - rewrite !Forall_app. repeat split;
      (eapply Forall_impl; [eassumption|]); by intros r [_ ?].
Qed.

End RuleIds.

Section ExactSavings.
#[local] Existing Instance exact.
Local Open Scope Q_scope.
Context {lib : GoLib}.

Lemma exact_monthlyScale (days : Z) :
  0 < Recommendations.monthlyScale (fl := exact) days
  ∧ ((0 < days)%Z → Recommendations.monthlyScale (fl := exact) days * inject_Z days == 30).
Proof.
  unfold Recommendations.monthlyScale. destruct (Z.leb_spec days 0) as [Hd|Hd].
  - split; [by vm_compute|lia].
  - cbn [F64 exact f64_div f64_of_int].
    assert (0 < inject_Z days) as Hq by (change 0 with (inject_Z 0); by rewrite <- Zlt_Qlt).
    split.
    + apply Qlt_shift_div_l; [done|]. rewrite Qmult_0_l. by vm_compute.
    + intros _. field. intros H0. rewrite H0 in Hq. by apply Qlt_irrefl in Hq.
Qed.

Lemma exact_step_seconds_pos (s : Step.t) (n : Z) :
  (0 <= n)%Z → (step_seconds s <=? f64_of_int n)%f64 = false → 0 < step_seconds s.
Proof.
  intros Hn Hs%exact_leb_false. eapply Qle_lt_trans; [|exact Hs].
  cbn. change 0 with (inject_Z 0). by rewrite <- Zle_Qle.
Qed.

(** X19. In exact arithmetic every recommendation estimates savings that
    are positive, for every number of observation days and whatever the
    order in which the map of duplicate steps is visited. *)
Theorem X19_positive_savings rng cr :
  Forall (λ r, 0 < Recommendations.Recommendation.EstimatedMonthlySavings r)
         (Recommendations.GenerateRecommendations (fl := exact) rng cr).
Proof.
  rewrite GenerateRecommendations_eq, !Forall_app.
  destruct (exact_monthlyScale (Recommendations.CostReport.Days cr)) as [Hscale _].
  split; [|split; [|split]].
  - rewrite DetectCacheMiss_eq. apply Forall_forall.
    intros r (j & (s & -> & Hs)%list_elem_of_fmap & _)%list_elem_of_bind.
    apply list_elem_of_In, List.filter_In in Hs as [_ [Hs _]%andb_true_iff].
    apply negb_true_iff, (exact_step_seconds_pos s 60) in Hs; [|lia].
    pose proof (exact_rate_pos (Job.Labels j)) as Hr. cbn.
    repeat apply Qmult_lt_0_compat; try done; by vm_compute.
  - rewrite DetectLongCheckout_eq. apply Forall_forall.
    intros r (j & (s & -> & Hs)%list_elem_of_fmap & _)%list_elem_of_bind.
    apply list_elem_of_In, List.filter_In in Hs as [_ [Hs _]%andb_true_iff].
    apply negb_true_iff, (exact_step_seconds_pos s 30) in Hs; [|lia].
    pose proof (exact_rate_pos (Job.Labels j)) as Hr. cbn.
    repeat apply Qmult_lt_0_compat; try done; by vm_compute.
  - rewrite DetectDuplicateSteps_eq. apply Forall_forall.
    intros r ([s jobs] & Hr & _)%list_elem_of_bind. rewrite duplicate_recs_entry in Hr.
    destruct (Nat.leb_spec 2 (size jobs)); [|by apply elem_of_nil in Hr].
    apply list_elem_of_singleton in Hr as ->. cbn.
    apply Qmult_lt_0_compat; [|by vm_compute].
    change 0 with (inject_Z 0). rewrite <- Zlt_Qlt. lia.
  - rewrite DetectExpensiveOS_eq. apply Forall_forall.
    intros r (j & -> & Hj)%list_elem_of_fmap.
    apply list_elem_of_In, List.filter_In in Hj as [_ [_ Hj]%andb_true_iff].
    apply negb_true_iff, exact_leb_false in Hj. cbn.
    apply Qmult_lt_0_compat; [|exact Hscale].
    apply Qmult_lt_0_compat; [|by vm_compute].
    eapply Qle_lt_trans; [|exact Hj]. by vm_compute.
Qed.

End ExactSavings.

(** ** The two engines on the same jobs *)

Section ExactEngines.
#[local] Existing Instance exact.
Local Open Scope Q_scope.
Context {lib : GoLib}.

Lemma resolveRate_RunnerRate {fl : Float64} labels os :
  platform_label os = false →
  Cost.resolveRate labels os = Analyzer.RunnerRate labels.
Proof.
  intros Hos. unfold Cost.resolveRate. destruct labels as [|l rest]; [|done].
  cbn [length Nat.ltb Nat.leb]. rewrite rateForOS_rule, Hos. done.
Qed.

Lemma as_job_cost os (j : Job.t) :
  platform_label os = false →
  counted_job (as_job j) = job_ran j
  ∧ analysis_cost os (as_job j) = job_cost j.
Proof.
  intros Hos. split; [done|]. unfold analysis_cost, job_cost, job_minutes.
  cbn [as_job Cost.JobAnalysis.Duration Cost.JobAnalysis.Labels].
  by rewrite resolveRate_RunnerRate.
Qed.

Lemma as_workflow_cost os (j : Job.t) :
  platform_label os = false →
  workflow_cost os (as_workflow j) == if job_ran j then job_cost j else 0.
Proof.
  intros Hos. unfold workflow_cost. cbn [as_workflow Cost.WorkflowAnalysis.Jobs List.filter].
  destruct (as_job_cost os j Hos) as [-> Hc]. destruct (job_ran j).
  - cbn [fmap list_fmap]. rewrite Hc, exact_sum. cbn [foldr]. cbn [F64 exact]. lra.
  - by vm_compute.
Qed.

Lemma engines_sum os (jobs : list Job.t) :
  platform_label os = false →
  foldr Qplus 0 (workflow_cost os <$> (as_workflow <$> jobs))
  == foldr Qplus 0 (job_cost <$> List.filter job_ran jobs).
Proof.
  intros Hos. induction jobs as [|j jobs IH]; [done|].
  cbn [fmap list_fmap foldr List.filter]. rewrite IH, (as_workflow_cost os j Hos).
  destruct (job_ran j); cbn [fmap list_fmap foldr]; cbn [F64 exact]; lra.
Qed.

Lemma engines_sum_named os (jobs : list Job.t) w :
  platform_label os = false →
  foldr Qplus 0 (workflow_cost os <$>
                 List.filter (λ wf, String.eqb (Cost.WorkflowAnalysis.Name wf) w)
                             (as_workflow <$> jobs))
  == foldr Qplus 0 (job_cost <$>
                    List.filter (λ j, String.eqb (Job.Workflow j) w)
                                (List.filter job_ran jobs)).
Proof.
  intros Hos. induction jobs as [|j jobs IH]; [done|].
  cbn [fmap list_fmap foldr List.filter as_workflow Cost.WorkflowAnalysis.Name].
  pose proof (as_workflow_cost os j Hos) as Hj.
  destruct (String.eqb (Job.Workflow j) w) eqn:Hw, (job_ran j) eqn:Hr;
    cbn [fmap list_fmap foldr List.filter]; rewrite ?Hw;
    cbn [fmap list_fmap foldr List.filter]; rewrite ?IH; cbn [F64 exact] in *;
    lra.
Qed.

Lemma filter_keyed {X Y V} (k1 : X → string) (v1 : X → V) (k2 : Y → string) (v2 : Y → V)
    (l1 : list X) (l2 : list Y) n :
  (λ x, (k1 x, v1 x)) <$> l1 = (λ y, (k2 y, v2 y)) <$> l2 →
  v1 <$> List.filter (λ x, String.eqb (k1 x) n) l1
  = v2 <$> List.filter (λ y, String.eqb (k2 y) n) l2.
Proof.
  revert l2. induction l1 as [|x l1 IH]; intros [|y l2] Heq; try done.
  cbn [fmap list_fmap] in Heq. injection Heq as Hk Hv Hrest.
  cbn [List.filter]. rewrite Hk. destruct (String.eqb (k2 y) n); cbn [fmap list_fmap].
  - rewrite Hv. f_equal. by apply IH.
  - by apply IH.
Qed.

Lemma as_steps_entries os wf (j : Job.t) :
  (λ e, (Cost.StepCostEntry.Step e, Cost.StepCostEntry.Minutes e))
    <$> (step_entry os wf (as_job j) <$> List.filter counted_step (as_step <$> Job.Steps j))
  = (λ s, (Step.Name s, step_minutes s)) <$> List.filter step_ran (Job.Steps j).
Proof.
  induction (Job.Steps j) as [|s steps IH]; [done|].
  cbn [fmap list_fmap List.filter].
  change (counted_step (as_step s)) with (step_ran s).
  destruct (step_ran s); [|exact IH]. cbn [fmap list_fmap]. f_equal. exact IH.
Qed.

Lemma as_workflows_entries os (jobs : list Job.t) :
  (λ e, (Cost.StepCostEntry.Step e, Cost.StepCostEntry.Minutes e))
    <$> ((as_workflow <$> jobs) ≫= workflow_entries os)
  = (λ s, (Step.Name s, step_minutes s)) <$> ran_steps_of jobs.
Proof.
  unfold ran_steps_of. induction jobs as [|j jobs IH]; [done|].
  cbn [fmap list_fmap List.filter]. rewrite bind_cons, fmap_app, IH.
  unfold workflow_entries at 1. cbn [as_workflow Cost.WorkflowAnalysis.Jobs].
  rewrite bind_cons. cbn [mbind list_bind]. rewrite app_nil_r. unfold job_entries.
  change (counted_job (as_job j)) with (job_ran j).
  destruct (job_ran j); [|done].
  rewrite bind_cons, List.filter_app, fmap_app. f_equal.
  cbn [as_job Cost.JobAnalysis.Steps]. apply as_steps_entries.
Qed.

(** X20. The two cost engines agree. Take the fetched jobs as the input of
    the aggregator, each job as a workflow of its own under the name of its
    workflow, with a default OS that names no platform. Then in exact
    arithmetic the aggregator and the narrative report give the same total
    cost and the same cost for every workflow name, a name without an entry
    counting for zero; and the minutes of the aggregator's step entries of
    one step name add up to the minutes the narrative report aggregates
    under that name. *)
Theorem X20_engines_agree rng jobs os days days' :
  platform_label os = false →
  let a := Analyzer.Analyze (fl := exact) rng jobs days in
  let c := Cost.CalculateCost (fl := exact) (as_workflow <$> jobs) os days' in
  Cost.CostReport.TotalCost c == Analyzer.Report.TotalCost a
  ∧ (∀ w, default 0 (Cost.CostReport.PerWorkflow c !! w)
          == default 0 (Analyzer.Report.ByWorkflow a !! w))
  ∧ (∀ n, f64_sum (Cost.StepCostEntry.Minutes <$>
                   List.filter (λ e, String.eqb (Cost.StepCostEntry.Step e) n)
                               (Cost.CostReport.PerStep c))
          == default 0 (Analyzer.stepAgg (Analyzer.scan jobs) !! n)).
Proof.
  intros Hos a c.
  destruct (CalculateCost_fields (as_workflow <$> jobs) os days') as (_ & Hw & Ht & Hs).
  fold c in Hw, Ht, Hs. rewrite Hw, Ht, Hs. clear Hw Ht Hs.
  destruct (scan_fields jobs Analyzer.init) as (_ & Hc & Hb & _ & Hagg & _).
  change (fold_left Analyzer.job_body jobs Analyzer.init) with (Analyzer.scan jobs) in *.
  change (Analyzer.Report.TotalCost a)
    with (Analyzer.Report.TotalCost (Analyzer.r (Analyzer.scan jobs))).
  change (Analyzer.Report.ByWorkflow a)
    with (Analyzer.Report.ByWorkflow (Analyzer.r (Analyzer.scan jobs))).
  rewrite Hc, Hb, Hagg. clear Hc Hb Hagg.
  cbn [Analyzer.init Analyzer.r Analyzer.Report.TotalCost Analyzer.Report.ByWorkflow
       Analyzer.stepAgg].
  split; [|split].
  - rewrite exact_sum. change (@f64_zero exact) with 0. cbn [F64 exact f64_add].
    rewrite exact_sum_from, Qplus_0_l. by apply engines_sum.
  - intros w. rewrite !exact_fold_lookup, lookup_empty. cbn [default from_option].
    rewrite !Qplus_0_l. by apply engines_sum_named.
  - intros n. rewrite exact_fold_lookup, lookup_empty. cbn [default from_option].
    rewrite Qplus_0_l, exact_sum.
    by rewrite (filter_keyed _ _ _ _ _ _ n (as_workflows_entries os jobs)).
Qed.

End ExactEngines.

(** ** The observation days in the recommendations *)

Section Window.
Context {fl : Float64} {lib : GoLib}.

Lemma fmap_bind_ext {X Y Z'} (f : Y → Z') (g1 g2 : X → list Y) (l : list X) :
  (∀ x, f <$> g1 x = f <$> g2 x) → f <$> (l ≫= g1) = f <$> (l ≫= g2).
Proof.
  intros H. induction l as [|x l IH]; [done|]. by rewrite !bind_cons, !fmap_app, H, IH.
Qed.

Lemma advice_window rng jobs d1 d2 :
  let cr1 := {| Recommendations.CostReport.Jobs := jobs;
                Recommendations.CostReport.Days := d1 |} in
  let cr2 := {| Recommendations.CostReport.Jobs := jobs;
                Recommendations.CostReport.Days := d2 |} in
  advice <$> Recommendations.GenerateRecommendations rng cr1
  = advice <$> Recommendations.GenerateRecommendations rng cr2
  ∧ Recommendations.DetectDuplicateSteps rng cr1
    = Recommendations.DetectDuplicateSteps rng cr2.
Proof.
  intros cr1 cr2. split; [|done].
  rewrite !GenerateRecommendations_eq, !fmap_app.
  f_equal; [|f_equal; [|f_equal]].
  - rewrite !DetectCacheMiss_eq. apply fmap_bind_ext. intros j.
    by rewrite <- !list_fmap_compose.
  - rewrite !DetectLongCheckout_eq. apply fmap_bind_ext. intros j.
    by rewrite <- !list_fmap_compose.
  - rewrite !DetectExpensiveOS_eq. by rewrite <- !list_fmap_compose.
Qed.

End Window.

Section ExactWindow.
#[local] Existing Instance exact.
Local Open Scope Q_scope.
Context {lib : GoLib}.

Lemma Forall2_fmap_same {X Y} (R : Y → Y → Prop) (f g : X → Y) (l : list X) :
  (∀ x, R (f x) (g x)) → Forall2 R (f <$> l) (g <$> l).
Proof. intros H. induction l as [|x l IH]; constructor; [apply H|exact IH]. Qed.

Lemma Forall2_bind_same {X Y} (R : Y → Y → Prop) (f g : X → list Y) (l : list X) :
  (∀ x, Forall2 R (f x) (g x)) → Forall2 R (l ≫= f) (l ≫= g).
Proof.
  intros H. induction l as [|x l IH]; [constructor|].
  rewrite !bind_cons. apply Forall2_app; [apply H|exact IH].
Qed.

Lemma savings_window jobs d1 d2 :
  let cr1 := {| Recommendations.CostReport.Jobs := jobs;
                Recommendations.CostReport.Days := d1 |} in
  let cr2 := {| Recommendations.CostReport.Jobs := jobs;
                Recommendations.CostReport.Days := d2 |} in
  Forall2
    (λ r1 r2,
       Recommendations.Recommendation.EstimatedMonthlySavings r1
         * Recommendations.monthlyScale (fl := exact) d2
       == Recommendations.Recommendation.EstimatedMonthlySavings r2
          * Recommendations.monthlyScale (fl := exact) d1)
    (Recommendations.DetectCacheMiss cr1 ++ Recommendations.DetectLongCheckout cr1
     ++ Recommendations.DetectExpensiveOS cr1)
    (Recommendations.DetectCacheMiss cr2 ++ Recommendations.DetectLongCheckout cr2
     ++ Recommendations.DetectExpensiveOS cr2).
Proof.
  intros cr1 cr2. repeat apply Forall2_app.
  - rewrite !DetectCacheMiss_eq. apply Forall2_bind_same. intros j.
    apply Forall2_fmap_same. intros s. cbn. ring.
  - rewrite !DetectLongCheckout_eq. apply Forall2_bind_same. intros j.
    apply Forall2_fmap_same. intros s. cbn. ring.
  - rewrite !DetectExpensiveOS_eq. apply Forall2_fmap_same. intros j. cbn. ring.
Qed.

End ExactWindow.

(** X21. The observation days enter the recommendations only through the
    savings of the three rules that scale them. For two numbers of days the
    recommendations have the same rule ids, severities and remediation
    texts, in the same order; those of the duplicate-steps rule are the
    same, savings included (they are not scaled); and in exact arithmetic
    the savings of the cache-miss, long-checkout and expensive-os rules are
    proportional to the monthly-scale factor, which for a positive number of
    days [d] is [30 / d]. *)
Theorem X21_observation_window :
  (∀ (fl : Float64) (lib : GoLib) rng jobs d1 d2,
     let cr1 := {| Recommendations.CostReport.Jobs := jobs;
                   Recommendations.CostReport.Days := d1 |} in
     let cr2 := {| Recommendations.CostReport.Jobs := jobs;
                   Recommendations.CostReport.Days := d2 |} in
     advice <$> Recommendations.GenerateRecommendations rng cr1
     = advice <$> Recommendations.GenerateRecommendations rng cr2
     ∧ Recommendations.DetectDuplicateSteps rng cr1
       = Recommendations.DetectDuplicateSteps rng cr2)
  ∧ (∀ (lib : GoLib) jobs d1 d2,
       let cr1 := {| Recommendations.CostReport.Jobs := jobs;
                     Recommendations.CostReport.Days := d1 |} in
       let cr2 := {| Recommendations.CostReport.Jobs := jobs;
                     Recommendations.CostReport.Days := d2 |} in
       Forall2
         (λ r1 r2,
            (Recommendations.Recommendation.EstimatedMonthlySavings r1
               * Recommendations.monthlyScale (fl := exact) d2
             == Recommendations.Recommendation.EstimatedMonthlySavings r2
                * Recommendations.monthlyScale (fl := exact) d1)%Q)
         (Recommendations.DetectCacheMiss (fl := exact) cr1
          ++ Recommendations.DetectLongCheckout cr1
          ++ Recommendations.DetectExpensiveOS cr1)
         (Recommendations.DetectCacheMiss (fl := exact) cr2
          ++ Recommendations.DetectLongCheckout cr2
          ++ Recommendations.DetectExpensiveOS cr2))
  ∧ (∀ d : Z, (0 < d)%Z →
       (Recommendations.monthlyScale (fl := exact) d * inject_Z d == 30)%Q).
Proof.
  split; [|split].
  - intros fl lib rng jobs d1 d2. apply advice_window.
  - intros lib jobs d1 d2. apply savings_window.
  - intros d Hd. by apply exact_monthlyScale.
Qed.

(** ** Inputs on which nothing is found *)

Section NothingRan.
Context {fl : Float64} {lib : GoLib}.

Lemma filter_none {X} (p : X → bool) (l : list X) :
  Forall (λ x, p x = false) l → List.filter p l = [].
Proof. induction 1 as [|x l Hx _ IH]; [done|]. cbn [List.filter]. by rewrite Hx. Qed.

(** X22. When no job passes the guard of [Analyze], as for an empty input
    or for jobs none of which completed after it started, the narrative
    report is empty: the total minutes and the total cost are zero, and
    there is no workflow, no top step, no waste finding and no
    suggestion. This holds for a [sort.Slice] that meets its contract and a
    [float64] whose [<] is irreflexive, as that of binary64 is. *)
Theorem X22_nothing_ran {Hspec : GoLibSpec lib} rng jobs days :
  (∀ x : F64, (x <? x)%f64 = false) →
  is_range rng (Analyzer.stepAgg (Analyzer.scan jobs)) →
  Forall (λ j, job_ran j = false) jobs →
  let rep := Analyzer.Analyze rng jobs days in
  Analyzer.Report.TotalMinutes rep = f64_zero
  ∧ Analyzer.Report.TotalCost rep = f64_zero
  ∧ Analyzer.Report.ByWorkflow rep = ∅
  ∧ Analyzer.Report.TopSteps rep = []
  ∧ Analyzer.Report.Waste rep = []
  ∧ Analyzer.Report.Suggestions rep = [].
Proof.
  intros Hirr Hrng Hnone rep.
  pose proof (filter_none job_ran jobs Hnone) as Hran.
  destruct (scan_fields jobs Analyzer.init) as (Hm & Hc & Hw & Hwa & Ha & Hmac).
  change (fold_left Analyzer.job_body jobs Analyzer.init) with (Analyzer.scan jobs) in *.
  unfold ran_steps_of in Ha. rewrite Hran in Hm, Hc, Hw, Ha.
  cbn in Hm, Hc, Hw, Ha.
  assert (jobs ≫= job_waste = []) as Hnil.
  { clear -Hnone. induction Hnone as [|j l Hj _ IH]; [done|].
    rewrite bind_cons, IH. unfold job_waste. by rewrite Hj. }
  rewrite Hnil in Hwa. cbn in Hwa.
  assert (Analyzer.Report.TopSteps rep = []) as Htop.
  { unfold rep. rewrite Analyze_TopSteps. unfold is_range in Hrng. rewrite Ha in *.
    rewrite map_to_list_empty in Hrng. apply Permutation_nil_r in Hrng. rewrite Hrng.
    cbn [fmap list_fmap].
    pose proof (sort_Slice_perm _ Analyzer.byMin []) as Hs.
    apply Permutation_nil_r in Hs. by rewrite Hs. }
  assert (Analyzer.Report.Waste rep = []) as Hwaste by (unfold rep; by rewrite Analyze_Waste).
  do 3 (split; [done|]). split; [exact Htop|]. split; [exact Hwaste|].
  unfold rep. rewrite Analyze_Suggestions_eq. fold rep. rewrite Htop, Hwaste.
  cbn [fmap list_fmap List.filter f64_sum fold_left].
  rewrite Hirr.
  assert (existsb macos_rate jobs = false) as ->; [|done].
  clear -Hnone. induction Hnone as [|j l Hj _ IH]; [done|].
  cbn [existsb]. unfold macos_rate at 1. by rewrite Hj, IH.
Qed.

End NothingRan.

Section NothingCounted.
Context {fl : Float64} {lib : GoLib}.
Hypothesis Hzero : (f64_zero + f64_zero)%f64 = f64_zero.

Lemma fold_zero_workflows (l : list Cost.WorkflowAnalysis.t) os (m : gmap string F64) :
  Forall (λ wf, workflow_cost os wf = f64_zero) l →
  map_Forall (λ _ c, c = f64_zero) m →
  map_Forall (λ _ c, c = f64_zero)
    (fold_left (λ m wf, map_add m (Cost.WorkflowAnalysis.Name wf) (workflow_cost os wf)) l m)
  ∧ fold_left f64_add (workflow_cost os <$> l) f64_zero = f64_zero.
Proof.
  intros Hl. revert m. induction Hl as [|wf l Hwf _ IH]; intros m Hm; [done|].
  cbn [fold_left fmap list_fmap]. rewrite Hwf, Hzero. apply IH.
  unfold map_add. apply map_Forall_insert_2; [|done].
  destruct (m !! Cost.WorkflowAnalysis.Name wf) as [c|] eqn:Hc; cbn [default from_option].
  - by rewrite (Hm _ _ Hc).
  - done.
Qed.

Lemma nothing_counted {Hspec : GoLibSpec lib} analyses os days :
  Forall (λ wf, Forall (λ job, counted_job job = false) (Cost.WorkflowAnalysis.Jobs wf))
         analyses →
  let r := Cost.CalculateCost analyses os days in
  Cost.CostReport.PerStep r = []
  ∧ Cost.CostReport.TopSteps r = []
  ∧ Cost.CostReport.PerJob r = ∅
  ∧ Cost.CostReport.TotalCost r = f64_zero
  ∧ map_Forall (λ _ c, c = f64_zero) (Cost.CostReport.PerWorkflow r)
  ∧ (∀ wf, wf ∈ analyses →
       Cost.CostReport.PerWorkflow r !! Cost.WorkflowAnalysis.Name wf = Some f64_zero).
Proof.
  intros Hnone r.
  destruct (CalculateCost_fields analyses os days) as (Hj & Hw & Ht & Hs). fold r in Hj, Hw, Ht, Hs.
  assert (List.filter counted_job (analyses ≫= Cost.WorkflowAnalysis.Jobs) = []) as Hjobs.
  { apply filter_none, Forall_forall. intros job (wf & Hjob & Hwf)%list_elem_of_bind.
    rewrite Forall_forall in Hnone. specialize (Hnone wf Hwf).
    rewrite Forall_forall in Hnone. by apply Hnone. }
  assert (Forall (λ wf, workflow_cost os wf = f64_zero) analyses) as Hcost.
  { eapply Forall_impl; [exact Hnone|]. intros wf Hwf. unfold workflow_cost.
    by rewrite (filter_none counted_job _ Hwf). }
  assert (Cost.CostReport.PerStep r = []) as Hsteps.
  { rewrite Hs. clear -Hnone. induction Hnone as [|wf l Hwf _ IH]; [done|].
    rewrite bind_cons, IH, app_nil_r. unfold workflow_entries.
    induction Hwf as [|job jobs Hjob _ IHj]; [done|].
    rewrite bind_cons, IHj, app_nil_r. unfold job_entries. by rewrite Hjob. }
  destruct (fold_zero_workflows analyses os ∅ Hcost (map_Forall_empty _)) as [Hall Hsum].
  split; [exact Hsteps|]. split.
  - pose proof (CalculateCost_TopSteps analyses os days) as Htop. fold r in Htop.
    cbv zeta in Htop. rewrite Htop, Hsteps.
    pose proof (sort_Slice_perm _ Cost.byCost []) as Hp.
    apply Permutation_nil_r in Hp. by rewrite Hp.
  - split; [by rewrite Hj, Hjobs|]. split; [by rewrite Ht|].
    assert (map_Forall (λ _ c, c = f64_zero) (Cost.CostReport.PerWorkflow r)) as Hzeros
      by (by rewrite Hw).
    split; [exact Hzeros|]. intros wf Hwf.
    destruct (CalculateCost_entries analyses os days) as [Hlisted _]. fold r in Hlisted.
    destruct (proj2 (Hlisted (Cost.WorkflowAnalysis.Name wf))) as [c Hc]; [by exists wf|].
    by rewrite Hc, (Hzeros _ _ Hc).
Qed.

End NothingCounted.

(** X24. When no job of the aggregator's input passes its guard, the step
    list and the top steps are empty, no job name is listed, the total
    cost is zero, every workflow of the input is listed in the per-workflow
    map, and every cost listed there is zero: in exact arithmetic and on
    binary64, where adding zero to zero gives zero. *)
Theorem X24_nothing_counted :
  (∀ (lib : GoLib), GoLibSpec lib → ∀ analyses os days,
     Forall (λ wf, Forall (λ job, counted_job (fl := exact) job = false)
                          (Cost.WorkflowAnalysis.Jobs wf)) analyses →
     let r := Cost.CalculateCost (fl := exact) analyses os days in
     Cost.CostReport.PerStep r = []
     ∧ Cost.CostReport.TopSteps r = []
     ∧ Cost.CostReport.PerJob r = ∅
     ∧ Cost.CostReport.TotalCost r = f64_zero
     ∧ map_Forall (λ _ c, c = f64_zero) (Cost.CostReport.PerWorkflow r)
     ∧ (∀ wf, wf ∈ analyses →
          Cost.CostReport.PerWorkflow r !! Cost.WorkflowAnalysis.Name wf
          = Some f64_zero))
  ∧ (∀ (lib : GoLib), GoLibSpec lib → ∀ analyses os days,
       Forall (λ wf, Forall (λ job, counted_job (fl := binary64) job = false)
                            (Cost.WorkflowAnalysis.Jobs wf)) analyses →
       let r := Cost.CalculateCost (fl := binary64) analyses os days in
       Cost.CostReport.PerStep r = []
       ∧ Cost.CostReport.TopSteps r = []
       ∧ Cost.CostReport.PerJob r = ∅
       ∧ Cost.CostReport.TotalCost r = f64_zero
       ∧ map_Forall (λ _ c, c = f64_zero) (Cost.CostReport.PerWorkflow r)
       ∧ (∀ wf, wf ∈ analyses →
            Cost.CostReport.PerWorkflow r !! Cost.WorkflowAnalysis.Name wf
            = Some f64_zero)).
Proof.
  split.
  - intros lib Hspec analyses os days. by apply nothing_counted.
  - intros lib Hspec analyses os days. by apply nothing_counted.
Qed.

Section NoAdvice.
Context {fl : Float64} {lib : GoLib}.

Lemma filter_nil_iff {X} (p : X → bool) (l : list X) :
  List.filter p l = [] ↔ Forall (λ x, p x = false) l.
Proof.
  split; [|apply filter_none].
  induction l as [|x l IH]; [constructor|]. cbn [List.filter].
  destruct (p x) eqn:Hp; [done|]. intros Hl. constructor; [done|by apply IH].
Qed.

Lemma bind_nil_iff {X Y} (f : X → list Y) (l : list X) :
  l ≫= f = [] ↔ Forall (λ x, f x = []) l.
Proof.
  induction l as [|x l IH]; [by split; [constructor|]|].
  rewrite bind_cons. split.
  - intros [Hx Hl]%app_eq_nil. constructor; [done|by apply IH].
  - intros Hl. inversion_clear Hl as [|? ? Hx Hl']. rewrite Hx. by apply IH.
Qed.

Lemma sharing_jobs_absent cr s : s ∉ step_names cr → sharing_jobs cr s = ∅.
Proof.
  unfold step_names, sharing_jobs. intros Hs.
  rewrite (filter_none (λ o, String.eqb o.1 s)); [done|].
  apply Forall_forall. intros o Ho. apply String.eqb_neq. intros Heq. apply Hs.
  apply elem_of_list_to_set, list_elem_of_fmap. by exists o.
Qed.

(** X23. There is no recommendation exactly when there is no trigger: no
    step triggers the cache-miss or the long-checkout rule, no job triggers
    the expensive-os rule, and no step name occurs in two jobs of different
    names. *)
Theorem X23_no_recommendations rng cr :
  is_range rng (Recommendations.stepJobs cr) →
  Recommendations.GenerateRecommendations rng cr = []
  ↔ Forall (λ j, Forall (λ s, cache_miss_trigger s = false
                              ∧ long_checkout_trigger s = false) (Job.Steps j)
                 ∧ expensive_os_trigger j = false)
           (Recommendations.CostReport.Jobs cr)
    ∧ (∀ s, size (sharing_jobs cr s) < 2)%nat.
Proof.
  intros Hrng. rewrite GenerateRecommendations_eq.
  rewrite DetectCacheMiss_eq, DetectLongCheckout_eq, DetectExpensiveOS_eq.
  assert (Recommendations.DetectDuplicateSteps rng cr = []
          ↔ ∀ s, (size (sharing_jobs cr s) < 2)%nat) as Hdup.
  { split.
    - intros Hnil s. pose proof (DetectDuplicateSteps_names rng cr Hrng) as Hp. rewrite Hnil in Hp.
      apply Permutation_nil_l in Hp. symmetry in Hp.
      apply fmap_nil_inv, filter_nil_iff in Hp.
      destruct (decide (s ∈ step_names cr)) as [Hs|Hs].
      + rewrite Forall_forall in Hp. specialize (Hp s). rewrite elem_of_elements in Hp.
        apply Nat.leb_gt. by apply Hp.
      + rewrite sharing_jobs_absent by done. rewrite size_empty. lia.
    - intros Hall. apply Permutation_nil_r. rewrite (DetectDuplicateSteps_names rng cr Hrng).
      rewrite (filter_none (λ s, (2 <=? size (sharing_jobs cr s))%nat)); [done|].
      apply Forall_forall. intros s _. apply Nat.leb_gt, Hall. }
  split.
  - intros (Hc & (Hl & (Hd & He)%app_eq_nil)%app_eq_nil)%app_eq_nil.
    split; [|by apply Hdup].
    rewrite bind_nil_iff, Forall_forall in Hc. rewrite bind_nil_iff, Forall_forall in Hl.
    apply fmap_nil_inv, filter_nil_iff in He. rewrite Forall_forall in He.
    apply Forall_forall. intros j Hj. split; [|by apply He].
    specialize (Hc j Hj). specialize (Hl j Hj). cbn beta in Hc, Hl.
    apply fmap_nil_inv, filter_nil_iff in Hc. apply fmap_nil_inv, filter_nil_iff in Hl.
    rewrite Forall_forall in Hc, Hl. apply Forall_forall. intros s Hs. split; auto.
  - intros [Hj Hd]. rewrite Forall_forall in Hj.
    apply Hdup in Hd. rewrite Hd.
    assert (∀ (f : Job.t → list (Recommendations.Recommendation.t F64)),
              (∀ j, j ∈ Recommendations.CostReport.Jobs cr → f j = []) →
              Recommendations.CostReport.Jobs cr ≫= f = []) as Hbind.
    { intros f Hf. apply bind_nil_iff, Forall_forall. exact Hf. }
    rewrite !Hbind.
    + rewrite (filter_none expensive_os_trigger); [done|].
      apply Forall_forall. intros j Hin. by destruct (Hj j Hin) as [_ ?].
    + intros j Hin. destruct (Hj j Hin) as [Hs _].
      rewrite (filter_none long_checkout_trigger); [done|].
      eapply Forall_impl; [exact Hs|]. by intros s [_ ?].
    + intros j Hin. destruct (Hj j Hin) as [Hs _].
      rewrite (filter_none cache_miss_trigger); [done|].
      eapply Forall_impl; [exact Hs|]. by intros s [? _].
Qed.

End NoAdvice.

(** ** The engine on the inputs of the test suite *)

(** TestCalculateCost_LinuxPricing *)
Example test_LinuxPricing :
  let report := Cost.CalculateCost (fl := binary64) (lib := go) Scenario.linux "linux" 7 in
  let expectedJobCost : float := (f64_of_int (Float64 := binary64) 10 * Cost.RateLinux)%f64 in
  let epsilon : float := f64_const (fl := binary64) 0.001 in
  Scenario.approxEqual (Cost.CostReport.TotalCost report) expectedJobCost epsilon = true
  ∧ (λ c, Scenario.approxEqual c expectedJobCost epsilon)
      <$> Cost.CostReport.PerJob report !! "build" = Some true
  ∧ (λ c, Scenario.approxEqual c expectedJobCost epsilon)
      <$> Cost.CostReport.PerWorkflow report !! "CI" = Some true
  ∧ Cost.StepCostEntry.Step <$> Cost.CostReport.PerStep report = ["checkout"; "compile"].
Proof. by_computation. Qed.

(** TestCalculateCost_MultiWorkflowAggregation *)
Example test_MultiWorkflowAggregation :
  let report :=
    Cost.CalculateCost (fl := binary64) (lib := go) Scenario.three_tiers "linux" 7 in
  let expectedTotal : float :=
    (f64_of_int (Float64 := binary64) 10 * Cost.RateLinux + f64_of_int 5 * Cost.RateMacOS
     + f64_of_int 2 * Cost.RateWindows)%f64 in
  Scenario.approxEqual (Cost.CostReport.TotalCost report) expectedTotal
    (f64_const (fl := binary64) 0.001) = true
  ∧ Cost.StepCostEntry.Step <$> Cost.CostReport.TopSteps report
    = ["deploy"; "compile"; "eslint"; "checkout"]
  ∧ Scenario.approxEqual (Cost.CostReport.ProjectedCost30 report)
      (f64_div (Float64 := binary64) expectedTotal (f64_of_int 7) * f64_of_int 30)%f64
      (f64_const (fl := binary64) 0.01) = true.
Proof. by_computation. Qed.

(** TestCalculateCost_TopStepsLimit *)
Example test_TopStepsLimit :
  let report :=
    Cost.CalculateCost (fl := binary64) (lib := go) Scenario.seven_steps "linux" 1 in
  Cost.StepCostEntry.Step <$> Cost.CostReport.TopSteps report
  = ["step7"; "step6"; "step5"; "step4"; "step3"]
  ∧ length (Cost.CostReport.PerStep report) = 7%nat.
Proof. by_computation. Qed.

(** TestAnalyzeCostCalculation *)
Example test_AnalyzeCostCalculation :
  let r := Analyzer.Analyze (fl := binary64) (lib := go) Scenario.forwards
             Scenario.three_jobs 7 in
  f64_format 4 (Analyzer.Report.TotalCost r) = "0.5120"
  ∧ f64_format 0 (Analyzer.Report.TotalMinutes r) = "17"
  ∧ f64_format 2 (Analyzer.Report.MonthlyCost r) = "2.19"
  ∧ size (Analyzer.Report.ByWorkflow r) = 2%nat
  ∧ Analyzer.Report.Suggestions r
    = [ "macOS runners cost 10x Linux â€” switch where possible" ].
Proof. by_computation. Qed.

(** TestRunnerRate *)
Example test_RunnerRate :
  (λ labels, f64_format 3 (Analyzer.RunnerRate (fl := binary64) (lib := go) labels))
    <$> [ ["ubuntu-latest"]; ["ubuntu-22.04"]; ["macos-latest"]; ["macos-13"];
          ["windows-latest"]; ["self-hosted"; "linux"]; [] ]
  = [ "0.008"; "0.008"; "0.080"; "0.080"; "0.016"; "0.008"; "0.008" ].
Proof. by_computation. Qed.

(** Labels beyond ASCII: [strings.ToLower] lowers every rune, and reads a
    byte that starts no encoding as U+FFFD. *)
Example test_ToLower_runes :
  strings.ToLower (lib := go) "WİNDOWS-2022" = "windows-2022"
  ∧ strings.ToLower (lib := go) "MACOS-Ü" = "macos-ü"
  ∧ strings.ToLower (lib := go) "ΜΑΚΟΣ Ворота" = "μακοσ ворота"
  ∧ utf8.bytes (strings.ToLower (lib := go) (utf8.of_bytes [77; 255; 65]%Z))
    = [109; 239; 191; 189; 97]%Z
  ∧ (λ labels, f64_format 3 (Analyzer.RunnerRate (fl := binary64) (lib := go) labels))
      <$> [ ["WİNDOWS-2022"]; ["MACOS-Ü"]; ["Ubuntu-é"] ]
    = [ "0.016"; "0.080"; "0.008" ].
Proof. by_computation. Qed.

(** TestDetectDuplicateSteps_Triggers_ThreeJobs *)
Example test_DuplicateSteps_ThreeJobs :
  (λ rec, (Recommendations.Recommendation.RuleID rec,
           f64_format 1 (Recommendations.Recommendation.EstimatedMonthlySavings rec)))
    <$> Recommendations.DetectDuplicateSteps (fl := binary64) Scenario.forwards
          Scenario.three_setups
  = [ ("duplicate-steps", "10.0") ].
Proof. by_computation. Qed.

(** TestDetectExpensiveOS_MonthlySavingsCalculation *)
Example test_ExpensiveOS_MonthlySavings :
  (λ rec, Scenario.approxEqual
            (Recommendations.Recommendation.EstimatedMonthlySavings rec)
            (f64_const (fl := binary64) 0.72) (f64_const (fl := binary64) 0.01))
    <$> Recommendations.DetectExpensiveOS (fl := binary64) (lib := go) Scenario.mac_job
  = [ true ].
Proof. by_computation. Qed.

(** TestGenerateRecommendations_Combined *)
Example test_GenerateRecommendations_Combined :
  Recommendations.Recommendation.RuleID
    <$> Recommendations.GenerateRecommendations (fl := binary64) (lib := go)
          Scenario.forwards
          {| Recommendations.CostReport.Jobs := Scenario.combined;
             Recommendations.CostReport.Days := 7 |}
  = [ "cache-miss"; "cache-miss"; "long-checkout"; "duplicate-steps"; "expensive-os" ].
Proof. by_computation. Qed.

Example test_AnalyzeWasteDetection :
  let r := Analyzer.Analyze (fl := binary64) (lib := go) Scenario.forwards Scenario.waste_detection 7 in
  (λ w, (Analyzer.WasteItem.Type_ w, Analyzer.WasteItem.Detail w)) <$> Analyzer.Report.Waste r
  = [ ("retry", "Failed: build"); ("cache-miss", "Restore npm cache");
      ("slow-deps", "npm install (5.0m)") ]
  ∧ Analyzer.Report.Suggestions r = [ "Fix 3 issues to save ~$0.09/week" ].
Proof. by_computation. Qed.

Example test_AnalyzeMacOSSuggestion :
  Analyzer.Report.Suggestions
    (Analyzer.Analyze (fl := binary64) (lib := go) Scenario.forwards Scenario.ios 7)
  = [ macos_hint ].
Proof. by_computation. Qed.

Example test_AnalyzeEmptyJobs :
  let r := Analyzer.Analyze (fl := binary64) (lib := go) Scenario.forwards [] 7 in
  Analyzer.Report.TotalCost r = f64_zero ∧ Analyzer.Report.TotalMinutes r = f64_zero
  ∧ Analyzer.Report.ByWorkflow r = ∅.
Proof. by_computation. Qed.

Example test_DuplicateSteps_Triggers :
  Recommendations.DetectDuplicateSteps (fl := binary64) Scenario.forwards Scenario.two_builds
  = [ duplicate_rec "Run tests" 2 ].
Proof. by_computation. Qed.

(** ** The claims on concrete inputs *)

(** A job named "noop" is in the input, and the per-job map of the report
    has no entry for it. *)
Lemma C1_no_entry :
  let r := Cost.CalculateCost (fl := binary64) (lib := go)
             Scenario.zero_duration "linux" 7 in
  (∃ wf job, wf ∈ Scenario.zero_duration
             ∧ job ∈ Cost.WorkflowAnalysis.Jobs wf
             ∧ Cost.JobAnalysis.Name job = "noop")
  ∧ Cost.CostReport.PerJob r !! "noop" = None
  ∧ Cost.CostReport.PerJob
      (Cost.CalculateCost (fl := exact) (lib := go)
         Scenario.zero_duration "linux" 7) !! "noop" = None.
Proof.
  split; [|by_computation].
  eexists _, _. split; [by left|]. split; [by left|]. done.
Qed.


(** With 0 observation days the monthly-scale factor is not 30, and the
    monthly estimate of the narrative report is not the total cost times
    30. *)
Lemma C3_not_one_day :
  let a := Analyzer.Analyze (fl := binary64) (lib := go) Scenario.forwards
             Scenario.three_jobs 0 in
  (Recommendations.monthlyScale (fl := binary64) 0 =? f64_of_int 30)%f64 = false
  ∧ (Recommendations.monthlyScale (fl := binary64) 0 =? f64_of_int 1)%f64 = true
  ∧ (Analyzer.Report.MonthlyCost a
     =? Analyzer.Report.TotalCost a * f64_of_int 30)%f64 = false
  ∧ (Analyzer.Report.MonthlyCost a =? f64_zero)%f64 = true
  ∧ ¬ (Recommendations.monthlyScale (fl := exact) 0 == 30)%Q.
Proof. by_computation. Qed.

(** In binary64 the sum of the per-job costs is not the total cost, in
    either order of the two entries. *)
Lemma C5_rounding :
  let r := Cost.CalculateCost (fl := binary64) (lib := go)
             Scenario.repeated_job "linux" 7 in
  Forall (λ js : list (string * float),
            (f64_sum (fl := binary64) js.*2 =? Cost.CostReport.TotalCost r)%f64 = false)
         (permutations (map_to_list (Cost.CostReport.PerJob r)))
  ∧ length (permutations (map_to_list (Cost.CostReport.PerJob r))) = 2%nat.
Proof.
  intros r. split; [|by_computation].
  vm_compute. repeat constructor.
Qed.

(** A job whose outcome is failure, and no finding for it. *)
Lemma C8_no_finding :
  Forall (λ j, Job.Conclusion j = "failure") Scenario.failed_at_once
  ∧ length Scenario.failed_at_once = 1%nat
  ∧ Analyzer.Report.Waste
      (Analyzer.Analyze (fl := binary64) (lib := go) Scenario.forwards
         Scenario.failed_at_once 7) = []
  ∧ Analyzer.Report.Waste
      (Analyzer.Analyze (fl := exact) (lib := go) Scenario.forwards
         Scenario.failed_at_once 7) = [].
Proof.
  split; [by repeat constructor|]. by_computation.
Qed.

(** With 0 observation days the savings of the cache-miss rule are not 70%
    of the step's minutes times the rate times 30 over 1: for the step of 90
    seconds on a Linux runner they are 0.0084, not 0.252. And on binary64
    the code's product is not the one the words describe, also for a
    positive number of days: for a step of 100 seconds over 7 days they
    differ in the last place. *)
Lemma C7_zero_days :
  let cr := Scenario.npm_install_over 90 0 in
  let j := Scenario.mkRecJob "build" "CI" ["ubuntu-latest"] 5
             [ Scenario.mkRecStep "npm install" 90 "success" ] in
  let s := Scenario.mkRecStep "npm install" 90 "success" in
  Recommendations.CostReport.Jobs cr = [j] ∧ Job.Steps j = [s]
  ∧ Recommendations.DetectCacheMiss (fl := binary64) (lib := go) cr
    = [ cache_miss_rec (fl := binary64) (lib := go) cr j s ]
  ∧ f64_format 4 (Recommendations.Recommendation.EstimatedMonthlySavings
                    (cache_miss_rec (fl := binary64) (lib := go) cr j s)) = "0.0084"
  ∧ f64_format 4 (spec_cache_miss_savings (fl := binary64) (lib := go) cr j s) = "0.2520"
  ∧ (Recommendations.Recommendation.EstimatedMonthlySavings
       (cache_miss_rec (fl := exact) (lib := go) cr j s) == 21 # 2500)%Q
  ∧ (spec_cache_miss_savings (fl := exact) (lib := go) cr j s == 63 # 250)%Q
  ∧ ¬ (Recommendations.Recommendation.EstimatedMonthlySavings
         (cache_miss_rec (fl := exact) (lib := go) cr j s)
       == spec_cache_miss_savings (fl := exact) (lib := go) cr j s)%Q
  ∧ (let cr := Scenario.npm_install_over 100 7 in
     let s := Scenario.mkRecStep "npm install" 100 "success" in
     let j := Scenario.mkRecJob "build" "CI" ["ubuntu-latest"] 5 [s] in
     Recommendations.DetectCacheMiss (fl := binary64) (lib := go) cr
     = [ cache_miss_rec (fl := binary64) (lib := go) cr j s ]
     ∧ (Recommendations.Recommendation.EstimatedMonthlySavings
          (cache_miss_rec (fl := binary64) (lib := go) cr j s)
        =? spec_cache_miss_savings (fl := binary64) (lib := go) cr j s)%f64 = false).
Proof. by_computation. Qed.

(** A job labelled for Windows and for macOS that ran for 3 minutes, or for
    5: a label contains "macos", and the detector does not flag the job. *)
Lemma C10_short_job :
  Forall (λ mins,
            let j := Scenario.two_platforms_for mins in
            Job.Labels j = ["windows-latest"; "macos-13"]
            ∧ Recommendations.isMac (lib := go) (Job.Labels j) = true
            ∧ Recommendations.DetectExpensiveOS (fl := binary64) (lib := go)
                {| Recommendations.CostReport.Jobs := [j];
                   Recommendations.CostReport.Days := 30 |} = []
            ∧ Recommendations.DetectExpensiveOS (fl := exact) (lib := go)
                {| Recommendations.CostReport.Jobs := [j];
                   Recommendations.CostReport.Days := 30 |} = [])
         [3; 5]%Z.
Proof. repeat constructor. Qed.

Lemma forwards_range {V} (m : gmap string V) : is_range Scenario.forwards m.
Proof. unfold is_range, Scenario.forwards. reflexivity. Qed.

Lemma backwards_range {V} (m : gmap string V) : is_range Scenario.backwards m.
Proof. unfold is_range, Scenario.backwards. apply reverse_Permutation. Qed.

(** Two runs on one input, the second visiting the maps in the reverse
    order: the recommendations come in another order, and so do the top
    steps of the narrative report. *)
Lemma C9_two_runs :
  let cr := {| Recommendations.CostReport.Jobs := Scenario.shared_steps;
               Recommendations.CostReport.Days := 7 |} in
  let agg := Analyzer.stepAgg
               (Analyzer.scan (fl := binary64) (lib := go) Scenario.shared_steps) in
  is_range Scenario.forwards (Recommendations.stepJobs cr)
  ∧ is_range Scenario.backwards (Recommendations.stepJobs cr)
  ∧ Recommendations.GenerateRecommendations (fl := binary64) (lib := go)
      Scenario.forwards cr
    ≠ Recommendations.GenerateRecommendations (fl := binary64) (lib := go)
        Scenario.backwards cr
  ∧ is_range Scenario.forwards agg
  ∧ is_range Scenario.backwards agg
  ∧ Analyzer.Analyze (fl := binary64) (lib := go) Scenario.forwards
      Scenario.shared_steps 7
    ≠ Analyzer.Analyze (fl := binary64) (lib := go) Scenario.backwards
        Scenario.shared_steps 7.
Proof.
  intros cr agg.
  split; [apply forwards_range|]. split; [apply backwards_range|].
  split.
  { intros Heq.
    apply (f_equal (fmap (M := list) Recommendations.Recommendation.Fix)) in Heq.
    vm_compute in Heq. discriminate Heq. }
  split; [apply forwards_range|]. split; [apply backwards_range|].
  intros Heq.
  apply (f_equal (λ a, Analyzer.StepCost.Name <$> Analyzer.Report.TopSteps a)) in Heq.
  vm_compute in Heq. discriminate Heq.
Qed.


Lemma C3_nonpositive_days_witness :
  (0 ≤ 0)%Z
  ∧ Recommendations.monthlyScale (fl := binary64) 0 = f64_of_int 1
  ∧ Analyzer.Report.MonthlyCost
      (Analyzer.Analyze (fl := binary64) (lib := go) Scenario.forwards
         Scenario.three_jobs 0) = f64_zero
  ∧ Cost.CalculateCost (fl := binary64) (lib := go) Scenario.three_tiers "linux" 0
    = Cost.CalculateCost (fl := binary64) (lib := go) Scenario.three_tiers "linux" 1.
Proof.
  assert (0 ≤ 0)%Z as H0 by lia.
  destruct (@C3_nonpositive_days binary64 go Scenario.forwards Scenario.three_jobs
              Scenario.three_tiers "linux" 0 H0) as (H1 & H2 & H3 & _).
  auto.
Defined.

Lemma C5_totals_agree_witness :
  let r := Cost.CalculateCost (fl := exact) (lib := go) Scenario.three_tiers "linux" 7 in
  let ws := map_to_list (Cost.CostReport.PerWorkflow r) in
  let js := reverse (map_to_list (Cost.CostReport.PerJob r)) in
  ws ≡ₚ map_to_list (Cost.CostReport.PerWorkflow r)
  ∧ js ≡ₚ map_to_list (Cost.CostReport.PerJob r)
  ∧ (Cost.CostReport.TotalCost r == f64_sum (fl := exact) ws.*2)%Q
  ∧ (Cost.CostReport.TotalCost r == f64_sum (fl := exact) js.*2)%Q.
Proof.
  intros r ws js.
  assert (ws ≡ₚ map_to_list (Cost.CostReport.PerWorkflow r)) as Hws by reflexivity.
  assert (js ≡ₚ map_to_list (Cost.CostReport.PerJob r)) as Hjs
    by apply reverse_Permutation.
  destruct (@C5_totals_agree go Scenario.three_tiers "linux" 7 ws js Hws Hjs)
    as [H1 H2].
  auto.
Defined.

(** The input of zero duration: the total is 0 and so is the projection. *)
Lemma C6_projection_witness :
  let r := Cost.CalculateCost (fl := exact) (lib := go)
             Scenario.zero_duration "linux" 7 in
  (Cost.CostReport.TotalCost r == 0)%Q
  ∧ (Cost.CostReport.ProjectedCost30 r == 0)%Q.
Proof.
  intros r.
  assert (Cost.CostReport.TotalCost r == 0)%Q as H0 by by_computation.
  destruct C6_projection as [_ Hexact].
  destruct (Hexact go Scenario.zero_duration "linux" 7%Z) as [_ Hz].
  split; [exact H0|]. exact (Hz H0).
Defined.

(** A job that failed after 8 minutes on a Linux runner: one retry finding,
    for its whole cost. *)
Lemma C8_failed_jobs_witness :
  let j := Scenario.mkJob "build" "CI" "failure" ["ubuntu-latest"] 8 [] in
  j ∈ Scenario.failed_late
  ∧ Job.Conclusion j = "failure"
  ∧ (job_minutes (fl := binary64) j <=? f64_zero)%f64 = false
  ∧ {| Analyzer.WasteItem.Type_ := "retry";
       Analyzer.WasteItem.Detail := "Failed: build";
       Analyzer.WasteItem.Cost :=
         (job_minutes j * Analyzer.RunnerRate (lib := go) (Job.Labels j))%f64 |}
    ∈ Analyzer.Report.Waste
        (Analyzer.Analyze (fl := binary64) (lib := go) Scenario.forwards
           Scenario.failed_late 7).
Proof.
  intros j.
  assert (j ∈ Scenario.failed_late) as Hin by (by left).
  assert (Job.Conclusion j = "failure") as Hf by reflexivity.
  assert ((job_minutes (fl := binary64) j <=? f64_zero)%f64 = false) as Hd
    by by_computation.
  destruct C8_failed_jobs as [Hgen _].
  destruct (Hgen binary64 go Scenario.forwards Scenario.failed_late 7%Z) as [_ Hall].
  split; [exact Hin|]. split; [exact Hf|]. split; [exact Hd|].
  exact (Hall j Hin Hf Hd).
Defined.

(** The combined input of the test suite on binary64, visited forwards and
    backwards: its two step names have different aggregated minutes. The
    report is the one of the library the program runs with. *)
Lemma C9_runs_witness :
  let cr := {| Recommendations.CostReport.Jobs := Scenario.combined;
               Recommendations.CostReport.Days := 7 |} in
  let agg := Analyzer.stepAgg
               (Analyzer.scan (fl := binary64) (lib := go_short) Scenario.combined) in
  GoSortSpec go_short ∧ Float64Laws binary64
  ∧ is_range Scenario.forwards (Recommendations.stepJobs cr)
  ∧ is_range Scenario.backwards (Recommendations.stepJobs cr)
  ∧ is_range Scenario.forwards agg
  ∧ is_range Scenario.backwards agg
  ∧ no_ties (Analyzer.byMin (fl := binary64))
            (step_cost (fl := binary64) <$> map_to_list agg)
  ∧ Analyzer.Analyze (fl := binary64) (lib := go_short) Scenario.forwards
      Scenario.combined 7
    = Analyzer.Analyze (fl := binary64) (lib := go_short) Scenario.backwards
        Scenario.combined 7
  ∧ Analyzer.Analyze (fl := binary64) (lib := go_short) Scenario.forwards
      Scenario.combined 7
    = Analyzer.Analyze (fl := binary64) (lib := go) Scenario.forwards
        Scenario.combined 7.
Proof.
  intros cr agg.
  assert (no_ties (Analyzer.byMin (fl := binary64))
                  (step_cost (fl := binary64) <$> map_to_list agg)) as Hties.
  { apply no_tiesb_sound. vm_compute. reflexivity. }
  destruct (@C9_runs binary64 go_short go_short_sort_spec binary64_laws
              Scenario.forwards Scenario.backwards Scenario.forwards Scenario.backwards
              cr Scenario.combined 7
              (forwards_range _) (backwards_range _)
              (forwards_range _) (backwards_range _)) as (_ & _ & Hsame).
  split; [exact go_short_sort_spec|]. split; [exact binary64_laws|].
  split; [apply forwards_range|]. split; [apply backwards_range|].
  split; [apply forwards_range|]. split; [apply backwards_range|].
  split; [exact Hties|]. split; [exact (Hsame Hties)|]. by vm_compute.
Defined.

(** A job of 10 minutes labelled for Windows and for macOS. *)
Lemma C10_expensive_os_witness :
  let j := Scenario.two_platforms in
  Job.Labels j = ["windows-latest"; "macos-13"]
  ∧ (job_minutes (fl := binary64) j <=? f64_of_int 5)%f64 = false
  ∧ (∃ fix_text,
       Recommendations.DetectExpensiveOS (fl := binary64) (lib := go)
         {| Recommendations.CostReport.Jobs := [j];
            Recommendations.CostReport.Days := 30 |}
       = [ {| Recommendations.Recommendation.RuleID := "expensive-os";
              Recommendations.Recommendation.Severity := "high";
              Recommendations.Recommendation.EstimatedMonthlySavings :=
                (job_minutes j * f64_const (0.08 - 0.008)
                 * Recommendations.monthlyScale 30)%f64;
              Recommendations.Recommendation.Fix := fix_text |} ])
  ∧ Analyzer.RunnerRate (fl := binary64) (lib := go) (Job.Labels j) = f64_const 0.016.
Proof.
  intros j.
  assert (Job.Labels j = ["windows-latest"; "macos-13"]) as Hl by reflexivity.
  assert ((job_minutes (fl := binary64) j <=? f64_of_int 5)%f64 = false) as Hd
    by by_computation.
  destruct C10_expensive_os as (_ & _ & Hjob & _).
  destruct (Hjob binary64 go j 30%Z Hl Hd) as [Hrec Hrate].
  split; [exact Hl|]. split; [exact Hd|]. split; [exact Hrec|exact Hrate].
Defined.

(** ** The further properties on concrete inputs *)

(** The combined input of the test suite on binary64, under the library
    with Go's insertion sort: two step names, "npm install" with 3 minutes
    and "Checkout" with three quarters of a minute; the top steps are those
    of the library the program runs with. *)
Lemma X6_top_steps_witness :
  let agg := Analyzer.stepAgg
               (Analyzer.scan (fl := binary64) (lib := go_short) Scenario.combined) in
  let top := Analyzer.Report.TopSteps
               (Analyzer.Analyze (fl := binary64) (lib := go_short) Scenario.forwards
                  Scenario.combined 7) in
  GoSortSpec go_short ∧ Float64Laws binary64
  ∧ is_range Scenario.forwards agg
  ∧ Analyzer.StepCost.Name <$> top = ["npm install"; "Checkout"]
  ∧ length top = min 10 (size agg)
  ∧ NoDup (Analyzer.StepCost.Name <$> top)
  ∧ ordered_by (Analyzer.byMin (fl := binary64)) top
  ∧ top = Analyzer.Report.TopSteps
            (Analyzer.Analyze (fl := binary64) (lib := go) Scenario.forwards
               Scenario.combined 7).
Proof.
  intros agg top.
  destruct (@X6_top_steps binary64 go_short go_short_sort_spec binary64_laws
              Scenario.forwards Scenario.combined 7 (forwards_range _))
    as (Hlen & Hnames & Hord & _).
  split; [exact go_short_sort_spec|]. split; [exact binary64_laws|].
  split; [apply forwards_range|]. split; [by vm_compute|].
  split; [exact Hlen|]. split; [exact Hnames|]. split; [exact Hord|]. by vm_compute.
Defined.

Lemma X7_step_minutes_witness :
  let agg := Analyzer.stepAgg
               (Analyzer.scan (fl := exact) (lib := go_short) Scenario.combined) in
  let top := Analyzer.Report.TopSteps
               (Analyzer.Analyze (fl := exact) (lib := go_short) Scenario.forwards
                  Scenario.combined 7) in
  let s := {| Analyzer.StepCost.Name := "npm install";
              Analyzer.StepCost.Min := default 0%Q (agg !! "npm install") |} in
  GoLibSpec go_short
  ∧ is_range Scenario.forwards agg
  ∧ s ∈ top
  ∧ (Analyzer.StepCost.Min s == 3)%Q
  ∧ (Analyzer.StepCost.Min s
     == f64_sum (fl := exact)
          (step_minutes (fl := exact) <$>
           List.filter (λ st, String.eqb (Step.Name st) "npm install")
                       (ran_steps_of (fl := exact) Scenario.combined)))%Q
  ∧ (0 < Analyzer.StepCost.Min s)%Q.
Proof.
  intros agg top s.
  assert (s ∈ top) as Hin by (vm_compute; apply list_elem_of_here).
  destruct (@X7_step_minutes go_short go_short_spec Scenario.forwards Scenario.combined 7 s
              (forwards_range _) Hin) as [Hsum Hpos].
  split; [exact go_short_spec|]. split; [apply forwards_range|].
  split; [exact Hin|]. split; [by vm_compute|]. split; [exact Hsum|exact Hpos].
Defined.

(** The three-tier input of the test suite: every job has a label. *)
Lemma X12_default_os_witness :
  Forall (λ wf, Forall (λ job, Cost.JobAnalysis.Labels job ≠ [])
                       (Cost.WorkflowAnalysis.Jobs wf)) Scenario.three_tiers
  ∧ Cost.CalculateCost (fl := binary64) (lib := go) Scenario.three_tiers "linux" 7
    = Cost.CalculateCost (fl := binary64) (lib := go) Scenario.three_tiers "macos" 7.
Proof.
  assert (Forall (λ wf, Forall (λ job, Cost.JobAnalysis.Labels job ≠ [])
                               (Cost.WorkflowAnalysis.Jobs wf)) Scenario.three_tiers) as Hl
    by (repeat constructor; discriminate).
  destruct X12_default_os as [_ Hsame].
  split; [exact Hl|]. exact (Hsame binary64 go Scenario.three_tiers "linux" "macos" 7%Z Hl).
Defined.

(** Two jobs that share their two step names: two recommendations. *)
Lemma X17_duplicate_steps_witness :
  let cr := {| Recommendations.CostReport.Jobs := Scenario.shared_steps;
               Recommendations.CostReport.Days := 7 |} in
  is_range Scenario.backwards (Recommendations.stepJobs cr)
  ∧ length (Recommendations.DetectDuplicateSteps (fl := binary64) Scenario.backwards cr) = 2%nat
  ∧ Recommendations.DetectDuplicateSteps (fl := binary64) Scenario.backwards cr
    ≡ₚ (λ s, duplicate_rec s (size (sharing_jobs cr s)))
         <$> List.filter (λ s, (2 <=? size (sharing_jobs cr s))%nat)
               (elements (step_names cr)).
Proof.
  intros cr.
  split; [apply backwards_range|]. split; [by vm_compute|].
  exact (@X17_duplicate_steps binary64 Scenario.backwards cr (backwards_range _)).
Defined.

(** The labels of a macOS runner. *)
Lemma X9_macos_hint_witness :
  on_macos (lib := go) ["macos-13"] = true
  ∧ Recommendations.isMac (lib := go) ["macos-13"] = true.
Proof.
  assert (on_macos (lib := go) ["macos-13"] = true) as Hm by reflexivity.
  destruct X9_macos_hint as (_ & _ & Hmac & _).
  split; [exact Hm|]. exact (Hmac exact go ["macos-13"] Hm).
Defined.

(** The three jobs of the test suite, under the default OS "linux". *)
Lemma X20_engines_agree_witness :
  let a := Analyzer.Analyze (fl := exact) (lib := go) Scenario.forwards
             Scenario.three_jobs 7 in
  let c := Cost.CalculateCost (fl := exact) (lib := go)
             (as_workflow <$> Scenario.three_jobs) "linux" 7 in
  platform_label (lib := go) "linux" = false
  ∧ (Cost.CostReport.TotalCost c == Analyzer.Report.TotalCost a)%Q
  ∧ (Analyzer.Report.TotalCost a == 0.512)%Q.
Proof.
  intros a c.
  assert (platform_label (lib := go) "linux" = false) as Hos by reflexivity.
  destruct (@X20_engines_agree go Scenario.forwards Scenario.three_jobs "linux" 7 7 Hos)
    as (Htotal & _).
  split; [exact Hos|]. split; [exact Htotal|]. by vm_compute.
Defined.

(** A window of 7 days. *)
Lemma X21_observation_window_witness :
  (0 < 7)%Z
  ∧ (Recommendations.monthlyScale (fl := exact) 7 * inject_Z 7 == 30)%Q.
Proof.
  assert (0 < 7)%Z as H7 by lia.
  destruct X21_observation_window as (_ & _ & Hscale).
  split; [exact H7|]. exact (Hscale 7%Z H7).
Defined.

(** A job that failed as it started, on binary64: at most 12 entries are
    sorted, so the library with Go's insertion sort is the library the
    program runs with. *)
Lemma X22_nothing_ran_witness :
  let rep := Analyzer.Analyze (fl := binary64) (lib := go_short) Scenario.forwards
               Scenario.failed_at_once 7 in
  GoLibSpec go_short
  ∧ (∀ x : float, f64_ltb (Float64 := binary64) x x = false)
  ∧ is_range Scenario.forwards
      (Analyzer.stepAgg (Analyzer.scan (fl := binary64) (lib := go_short) Scenario.failed_at_once))
  ∧ Forall (λ j, job_ran (fl := binary64) j = false) Scenario.failed_at_once
  ∧ Analyzer.Report.TotalCost rep = f64_zero
  ∧ Analyzer.Report.ByWorkflow rep = ∅
  ∧ Analyzer.Report.Waste rep = []
  ∧ Analyzer.Report.Suggestions rep = []
  ∧ rep = Analyzer.Analyze (fl := binary64) (lib := go) Scenario.forwards
            Scenario.failed_at_once 7.
Proof.
  intros rep.
  assert (Forall (λ j, job_ran (fl := binary64) j = false) Scenario.failed_at_once) as Hnone
    by (repeat constructor).
  pose proof (@f64_lt_irrefl binary64 binary64_laws) as Hirr.
  destruct (@X22_nothing_ran binary64 go_short go_short_spec
              Scenario.forwards Scenario.failed_at_once 7 Hirr (forwards_range _) Hnone)
    as (_ & Hcost & Hwf & _ & Hwaste & Hsug).
  split; [exact go_short_spec|]. split; [exact Hirr|].
  split; [apply forwards_range|]. split; [exact Hnone|].
  split; [exact Hcost|]. split; [exact Hwf|]. split; [exact Hwaste|].
  split; [exact Hsug|]. by vm_compute.
Defined.

(** A job on a Linux runner whose only step, "Build app", triggers no rule. *)
Lemma X23_no_recommendations_witness :
  let cr := Scenario.build_app in
  is_range Scenario.forwards (Recommendations.stepJobs cr)
  ∧ Forall (λ j, Forall (λ s, cache_miss_trigger (fl := binary64) (lib := go) s = false
                              ∧ long_checkout_trigger (fl := binary64) (lib := go) s = false)
                        (Job.Steps j)
                 ∧ expensive_os_trigger (fl := binary64) (lib := go) j = false)
           (Recommendations.CostReport.Jobs cr)
  ∧ (∀ s, size (sharing_jobs cr s) < 2)%nat
  ∧ Recommendations.GenerateRecommendations (fl := binary64) (lib := go)
      Scenario.forwards cr = [].
Proof.
  intros cr.
  assert (Forall (λ j, Forall (λ s, cache_miss_trigger (fl := binary64) (lib := go) s = false
                                    ∧ long_checkout_trigger (fl := binary64) (lib := go) s
                                      = false)
                              (Job.Steps j)
                       ∧ expensive_os_trigger (fl := binary64) (lib := go) j = false)
                 (Recommendations.CostReport.Jobs cr)) as Hjobs
    by (repeat constructor).
  assert (∀ s, size (sharing_jobs cr s) < 2)%nat as Hnames.
  { intros s. unfold sharing_jobs, occurrences, cr, Scenario.build_app.
    cbn -[String.eqb size].
    destruct (String.eqb "Build app" s); cbn; [|rewrite size_empty; lia].
    rewrite (right_id_L ∅ (∪)), size_singleton. lia. }
  destruct (@X23_no_recommendations binary64 go Scenario.forwards cr (forwards_range _))
    as [_ Hnone].
  split; [apply forwards_range|]. split; [exact Hjobs|]. split; [exact Hnames|].
  exact (Hnone (conj Hjobs Hnames)).
Defined.

(** TestCalculateCost_ZeroDuration: the workflow "CI" is listed, with a cost
    of zero. *)
Lemma X24_nothing_counted_witness :
  let r := Cost.CalculateCost (fl := binary64) (lib := go_short)
             Scenario.zero_duration "linux" 7 in
  let ci := Scenario.workflow "CI"
              [ Scenario.job "noop" 0 ["ubuntu-latest"] [ Scenario.step "nothing" 0 ] ] in
  GoLibSpec go_short
  ∧ Forall (λ wf, Forall (λ job, counted_job (fl := binary64) job = false)
                         (Cost.WorkflowAnalysis.Jobs wf)) Scenario.zero_duration
  ∧ ci ∈ Scenario.zero_duration
  ∧ Cost.CostReport.PerStep r = []
  ∧ Cost.CostReport.TopSteps r = []
  ∧ Cost.CostReport.TotalCost r = f64_zero
  ∧ Cost.CostReport.PerWorkflow r !! "CI" = Some f64_zero
  ∧ r = Cost.CalculateCost (fl := binary64) (lib := go) Scenario.zero_duration "linux" 7.
Proof.
  intros r ci.
  assert (Forall (λ wf, Forall (λ job, counted_job (fl := binary64) job = false)
                               (Cost.WorkflowAnalysis.Jobs wf)) Scenario.zero_duration)
    as Hnone by (repeat constructor).
  assert (ci ∈ Scenario.zero_duration) as Hci by apply list_elem_of_here.
  destruct X24_nothing_counted as [_ Hbin].
  destruct (Hbin go_short go_short_spec Scenario.zero_duration "linux" 7%Z Hnone)
    as (Hsteps & Htop & _ & Htotal & _ & Hlisted).
  split; [exact go_short_spec|]. split; [exact Hnone|]. split; [exact Hci|].
  split; [exact Hsteps|]. split; [exact Htop|]. split; [exact Htotal|].
  split; [exact (Hlisted ci Hci)|]. by vm_compute.
Defined.
